(** * KeyRx system tray: state synchronisation with the daemon

    A shallow embedding of [src/keyrx_tray/keyrx-tray.py].  The tray object,
    its widgets and the logs of what it did are one record ([World]); the
    methods of [KeyRxTray] are programs in a small state-and-exception monad
    over it.  The daemon is an oracle from the history of HTTP requests and
    the current request to the outcome of the request.

    The toolkit (Gtk 3, AppIndicator3, Notify, GLib) is not part of the
    source.  A widget is the data the source reads and writes: a label, a
    check state, a list of children and how many of them are shown.  What
    the toolkit does on its own where the source relies on it is part of
    the model:
    - [set_active] on a check item whose state changes emits [activate],
      and the handler connected to the item runs before [set_active]
      returns; what the handler raises is printed and dropped;
    - a click on a check item flips its check state before the handler
      runs;
    - a timer whose callback does not return [True] is removed, and a
      callback that raises returns nothing;
    - a child appended to a menu is hidden until [show_all].

    A handler that runs inside [set_active] can call [set_active] again.
    The interpreter bounds this nesting; the handlers take the room that
    is left as [depth], and the run that would exceed it raises
    RecursionError on entry.

    The remapping flag is held twice by the source: in the field
    [self.remapping_enabled], assigned only by [on_toggle_remapping], and in
    the check state of [self.toggle_item], written by the toolkit on a
    click and by [set_active] in [update_status] and in the failure branch
    of [on_toggle_remapping]. *)

From Stdlib Require Import List String ZArith QArith Bool Arith Lia.
Import ListNotations.
Local Open Scope string_scope.
Local Open Scope list_scope.
Local Open Scope nat_scope.
Set Warnings "-register-all".

(** ** Python values *)

(** What [response.json()] can return, and what the tray stores of it.
    A dict is an association list in insertion order, looked up by its
    first matching key. *)
Inductive pyval : Type :=
| PNone
| PBool (b : bool)
| PNum (q : Q)
| PStr (s : string)
| PList (l : list pyval)
| PDict (d : list (string * pyval)).

(** Truth value of an object, as in [if status:]. *)
Definition py_truthy (v : pyval) : bool :=
  match v with
  | PNone => false
  | PBool b => b
  | PNum q => negb (Z.eqb (Qnum q) 0%Z)
  | PStr s => negb (String.eqb s "")
  | PList l => match l with [] => false | _ :: _ => true end
  | PDict d => match d with [] => false | _ :: _ => true end
  end.

Fixpoint dict_lookup (d : list (string * pyval)) (k : string) : option pyval :=
  match d with
  | [] => None
  | (k', v) :: rest => if String.eqb k' k then Some v else dict_lookup rest k
  end.

Inductive exn : Type := AttributeError | TypeError | KeyError | RecursionError.

Inductive Res (A : Type) : Type :=
| Ok (a : A)
| Raise (e : exn).
Arguments Ok {A} a.
Arguments Raise {A} e.

(** [obj.get(key, default)]: only a dict has the method. *)
Definition py_get (obj : pyval) (k : string) (default : pyval) : Res pyval :=
  match obj with
  | PDict d => Ok (match dict_lookup d k with Some v => v | None => default end)
  | _ => Raise AttributeError
  end.

(** [obj[key]] with a string key. *)
Definition py_subscript (obj : pyval) (k : string) : Res pyval :=
  match obj with
  | PDict d => match dict_lookup d k with Some v => Ok v | None => Raise KeyError end
  | _ => Raise TypeError
  end.

Fixpoint chars (s : string) : list pyval :=
  match s with
  | EmptyString => []
  | String c rest => PStr (String c EmptyString) :: chars rest
  end.

(** The sequence a [for] loop runs over. *)
Definition py_iter (obj : pyval) : Res (list pyval) :=
  match obj with
  | PList l => Ok l
  | PDict d => Ok (map (fun kv => PStr (fst kv)) d)
  | PStr s => Ok (chars s)
  | _ => Raise TypeError
  end.

(** An f-string with one hole at its end, or a literal. *)
Inductive pytext : Type :=
| Text (s : string)
| Fmt (prefix : string) (v : pyval).

(** ** Configuration *)

Record Config : Type := mkConfig {
  DAEMON_API_BASE : string;
  WEB_UI_URL : string;
  MOCK_MODE : bool;
  UPDATE_INTERVAL : Z
}.

(** [os.getenv(name, default)] over an environment. *)
Definition Environ : Type := string -> option string.

Definition getenv (env : Environ) (name default : string) : string :=
  match env name with Some v => v | None => default end.

Definition load_config (env : Environ) : Config :=
  {| DAEMON_API_BASE := getenv env "KEYRX_API_URL" "http://127.0.0.1:9867";
     WEB_UI_URL := getenv env "KEYRX_WEB_UI" "http://127.0.0.1:9867";
     MOCK_MODE := String.eqb (getenv env "KEYRX_MOCK" "0") "1";
     UPDATE_INTERVAL := 5000%Z |}.

(** ** The network *)

Inductive Method : Type := GET | POST.

Record Request : Type := mkRequest {
  req_method : Method;
  req_url : string;
  req_json : option pyval
}.

(** What [requests.get] / [requests.post] does: raise (no connection, or
    no answer within the timeout), or hand back a response with a status
    code and a body; [body = None] when [response.json()] raises. *)
Inductive HttpOutcome : Type :=
| ConnectionFailed
| TimedOut
| Response (status : Z) (body : option pyval).

(** [response.raise_for_status()] of the requests library raises for the
    client and server error codes, 400 to 599. *)
Definition raises_for_status (status : Z) : bool :=
  (400 <=? status)%Z && (status <? 600)%Z.

Definition Network : Type := list Request -> Request -> HttpOutcome.

(** ** The tray and its widgets *)

Inductive MenuItem : Type :=
| RefreshProfiles
| Separator
| NoProfiles
| ProfileItem (name : pyval) (active : bool).

Record Tray : Type := mkTray {
  daemon_running : bool;
  current_profile : pyval;
  remapping_enabled : bool;
  profiles_loaded : bool;      (* hasattr(self, '_profiles_loaded') *)
  status_item : pytext;        (* label of self.status_item *)
  toggle_item : bool;          (* check state of self.toggle_item *)
  indicator_icon : string;
  profiles_submenu : list MenuItem
}.

Record Notification : Type := mkNotification {
  n_title : string;
  n_message : pytext;
  n_icon : string
}.

Inductive ConsoleLine : Type :=
| MockPost (endpoint : string) (data : pyval)
| ApiGetError
| ApiPostError
| Traceback (e : exn).          (* printed by the toolkit for a handler that raised *)

Inductive Callback : Type := CbUpdateStatus.

(** One call of [api_get] or [api_post], with the tray as it was when the
    call was made (a ghost record, used to state what precedes what). *)
Record Call : Type := mkCall {
  call_method : Method;
  call_endpoint : string;
  call_data : option pyval;
  call_tray : Tray
}.

Record World : Type := mkWorld {
  tray : Tray;
  http_log : list Request;          (* requests put on the wire, oldest first *)
  calls : list Call;                (* transport calls, oldest first *)
  notifications : list Notification;
  console : list ConsoleLine;
  timers : list (Z * Callback);     (* GLib.timeout_add registrations *)
  shown : nat                       (* children of the submenu that are shown *)
}.

Definition with_tray (f : Tray -> Tray) (w : World) : World :=
  mkWorld (f (tray w)) (http_log w) (calls w) (notifications w) (console w)
          (timers w) (shown w).

Definition set_timers (ts : list (Z * Callback)) (w : World) : World :=
  mkWorld (tray w) (http_log w) (calls w) (notifications w) (console w) ts (shown w).

Definition set_shown (n : nat) (w : World) : World :=
  mkWorld (tray w) (http_log w) (calls w) (notifications w) (console w) (timers w) n.

Definition set_daemon_running (b : bool) (t : Tray) : Tray :=
  mkTray b (current_profile t) (remapping_enabled t) (profiles_loaded t)
         (status_item t) (toggle_item t) (indicator_icon t) (profiles_submenu t).
Definition set_current_profile (v : pyval) (t : Tray) : Tray :=
  mkTray (daemon_running t) v (remapping_enabled t) (profiles_loaded t)
         (status_item t) (toggle_item t) (indicator_icon t) (profiles_submenu t).
Definition set_remapping_enabled (b : bool) (t : Tray) : Tray :=
  mkTray (daemon_running t) (current_profile t) b (profiles_loaded t)
         (status_item t) (toggle_item t) (indicator_icon t) (profiles_submenu t).
Definition set_profiles_loaded (b : bool) (t : Tray) : Tray :=
  mkTray (daemon_running t) (current_profile t) (remapping_enabled t) b
         (status_item t) (toggle_item t) (indicator_icon t) (profiles_submenu t).
Definition set_status_label (l : pytext) (t : Tray) : Tray :=
  mkTray (daemon_running t) (current_profile t) (remapping_enabled t) (profiles_loaded t)
         l (toggle_item t) (indicator_icon t) (profiles_submenu t).
Definition set_toggle_active (b : bool) (t : Tray) : Tray :=
  mkTray (daemon_running t) (current_profile t) (remapping_enabled t) (profiles_loaded t)
         (status_item t) b (indicator_icon t) (profiles_submenu t).
Definition set_icon (i : string) (t : Tray) : Tray :=
  mkTray (daemon_running t) (current_profile t) (remapping_enabled t) (profiles_loaded t)
         (status_item t) (toggle_item t) i (profiles_submenu t).
Definition set_submenu (m : list MenuItem) (t : Tray) : Tray :=
  mkTray (daemon_running t) (current_profile t) (remapping_enabled t) (profiles_loaded t)
         (status_item t) (toggle_item t) (indicator_icon t) m.

(** ** The monad: state, and exceptions that keep the state *)

Definition M (A : Type) : Type := World -> Res A * World.

Definition ret {A} (a : A) : M A := fun w => (Ok a, w).

Definition bind {A B} (c : M A) (k : A -> M B) : M B :=
  fun w => match c w with
           | (Ok a, w') => k a w'
           | (Raise e, w') => (Raise e, w')
           end.

Definition lift {A} (r : Res A) : M A := fun w => (r, w).

Definition read {A} (f : Tray -> A) : M A := fun w => (Ok (f (tray w)), w).

Definition write (f : Tray -> Tray) : M unit := fun w => (Ok tt, with_tray f w).

Declare Scope tray_scope.
Delimit Scope tray_scope with tray.
Notation "x <- c ;; k" := (bind c (fun x => k))
  (at level 61, c at next level, right associativity) : tray_scope.
Notation "c ;; k" := (bind c (fun _ => k))
  (at level 61, right associativity) : tray_scope.
Local Open Scope tray_scope.

Definition log_call (m : Method) (endpoint : string) (data : option pyval) : M unit :=
  fun w => (Ok tt, mkWorld (tray w) (http_log w)
                           (calls w ++ [mkCall m endpoint data (tray w)])
                           (notifications w) (console w) (timers w) (shown w)).

Definition print (l : ConsoleLine) : M unit :=
  fun w => (Ok tt, mkWorld (tray w) (http_log w) (calls w) (notifications w)
                           (console w ++ [l]) (timers w) (shown w)).

(** [show_notification] *)
Definition show_notification (title : string) (message : pytext) (icon : string) : M unit :=
  fun w => (Ok tt, mkWorld (tray w) (http_log w) (calls w)
                           (notifications w ++ [mkNotification title message icon])
                           (console w) (timers w) (shown w)).

Definition timeout_add (interval : Z) (cb : Callback) : M unit :=
  fun w => (Ok tt, set_timers (timers w ++ [(interval, cb)]) w).

(** A handler run by the toolkit for a signal: what it raises is printed
    and goes no further. *)
Definition emit (handler : M unit) : M unit :=
  fun w => match handler w with
           | (Ok _, w') => (Ok tt, w')
           | (Raise e, w') => print (Traceback e) w'
           end.

(** [self.toggle_item.set_active(b)], with [handler] connected to the
    item: nothing happens when the check state is [b] already; otherwise
    the state changes and the item emits [activate]. *)
Definition set_active (handler : M unit) (b : bool) : M unit :=
  current <- read toggle_item ;;
  if Bool.eqb current b then ret tt
  else write (set_toggle_active b) ;; emit handler.

(** [remove] of the children after the first two, and [show_all]. *)
Definition remove_profile_items : M unit :=
  fun w => (Ok tt, set_shown (Nat.min (shown w) 2)
                     (with_tray (fun t => set_submenu (firstn 2 (profiles_submenu t)) t) w)).

Definition show_all : M unit :=
  fun w => (Ok tt, set_shown (List.length (profiles_submenu (tray w))) w).

(** The widget a profile entry becomes: its label is a string or None. *)
Definition as_label (v : pyval) : Res pyval :=
  match v with
  | PStr _ | PNone => Ok v
  | _ => Raise TypeError
  end.

Definition mock_profiles : pyval :=
  PDict [("profiles",
          PList [PDict [("name", PStr "default"); ("active", PBool true)];
                 PDict [("name", PStr "gaming"); ("active", PBool false)];
                 PDict [("name", PStr "coding"); ("active", PBool false)]])].

(** The status dict of [mock_api_response]. *)
Definition status_payload_mock (enabled : bool) : pyval :=
  PDict [("running", PBool true);
         ("version", PStr "0.1.0");
         ("profile", PStr "default");
         ("remapping_enabled", PBool enabled)].

(** Names of profile entries are strings or None (see [as_label]). *)
Definition label_eqb (a b : pyval) : bool :=
  match a, b with
  | PStr s, PStr t => String.eqb s t
  | PNone, PNone => true
  | _, _ => false
  end.

(** A click on the entry made for [name]: the toolkit flips its check
    state. *)
Fixpoint flip_item (name : pyval) (items : list MenuItem) : list MenuItem :=
  match items with
  | [] => []
  | ProfileItem n a :: rest =>
      if label_eqb n name then ProfileItem n (negb a) :: rest
      else ProfileItem n a :: flip_item name rest
  | i :: rest => i :: flip_item name rest
  end.

Section KeyRxTray.

Variable cfg : Config.
Variable net : Network.

(** [requests.get] / [requests.post] against the daemon. *)
Definition http (m : Method) (endpoint : string) (data : option pyval) : M HttpOutcome :=
  fun w =>
    let req := mkRequest m (DAEMON_API_BASE cfg ++ endpoint) data in
    (Ok (net (http_log w) req),
     mkWorld (tray w) (http_log w ++ [req]) (calls w) (notifications w)
             (console w) (timers w) (shown w)).

(** [mock_api_response] *)
Definition mock_api_response (endpoint : string) : M pyval :=
  if String.eqb endpoint "/api/status" then
    enabled <- read remapping_enabled ;;
    ret (status_payload_mock enabled)
  else if String.eqb endpoint "/api/profiles" then
    ret mock_profiles
  else ret (PDict []).

(** [api_get]: [PNone] is Python's [None]. *)
Definition api_get (endpoint : string) : M pyval :=
  log_call GET endpoint None ;;
  if MOCK_MODE cfg then mock_api_response endpoint
  else
    r <- http GET endpoint None ;;
    match r with
    | Response status body =>
        if raises_for_status status then print ApiGetError ;; ret PNone
        else match body with
             | Some v => ret v
             | None => print ApiGetError ;; ret PNone
             end
    | _ => print ApiGetError ;; ret PNone
    end.

(** [api_post] *)
Definition api_post (endpoint : string) (data : pyval) : M bool :=
  log_call POST endpoint (Some data) ;;
  if MOCK_MODE cfg then print (MockPost endpoint data) ;; ret true
  else
    r <- http POST endpoint (Some data) ;;
    match r with
    | Response status _ =>
        if raises_for_status status then print ApiPostError ;; ret false
        else ret true
    | _ => print ApiPostError ;; ret false
    end.

(** The loop of [update_profiles] over the daemon's entries.  The new
    item gets its check state before its handler is connected, so this
    [set_active] runs no handler. *)
Fixpoint add_profile_items (profiles : list pyval) : M unit :=
  match profiles with
  | [] => ret tt
  | profile :: rest =>
      name <- lift (py_subscript profile "name") ;;
      label <- lift (as_label name) ;;
      active <- lift (py_get profile "active" (PBool false)) ;;
      write (fun t => set_submenu
               (profiles_submenu t ++ [ProfileItem label (py_truthy active)]) t) ;;
      add_profile_items rest
  end.

(** [update_profiles] *)
Definition update_profiles : M unit :=
  remove_profile_items ;;
  profiles_data <- api_get "/api/profiles" ;;
  (if negb (py_truthy profiles_data) then
     write (fun t => set_submenu (profiles_submenu t ++ [NoProfiles]) t)
   else
     profiles <- lift (py_get profiles_data "profiles" (PList [])) ;;
     items <- lift (py_iter profiles) ;;
     add_profile_items items) ;;
  show_all.

(** [on_toggle_remapping]; the widget is [self.toggle_item], the only
    item the handler is connected to.  [depth] is the number of further
    handler runs the interpreter has room for: the run that would exceed
    it raises RecursionError on entry. *)
Fixpoint on_toggle_remapping (depth : nat) : M unit :=
  enabled <- read toggle_item ;;
  write (set_remapping_enabled enabled) ;;
  ok <- api_post "/api/toggle" (PDict [("enabled", PBool enabled)]) ;;
  if ok then
    show_notification "KeyRx Remapping"
      (Text ("Remapping " ++ (if enabled then "enabled" else "disabled")))
      "input-keyboard"
  else
    set_active (match depth with
                | 0 => lift (Raise RecursionError)
                | S below => on_toggle_remapping below
                end) (negb enabled) ;;
    show_notification "KeyRx Error" (Text "Failed to toggle remapping") "dialog-error".

(** The handler of [activate] on the toggle item, run from inside a
    handler that has room for [depth] more. *)
Definition activate (depth : nat) : M unit :=
  match depth with
  | 0 => lift (Raise RecursionError)
  | S below => on_toggle_remapping below
  end.

(** [update_status] *)
Definition update_status (depth : nat) : M bool :=
  status <- api_get "/api/status" ;;
  (if py_truthy status then
     write (set_daemon_running true) ;;
     profile <- lift (py_get status "profile" (PStr "Unknown")) ;;
     write (set_current_profile profile) ;;
     enabled <- lift (py_get status "remapping_enabled" (PBool true)) ;;
     write (set_status_label (Fmt "Profile: " profile)) ;;
     set_active (activate depth) (py_truthy enabled) ;;
     write (set_icon (if py_truthy enabled then "input-keyboard"
                      else "input-keyboard-symbolic")) ;;
     loaded <- read profiles_loaded ;;
     if negb loaded then
       update_profiles ;;
       write (set_profiles_loaded true)
     else ret tt
   else
     write (set_daemon_running false) ;;
     write (set_status_label (Text "Status: Daemon not running")) ;;
     write (set_icon "input-keyboard-symbolic")) ;;
  ret true.

(** [on_switch_profile] *)
Definition on_switch_profile (profile_name : pyval) : M unit :=
  ok <- api_post "/api/profiles/activate" (PDict [("name", profile_name)]) ;;
  if ok then
    write (set_current_profile profile_name) ;;
    show_notification "KeyRx Profile"
      (Fmt "Switched to profile: " profile_name) "input-keyboard" ;;
    update_profiles
  else
    show_notification "KeyRx Error"
      (Fmt "Failed to switch to profile: " profile_name) "dialog-error".

(** [__init__] with the part of [build_menu] the state lives in. *)
Definition initial_tray : Tray :=
  {| daemon_running := false;
     current_profile := PNone;
     remapping_enabled := true;
     profiles_loaded := false;
     status_item := Text "Status: Checking...";
     toggle_item := true;
     indicator_icon := "input-keyboard";
     profiles_submenu := [RefreshProfiles; Separator] |}.

(** After [build_menu]: [menu.show_all()] has shown the two children. *)
Definition empty_world : World := mkWorld initial_tray [] [] [] [] [] 2.

Definition init (depth : nat) : M unit :=
  timeout_add (UPDATE_INTERVAL cfg) CbUpdateStatus ;;
  update_status depth ;;
  ret tt.

(** What the main loop dispatches.  [Tick]: the timer fired.
    [ToggleActivated b]: the toggle item was clicked and its check state
    is now [b].  [ProfileActivated name]: the profile entry created for
    [name] was clicked (the first one, should the list have the name
    twice).  [RefreshActivated]: the refresh entry was clicked. *)
Inductive Event : Type :=
| Tick
| ToggleActivated (now_active : bool)
| ProfileActivated (name : pyval)
| RefreshActivated.

Definition is_tick (ev : Event) : bool :=
  match ev with Tick => true | _ => false end.

(** The timer callback: when [update_status] raises it returns nothing,
    and the timer that fired is removed. *)
Definition on_timer (depth : nat) : M unit :=
  fun w => match update_status depth w with
           | (Ok _, w') => (Ok tt, w')
           | (Raise e, w') => (Raise e, set_timers (List.tl (timers w')) w')
           end.

Definition dispatch (depth : nat) (ev : Event) : M unit :=
  match ev with
  | Tick => on_timer depth
  | ToggleActivated b => write (set_toggle_active b) ;; on_toggle_remapping depth
  | ProfileActivated name =>
      write (fun t => set_submenu (flip_item name (profiles_submenu t)) t) ;;
      on_switch_profile name
  | RefreshActivated => update_profiles
  end.

(** The loop takes one event: a tick is taken only while a timer is
    registered.  A handler runs to its end before the next event is
    taken; an exception ends the handler, not the loop. *)
Definition deliver (depth : nat) (ev : Event) (w : World) : World :=
  match ev, timers w with
  | Tick, [] => w
  | _, _ => snd (dispatch depth ev w)
  end.

Fixpoint run_loop (depth : nat) (evs : list Event) (w : World) : World :=
  match evs with
  | [] => w
  | ev :: rest => run_loop depth rest (deliver depth ev w)
  end.





End KeyRxTray.

Arguments http cfg net m endpoint data w : simpl never.


(** ** Reading the state *)

(** The profile entries of the submenu: its children after the refresh
    action and the separator, [get_children()[2:]]. *)
Definition profiles (t : Tray) : list MenuItem := skipn 2 (profiles_submenu t).

Definition is_active (i : MenuItem) : bool :=
  match i with ProfileItem _ a => a | _ => false end.

Definition count_active (items : list MenuItem) : nat :=
  List.length (filter is_active items).

Definition well_formed_menu (t : Tray) : Prop :=
  firstn 2 (profiles_submenu t) = [RefreshProfiles; Separator].

(** The entries a profiles payload marks active, read the way
    [update_profiles] reads them. *)
Definition entry_active (p : pyval) : bool :=
  match py_get p "active" (PBool false) with
  | Ok a => py_truthy a
  | Raise _ => false
  end.

Definition payload_entries (v : pyval) : list pyval :=
  match py_get v "profiles" (PList []) with
  | Ok ps => match py_iter ps with Ok l => l | Raise _ => [] end
  | Raise _ => []
  end.

Definition payload_active_count (v : pyval) : nat :=
  List.length (filter entry_active (payload_entries v)).

(** A request failed when [requests] raised or the status is an error. *)
Definition http_failed (o : HttpOutcome) : bool :=
  match o with
  | Response status _ => raises_for_status status
  | _ => true
  end.

(** The value [api_get] hands back for an outcome of the request. *)
Definition get_value (o : HttpOutcome) : pyval :=
  match o with
  | Response status (Some v) => if raises_for_status status then PNone else v
  | _ => PNone
  end.

Definition is_post (c : Call) : bool :=
  match call_method c with POST => true | GET => false end.

Definition is_profiles_fetch (c : Call) : bool :=
  match call_method c with
  | GET => String.eqb (call_endpoint c) "/api/profiles"
  | POST => false
  end.

(** Calls of [api_post] so far, and POST requests put on the wire. *)
Definition post_calls (w : World) : nat := List.length (filter is_post (calls w)).


Definition profile_fetches (w : World) : nat :=
  List.length (filter is_profiles_fetch (calls w)).

Definition is_command (ev : Event) : bool :=
  match ev with
  | ToggleActivated _ | ProfileActivated _ => true
  | _ => false
  end.

(** A configuration is open to the environment at a field when two
    environments give the field different values. *)
Definition configurable {A} (field : Config -> A) : Prop :=
  exists env1 env2 : Environ, field (load_config env1) <> field (load_config env2).

(** ** Concrete configurations and daemons *)

Definition no_env : Environ := fun _ => None.

Definition mock_env : Environ :=
  fun name => if String.eqb name "KEYRX_MOCK" then Some "1" else None.

Definition live_cfg : Config := load_config no_env.
Definition mock_cfg : Config := load_config mock_env.

Definition daemon_down : Network := fun _ _ => ConnectionFailed.

(** A daemon that plays a script: the n-th request gets the n-th outcome. *)
Definition scripted (script : list HttpOutcome) : Network :=
  fun history _ => nth (List.length history) script ConnectionFailed.

Definition status_payload (profile : string) (enabled : bool) : pyval :=
  PDict [("running", PBool true); ("profile", PStr profile);
         ("remapping_enabled", PBool enabled)].

(** Everything of a tray but the submenu, and everything of a world but
    the tray. *)
Definition fields (t : Tray) :=
  (daemon_running t, current_profile t, remapping_enabled t, profiles_loaded t,
   status_item t, toggle_item t, indicator_icon t).

Definition logs (w : World) :=
  (http_log w, calls w, notifications w, console w, timers w, shown w).

(** The payload [update_profiles] gets in world [w]. *)
Definition profiles_value (cfg : Config) (net : Network) (w : World) : pyval :=
  if MOCK_MODE cfg then mock_profiles
  else get_value (net (http_log w)
                      (mkRequest GET (DAEMON_API_BASE cfg ++ "/api/profiles") None)).

(** The payload [update_status] gets in world [w]. *)
Definition status_value (cfg : Config) (net : Network) (w : World) : pyval :=
  if MOCK_MODE cfg then status_payload_mock (remapping_enabled (tray w))
  else get_value (net (http_log w)
                      (mkRequest GET (DAEMON_API_BASE cfg ++ "/api/status") None)).

(** What [api_post] answers in world [w]. *)
Definition post_ok (cfg : Config) (net : Network) (endpoint : string) (data : pyval)
    (w : World) : bool :=
  if MOCK_MODE cfg then true
  else negb (http_failed
               (net (http_log w)
                    (mkRequest POST (DAEMON_API_BASE cfg ++ endpoint) (Some data)))).

(** A daemon that answers every request with 503 and a JSON body. *)
Definition daemon_unavailable : Network :=
  fun _ _ => Response 503 (Some (status_payload "coding" true)).

Definition other_web_env : Environ :=
  fun name => if String.eqb name "KEYRX_WEB_UI" then Some "http://10.0.0.2:9867" else None.

Definition other_api_env : Environ :=
  fun name => if String.eqb name "KEYRX_API_URL" then Some "http://10.0.0.2:9867" else None.

Definition is_nonempty_dict (v : pyval) : bool :=
  match v with
  | PDict (_ :: _) => true
  | _ => false
  end.

(** A daemon that is up for one poll, gone for the next, and up again. *)
Definition reconnect_script : list HttpOutcome :=
  [Response 200 (Some (status_payload "default" true));
   Response 200 (Some mock_profiles);
   ConnectionFailed;
   Response 200 (Some (status_payload "default" true))].

(** A daemon that answers a poll with profile coding, then goes away. *)
Definition coding_script : list HttpOutcome :=
  [Response 200 (Some (status_payload "coding" true));
   Response 200 (Some mock_profiles)].

Definition coding_world : World :=
  Eval vm_compute in snd (init live_cfg (scripted coding_script) 3 empty_world).

(** A daemon with the status and the list of the mock while the tray
    starts.  It acknowledges a toggle, then answers a poll with a status
    that has neither a profile nor a remapping flag, refuses the next
    toggle and acknowledges the one after. *)
Definition partial_script : list HttpOutcome :=
  [Response 200 (Some (status_payload "default" true));
   Response 200 (Some (status_payload "default" true));
   Response 200 (Some mock_profiles);
   Response 200 None;
   Response 200 (Some (PDict [("running", PBool true)]));
   Response 500 None;
   Response 200 None].

(** A daemon that cannot be reached while the tray starts and for two
    requests more, and then answers. *)
Definition retry_script : list HttpOutcome :=
  [ConnectionFailed; ConnectionFailed;
   ConnectionFailed; ConnectionFailed; Response 200 None].

(** The POST of a toggle and of a profile switch in live mode. *)
Definition toggle_request (cfg : Config) (enabled : bool) : Request :=
  mkRequest POST (DAEMON_API_BASE cfg ++ "/api/toggle")
            (Some (PDict [("enabled", PBool enabled)])).

Definition switch_request (cfg : Config) (name : pyval) : Request :=
  mkRequest POST (DAEMON_API_BASE cfg ++ "/api/profiles/activate")
            (Some (PDict [("name", name)])).

(** The daemon acknowledges every toggle, every profile switch. *)
Definition daemon_acks_toggles (cfg : Config) (net : Network) : Prop :=
  forall history enabled, http_failed (net history (toggle_request cfg enabled)) = false.

Definition daemon_acks_switches (cfg : Config) (net : Network) : Prop :=
  forall history name, http_failed (net history (switch_request cfg name)) = false.

Definition is_switch (ev : Event) : bool :=
  match ev with ProfileActivated _ => true | _ => false end.

(** A tray but for the two holders of the remapping flag. *)
Definition besides_flag (t : Tray) : Tray :=
  set_toggle_active false (set_remapping_enabled false t).

(** A success status in the sense of HTTP: 200 to 299. *)
Definition success_status (status : Z) : bool :=
  (200 <=? status)%Z && (status <? 300)%Z.

(** A daemon that answers 304 without a body, and one that answers 302
    with a body. *)
Definition daemon_not_modified : Network := fun _ _ => Response 304 None.

Definition daemon_found : Network :=
  fun _ _ => Response 302 (Some (status_payload "coding" true)).

(** The daemon never lists more than one active profile. *)
Definition daemon_lists_one_active (cfg : Config) (net : Network) : Prop :=
  forall history status v,
    net history (mkRequest GET (DAEMON_API_BASE cfg ++ "/api/profiles") None)
    = Response status (Some v) ->
    payload_active_count v <= 1.

(** A daemon that lists two active profiles. *)
Definition two_active : pyval :=
  PDict [("profiles",
          PList [PDict [("name", PStr "default"); ("active", PBool true)];
                 PDict [("name", PStr "gaming"); ("active", PBool true)]])].

Definition two_active_script : list HttpOutcome :=
  [Response 200 (Some (status_payload "default" true));
   Response 200 (Some two_active)].

(** A daemon that serves the status and the profile list of the mock. *)
Definition steady_daemon : Network :=
  fun _ req =>
    if String.eqb (req_url req) "http://127.0.0.1:9867/api/status"
    then Response 200 (Some (status_payload "default" true))
    else Response 200 (Some mock_profiles).

(** The world after startup in mock mode: the profile list of the mock,
    default active. *)
Definition mock_started : World :=
  Eval vm_compute in snd (init mock_cfg daemon_down 3 empty_world).

(** The tray shows [name] as the active profile: it is the profile name
    and the only entry of the list that is checked. *)
Definition shows_active (name : pyval) (t : Tray) : Prop :=
  current_profile t = name
  /\ filter is_active (profiles t) = [ProfileItem name true].

Definition activate_call (name : pyval) (t : Tray) : Call :=
  mkCall POST "/api/profiles/activate" (Some (PDict [("name", name)])) t.

(** ** Startup *)

(** [check_daemon_running]: a request of its own, outside [api_get]. *)
Definition check_daemon_running (cfg : Config) (net : Network) : M bool :=
  if MOCK_MODE cfg then ret true
  else
    r <- http cfg net GET "/api/status" None ;;
    match r with
    | Response status _ => ret (Z.eqb status 200)
    | _ => ret false
    end.

Inductive Stream : Type := Stdout | Stderr.

(** Where [main] ends: in [Gtk.main()], or with an exception that left
    [KeyRxTray()]. *)
Inductive LoopState : Type :=
| Running
| Crashed (e : exn).

Record Process : Type := mkProcess {
  proc_world : World;
  proc_output : list (Stream * string);   (* what main itself prints *)
  proc_loop : LoopState
}.

Definition startup_warning : list (Stream * string) :=
  [(Stderr, "Warning: KeyRx daemon is not running");
   (Stderr, "Start daemon with: sudo systemctl start keyrx");
   (Stderr, "Tray will continue and retry connection...")].

(** [main], up to the call of [Gtk.main()]. *)
Definition main (cfg : Config) (net : Network) (depth : nat) : Process :=
  match check_daemon_running cfg net empty_world with
  | (Raise e, w1) => mkProcess w1 [] (Crashed e)
  | (Ok running, w1) =>
      let warnings :=
        if negb running && negb (MOCK_MODE cfg) then startup_warning else [] in
      match init cfg net depth w1 with
      | (Raise e, w2) => mkProcess w2 warnings (Crashed e)
      | (Ok _, w2) =>
          mkProcess w2
            (warnings ++ [(Stdout, "KeyRx system tray started");
                          (Stdout, ("Daemon API: " ++ DAEMON_API_BASE cfg)%string);
                          (Stdout, ("Web UI: " ++ WEB_UI_URL cfg)%string)])
            Running
      end
  end.

(** The world [main] leaves when the daemon cannot be reached. *)
Definition down_started : World :=
  Eval vm_compute in proc_world (main live_cfg (scripted retry_script) 3).

(** The world after startup with the daemon of [partial_script], when the
    user has switched remapping off and the daemon has acknowledged. *)
Definition switched_off_world : World :=
  Eval vm_compute in
    run_loop live_cfg (scripted partial_script) 3 [ToggleActivated false]
      (proc_world (main live_cfg (scripted partial_script) 3)).

(** The world [main] leaves with the steady daemon: the list of the
    mock, default active. *)
Definition steady_started : World :=
  Eval vm_compute in proc_world (main live_cfg steady_daemon 3).

(** ** Payloads that follow the API contract *)

(** One profile of the daemon as the payload carries it. *)
Definition profile_entry (p : string * bool) : pyval :=
  PDict [("name", PStr (fst p)); ("active", PBool (snd p))].

Definition profiles_payload (ps : list (string * bool)) : pyval :=
  PDict [("profiles", PList (map profile_entry ps))].

Definition profile_item (p : string * bool) : MenuItem :=
  ProfileItem (PStr (fst p)) (snd p).

(** An entry [update_profiles] can turn into a menu item: a dict whose
    name is a string or None. *)
Definition entry_ok (p : pyval) : bool :=
  match py_subscript p "name" with
  | Ok (PStr _) | Ok PNone => true
  | _ => false
  end.

(** A profiles payload [update_profiles] goes through without raising. *)
Definition profiles_ok (v : pyval) : bool :=
  match v with
  | PDict d =>
      match dict_lookup d "profiles" with
      | Some (PList l) => forallb entry_ok l
      | Some _ => false
      | None => true
      end
  | _ => negb (py_truthy v)
  end.

(** A status payload [update_status] goes through without raising. *)
Definition status_ok (v : pyval) : bool :=
  match v with
  | PDict _ => true
  | _ => negb (py_truthy v)
  end.

(** The daemon keeps to the shapes above in every answer. *)
Definition daemon_well_shaped (cfg : Config) (net : Network) : Prop :=
  forall history,
    status_ok (get_value (net history
       (mkRequest GET (DAEMON_API_BASE cfg ++ "/api/status") None))) = true
    /\ profiles_ok (get_value (net history
         (mkRequest GET (DAEMON_API_BASE cfg ++ "/api/profiles") None))) = true.

(** A daemon whose every answer to a GET is a status with neither a
    profile nor a remapping flag, and that acknowledges every POST. *)
Definition partial_daemon : Network :=
  fun _ req =>
    match req_method req with
    | GET => Response 200 (Some (PDict [("running", PBool true)]))
    | POST => Response 200 None
    end.


(** The remapping flag a status payload carries: [True] when it has
    none, as [status.get("remapping_enabled", True)] reads it. *)
Definition status_flag (v : pyval) : bool :=
  match py_get v "remapping_enabled" (PBool true) with
  | Ok enabled => py_truthy enabled
  | Raise _ => true
  end.

(** Tracebacks printed for handlers that raised while they ran inside
    [set_active].  What a handler the loop runs raises is the result of
    [dispatch]. *)
Definition is_traceback (l : ConsoleLine) : bool :=
  match l with Traceback _ => true | _ => false end.

Definition tracebacks (w : World) : list ConsoleLine :=
  filter is_traceback (console w).

(** ** Invariants of programs *)

Definition returns {A} (r : Res A) : bool :=
  match r with Ok _ => true | Raise _ => false end.

(** A program keeps [I]: from a world in [I] it ends in a world in [I],
    whether it returns or raises. *)
Definition preserves {A} (I : World -> Prop) (c : M A) : Prop :=
  forall w, I w -> I (snd (c w)).


Definition is_profile_item (i : MenuItem) : bool :=
  match i with ProfileItem _ _ => true | _ => false end.

(** [self.profiles_submenu.append(item)] for each item of a list. *)
Definition append_items (its : list MenuItem) (w : World) : World :=
  with_tray (fun t => set_submenu (profiles_submenu t ++ its) t) w.

Definition started_lines (cfg : Config) : list (Stream * string) :=
  [(Stdout, "KeyRx system tray started");
   (Stdout, ("Daemon API: " ++ DAEMON_API_BASE cfg)%string);
   (Stdout, ("Web UI: " ++ WEB_UI_URL cfg)%string)].

(** The request of [check_daemon_running] and of every poll. *)
Definition status_request (cfg : Config) : Request :=
  mkRequest GET (DAEMON_API_BASE cfg ++ "/api/status") None.

(** A daemon whose status is a JSON list. *)
Definition list_status_script : list HttpOutcome :=
  [Response 200 (Some (PList [PStr "running"]));
   Response 200 (Some (PList [PStr "running"]))].

(** A daemon that cannot be reached while the tray starts, then
    answers a poll, and lists a profile without a name. *)
Definition late_bad_script : list HttpOutcome :=
  [ConnectionFailed;
   ConnectionFailed;
   Response 200 (Some (status_payload "default" true));
   Response 200 (Some (PDict [("profiles", PList [PDict [("active", PBool true)]])]))].

(** The world [main] leaves with that daemon: not running, the timer
    registered, no profiles loaded. *)
Definition waiting_world : World :=
  Eval vm_compute in proc_world (main live_cfg (scripted late_bad_script) 3).

(** The POST a command puts on the wire in live mode. *)
Definition command_request (cfg : Config) (ev : Event) : Request :=
  match ev with
  | ToggleActivated b =>
      mkRequest POST (DAEMON_API_BASE cfg ++ "/api/toggle")
                (Some (PDict [("enabled", PBool b)]))
  | ProfileActivated name =>
      mkRequest POST (DAEMON_API_BASE cfg ++ "/api/profiles/activate")
                (Some (PDict [("name", name)]))
  | _ => status_request cfg
  end.

Definition is_error (n : Notification) : bool :=
  String.eqb (n_title n) "KeyRx Error" && String.eqb (n_icon n) "dialog-error".

(** The entries the mock lists. *)
Definition mock_items : list MenuItem :=
  [ProfileItem (PStr "default") true;
   ProfileItem (PStr "gaming") false;
   ProfileItem (PStr "coding") false].

(** * Properties *)

(** ** The transport *)

Section Transport.

Variable cfg : Config.
Variable net : Network.

Lemma api_get_live endpoint w :
  MOCK_MODE cfg = false ->
  exists w',
    api_get cfg net endpoint w
    = (Ok (get_value (net (http_log w)
                          (mkRequest GET (DAEMON_API_BASE cfg ++ endpoint) None))), w')
    /\ tray w' = tray w
    /\ http_log w' = http_log w
                     ++ [mkRequest GET (DAEMON_API_BASE cfg ++ endpoint) None]
    /\ calls w' = calls w ++ [mkCall GET endpoint None (tray w)]
    /\ notifications w' = notifications w
    /\ timers w' = timers w.
Proof.
  intros Hlive. unfold api_get, bind, log_call, http. rewrite Hlive. cbn.
  destruct (net _ _) as [ | | status [v|]]; cbn;
    try destruct (raises_for_status status); cbn;
    eexists; (split; [reflexivity | cbn; auto]).
Qed.

Lemma api_get_mock endpoint w :
  MOCK_MODE cfg = true ->
  exists v w',
    api_get cfg net endpoint w = (Ok v, w')
    /\ fst (mock_api_response endpoint w) = Ok v
    /\ tray w' = tray w
    /\ http_log w' = http_log w
    /\ calls w' = calls w ++ [mkCall GET endpoint None (tray w)]
    /\ notifications w' = notifications w
    /\ console w' = console w
    /\ timers w' = timers w.
Proof.
  intros Hmock. unfold api_get, bind, log_call, mock_api_response, read, ret.
  rewrite Hmock. cbn.
  destruct (String.eqb endpoint "/api/status");
    [ | destruct (String.eqb endpoint "/api/profiles")]; cbn;
    do 2 eexists; (split; [reflexivity | cbn; auto 10]).
Qed.

(** [api_get] returns, leaves the tray alone and logs one call. *)
Lemma api_get_frame endpoint w :
  exists v w',
    api_get cfg net endpoint w = (Ok v, w')
    /\ tray w' = tray w
    /\ calls w' = calls w ++ [mkCall GET endpoint None (tray w)]
    /\ notifications w' = notifications w
    /\ timers w' = timers w.
Proof.
  destruct (MOCK_MODE cfg) eqn:Hmode.
  - destruct (api_get_mock endpoint w Hmode) as (v & w' & E & _ & ? & ? & ? & ? & ? & ?).
    exists v, w'. auto.
  - destruct (api_get_live endpoint w Hmode) as (w' & E & ? & ? & ? & ? & ?).
    eexists. exists w'. eauto.
Qed.

Lemma api_post_live endpoint data w :
  MOCK_MODE cfg = false ->
  exists w',
    api_post cfg net endpoint data w
    = (Ok (negb (http_failed (net (http_log w)
             (mkRequest POST (DAEMON_API_BASE cfg ++ endpoint) (Some data))))), w')
    /\ tray w' = tray w
    /\ http_log w' = http_log w
                     ++ [mkRequest POST (DAEMON_API_BASE cfg ++ endpoint) (Some data)]
    /\ calls w' = calls w ++ [mkCall POST endpoint (Some data) (tray w)]
    /\ notifications w' = notifications w
    /\ timers w' = timers w.
Proof.
  intros Hlive. unfold api_post, bind, log_call, http. rewrite Hlive. cbn.
  destruct (net _ _) as [ | | status body]; cbn;
    try destruct (raises_for_status status); cbn;
    eexists; (split; [reflexivity | cbn; auto]).
Qed.

Lemma api_post_mock endpoint data w :
  MOCK_MODE cfg = true ->
  exists w',
    api_post cfg net endpoint data w = (Ok true, w')
    /\ tray w' = tray w
    /\ http_log w' = http_log w
    /\ calls w' = calls w ++ [mkCall POST endpoint (Some data) (tray w)]
    /\ notifications w' = notifications w
    /\ console w' = console w ++ [MockPost endpoint data]
    /\ timers w' = timers w.
Proof.
  intros Hmock. unfold api_post, bind, log_call, print, ret. rewrite Hmock. cbn.
  eexists; (split; [reflexivity | cbn; auto 10]).
Qed.

Lemma api_post_frame endpoint data w :
  exists ok w',
    api_post cfg net endpoint data w = (Ok ok, w')
    /\ tray w' = tray w
    /\ calls w' = calls w ++ [mkCall POST endpoint (Some data) (tray w)]
    /\ notifications w' = notifications w
    /\ timers w' = timers w.
Proof.
  destruct (MOCK_MODE cfg) eqn:Hmode.
  - destruct (api_post_mock endpoint data w Hmode) as (w' & E & ? & ? & ? & ? & ? & ?).
    exists true, w'. auto.
  - destruct (api_post_live endpoint data w Hmode) as (w' & E & ? & ? & ? & ? & ?).
    eexists. exists w'. eauto.
Qed.

End Transport.

(** ** Refreshing the profile list *)

Lemma count_active_app (a b : list MenuItem) :
  count_active (a ++ b) = count_active a + count_active b.
Proof. unfold count_active. now rewrite filter_app, length_app. Qed.

(** The loop appends one entry per payload entry until one entry is
    ill-formed; it touches nothing else. *)
Lemma add_profile_items_spec (items : list pyval) :
  forall w, exists r its w',
    add_profile_items items w = (r, w')
    /\ fields (tray w') = fields (tray w)
    /\ profiles_submenu (tray w') = profiles_submenu (tray w) ++ its
    /\ logs w' = logs w
    /\ count_active its <= List.length (filter entry_active items)
    /\ (r = Ok tt -> count_active its = List.length (filter entry_active items)).
Proof.
  induction items as [ | profile rest IH]; intros w.
  - exists (Ok tt), [], w. cbn. rewrite app_nil_r. auto 10.
  - cbn [add_profile_items]. unfold bind at 1, lift at 1.
    destruct profile as [ | b | q | s | l | d];
      try (exists (Raise TypeError), [], w; cbn; rewrite app_nil_r;
           repeat split; auto; try lia; discriminate).
    cbn [py_subscript].
    destruct (dict_lookup d "name") as [name | ] eqn:Hname;
      [ | exists (Raise KeyError), [], w; cbn; rewrite app_nil_r;
          repeat split; auto; try lia; discriminate].
    unfold bind at 1, lift at 1.
    destruct (as_label name) as [label | e] eqn:Hlabel;
      [ | exists (Raise e), [], w; cbn; rewrite app_nil_r;
          repeat split; auto; try lia; discriminate].
    unfold bind at 1, lift at 1. cbn [py_get].
    unfold bind at 1, write at 1.
    match goal with |- context [add_profile_items rest ?w1] =>
      destruct (IH w1) as (r & its & w' & E & Hf & Hs & Hl & Hle & Heq) end.
    rewrite E. cbn in Hf, Hs, Hl.
    eexists r, (_ :: its), w'. split; [reflexivity | ].
    split; [exact Hf | ]. split; [rewrite Hs, <- app_assoc; reflexivity | ].
    split; [exact Hl | ].
    cbn [filter].
    change (entry_active (PDict d))
      with (py_truthy match dict_lookup d "active" with
                      | Some v => v
                      | None => PBool false
                      end).
    change (count_active (?i :: its)) with (count_active ([i] ++ its)).
    rewrite count_active_app. unfold count_active at 1 3. cbn [filter is_active].
    destruct (py_truthy _); cbn [List.length]; (split; [lia | ]);
      intros Hr; specialize (Heq Hr); lia.
Qed.

(** ** The handlers and their transport calls *)

Section Handlers.

Variable cfg : Config.
Variable net : Network.

Lemma api_get_profiles w :
  exists w',
    api_get cfg net "/api/profiles" w = (Ok (profiles_value cfg net w), w')
    /\ tray w' = tray w
    /\ calls w' = calls w ++ [mkCall GET "/api/profiles" None (tray w)]
    /\ notifications w' = notifications w
    /\ timers w' = timers w
    /\ http_log w' = http_log w
         ++ (if MOCK_MODE cfg then []
             else [mkRequest GET (DAEMON_API_BASE cfg ++ "/api/profiles") None]).
Proof.
  unfold profiles_value. destruct (MOCK_MODE cfg) eqn:Hmode.
  - destruct (api_get_mock cfg net "/api/profiles" w Hmode)
      as (v & w' & E & Hv & ? & ? & ? & ? & ? & ?).
    cbn in Hv. injection Hv as <-. exists w'. rewrite app_nil_r. auto 10.
  - destruct (api_get_live cfg net "/api/profiles" w Hmode)
      as (w' & E & ? & ? & ? & ? & ?).
    exists w'. auto 10.
Qed.

Lemma api_get_status w :
  exists w',
    api_get cfg net "/api/status" w = (Ok (status_value cfg net w), w')
    /\ tray w' = tray w
    /\ calls w' = calls w ++ [mkCall GET "/api/status" None (tray w)]
    /\ notifications w' = notifications w
    /\ timers w' = timers w
    /\ http_log w' = http_log w
         ++ (if MOCK_MODE cfg then []
             else [mkRequest GET (DAEMON_API_BASE cfg ++ "/api/status") None]).
Proof.
  unfold status_value. destruct (MOCK_MODE cfg) eqn:Hmode.
  - destruct (api_get_mock cfg net "/api/status" w Hmode)
      as (v & w' & E & Hv & ? & Hh & ? & ? & ? & ?).
    cbn in Hv. injection Hv as <-. exists w'. rewrite app_nil_r. auto 10.
  - destruct (api_get_live cfg net "/api/status" w Hmode)
      as (w' & E & ? & ? & ? & ? & ?).
    exists w'. auto 10.
Qed.

Lemma api_get_shown endpoint w : shown (snd (api_get cfg net endpoint w)) = shown w.
Proof.
  unfold api_get, bind, log_call, mock_api_response, http, print, read, ret.
  destruct (MOCK_MODE cfg); cbn.
  - destruct (String.eqb endpoint "/api/status");
      [ | destruct (String.eqb endpoint "/api/profiles")]; reflexivity.
  - destruct (net _ _) as [ | | status [v | ]]; cbn;
      try destruct (raises_for_status status); reflexivity.
Qed.

Lemma api_post_shown endpoint data w :
  shown (snd (api_post cfg net endpoint data w)) = shown w.
Proof.
  unfold api_post, bind, log_call, http, print, ret.
  destruct (MOCK_MODE cfg); cbn; [reflexivity | ].
  destruct (net _ _) as [ | | status body]; cbn;
    try destruct (raises_for_status status); reflexivity.
Qed.

(** [update_profiles], opened up: the list is cut back to its two fixed
    entries, the payload is fetched, the payload alone decides what
    follows, and [show_all] is reached only when nothing raised. *)
Lemma update_profiles_run w :
  exists wg,
    tray wg = set_submenu (firstn 2 (profiles_submenu (tray w))) (tray w)
    /\ shown wg = Nat.min (shown w) 2
    /\ calls wg
       = calls w ++ [mkCall GET "/api/profiles" None
                       (set_submenu (firstn 2 (profiles_submenu (tray w))) (tray w))]
    /\ notifications wg = notifications w
    /\ timers wg = timers w
    /\ http_log wg = http_log w
         ++ (if MOCK_MODE cfg then []
             else [mkRequest GET (DAEMON_API_BASE cfg ++ "/api/profiles") None])
    /\ update_profiles cfg net w
       = (if negb (py_truthy (profiles_value cfg net w))
          then show_all (append_items [NoProfiles] wg)
          else match py_get (profiles_value cfg net w) "profiles" (PList []) with
               | Raise e => (Raise e, wg)
               | Ok ps =>
                   match py_iter ps with
                   | Raise e => (Raise e, wg)
                   | Ok items =>
                       match add_profile_items items wg with
                       | (Ok _, w') => show_all w'
                       | (Raise e, w') => (Raise e, w')
                       end
                   end
               end).
Proof.
  unfold update_profiles. unfold bind at 1, remove_profile_items at 1. cbv beta iota.
  unfold bind at 1.
  match goal with |- context [api_get cfg net _ ?w1] =>
    pose proof (api_get_shown "/api/profiles" w1) as Hshown;
    destruct (api_get_profiles w1) as (wg & E & Ht & Hc & Hn & Hti & Hh) end.
  rewrite E in *. cbn [snd] in Hshown.
  change (profiles_value cfg net (set_shown _ (with_tray _ w)))
    with (profiles_value cfg net w).
  exists wg. cbn in Ht, Hc, Hn, Hti, Hh, Hshown.
  repeat (split; [assumption | ]).
  unfold bind at 1.
  destruct (py_truthy (profiles_value cfg net w)); cbn [negb]; [ | reflexivity].
  unfold bind at 1, lift at 1.
  destruct (py_get (profiles_value cfg net w) "profiles" (PList [])) as [ps | e];
    [ | reflexivity].
  unfold bind at 1, lift at 1.
  destruct (py_iter ps) as [items | e]; [ | reflexivity].
  destruct (add_profile_items items wg) as [[[] | e] w']; reflexivity.
Qed.

(** [update_profiles] keeps the two fixed entries, replaces the rest by
    what the payload lists, and makes exactly one transport call. *)
Lemma update_profiles_spec w :
  exists r its w',
    update_profiles cfg net w = (r, w')
    /\ fields (tray w') = fields (tray w)
    /\ profiles_submenu (tray w') = firstn 2 (profiles_submenu (tray w)) ++ its
    /\ count_active its <= payload_active_count (profiles_value cfg net w)
    /\ calls w'
       = calls w ++ [mkCall GET "/api/profiles" None
                       (set_submenu (firstn 2 (profiles_submenu (tray w))) (tray w))]
    /\ notifications w' = notifications w
    /\ timers w' = timers w
    /\ http_log w' = http_log w
         ++ (if MOCK_MODE cfg then []
             else [mkRequest GET (DAEMON_API_BASE cfg ++ "/api/profiles") None])
    /\ shown w' = (if returns r then List.length (profiles_submenu (tray w'))
                   else Nat.min (shown w) 2).
Proof.
  destruct (update_profiles_run w) as (wg & Ht & Hsh & Hc & Hn & Hti & Hh & E).
  rewrite E. clear E.
  destruct (py_truthy (profiles_value cfg net w)) eqn:Htruthy; cbn [negb].
  - unfold payload_active_count, payload_entries.
    destruct (py_get (profiles_value cfg net w) "profiles" (PList [])) as [ps | e].
    + destruct (py_iter ps) as [items | e].
      * destruct (add_profile_items_spec items wg)
          as (r & its & w' & E' & Hf & Hs & Hl & Hle & _).
        rewrite E'. unfold logs in Hl.
        injection Hl as Hl1 Hl2 Hl3 Hl4 Hl5 Hl6.
        destruct r as [[] | e].
        -- exists (Ok tt), its, (set_shown (List.length (profiles_submenu (tray w'))) w').
           split; [reflexivity | ]. cbn.
           rewrite Hf, Hs, Ht, Hl2, Hl3, Hl5, Hl1. cbn. repeat split; auto.
        -- exists (Raise e), its, w'. split; [reflexivity | ].
           rewrite Hf, Hs, Ht, Hl2, Hl3, Hl5, Hl1, Hl6. cbn. repeat split; auto.
      * exists (Raise e), [], wg. rewrite Ht, app_nil_r. cbn.
        repeat split; auto; lia.
    + exists (Raise e), [], wg. rewrite Ht, app_nil_r. cbn.
      repeat split; auto; lia.
  - eexists (Ok tt), [NoProfiles], _. split; [reflexivity | ].
    cbn. rewrite Ht. cbn. repeat split; auto. lia.
Qed.
Lemma api_post_value endpoint data w :
  exists w',
    api_post cfg net endpoint data w = (Ok (post_ok cfg net endpoint data w), w')
    /\ tray w' = tray w
    /\ calls w' = calls w ++ [mkCall POST endpoint (Some data) (tray w)]
    /\ notifications w' = notifications w
    /\ timers w' = timers w
    /\ http_log w' = http_log w
         ++ (if MOCK_MODE cfg then []
             else [mkRequest POST (DAEMON_API_BASE cfg ++ endpoint) (Some data)]).
Proof.
  unfold post_ok. destruct (MOCK_MODE cfg) eqn:Hmode.
  - destruct (api_post_mock cfg net endpoint data w Hmode)
      as (w' & E & ? & ? & ? & ? & ? & ?).
    exists w'. rewrite app_nil_r. auto 10.
  - destruct (api_post_live cfg net endpoint data w Hmode)
      as (w' & E & ? & ? & ? & ? & ?).
    exists w'. auto 10.
Qed.

(** [on_switch_profile] when the POST fails: a notification, nothing else. *)
Lemma on_switch_profile_failure name w :
  post_ok cfg net "/api/profiles/activate" (PDict [("name", name)]) w = false ->
  exists w',
    on_switch_profile cfg net name w = (Ok tt, w')
    /\ tray w' = tray w
    /\ calls w' = calls w ++ [mkCall POST "/api/profiles/activate"
                                (Some (PDict [("name", name)])) (tray w)]
    /\ notifications w'
       = notifications w
         ++ [mkNotification "KeyRx Error" (Fmt "Failed to switch to profile: " name)
               "dialog-error"]
    /\ timers w' = timers w
    /\ http_log w' = http_log w
         ++ (if MOCK_MODE cfg then []
             else [mkRequest POST (DAEMON_API_BASE cfg ++ "/api/profiles/activate")
                     (Some (PDict [("name", name)]))]).
Proof.
  intros Hfail. unfold on_switch_profile. unfold bind at 1.
  destruct (api_post_value "/api/profiles/activate" (PDict [("name", name)]) w)
    as (wp & E & Ht & Hc & Hn & Hti & Hh).
  rewrite E, Hfail. cbn. eexists. split; [reflexivity | ]. cbn.
  rewrite Hn. auto.
Qed.

(** [on_switch_profile] when the POST is acknowledged: the profile name
    is stored, then the list is fetched again. *)
Lemma on_switch_profile_success name w :
  post_ok cfg net "/api/profiles/activate" (PDict [("name", name)]) w = true ->
  exists r its w' w1,
    on_switch_profile cfg net name w = (r, w')
    /\ current_profile (tray w') = name
    /\ daemon_running (tray w') = daemon_running (tray w)
    /\ remapping_enabled (tray w') = remapping_enabled (tray w)
    /\ toggle_item (tray w') = toggle_item (tray w)
    /\ profiles_loaded (tray w') = profiles_loaded (tray w)
    /\ profiles_submenu (tray w') = firstn 2 (profiles_submenu (tray w)) ++ its
    /\ count_active its <= payload_active_count (profiles_value cfg net w1)
    /\ calls w'
       = calls w
         ++ [mkCall POST "/api/profiles/activate" (Some (PDict [("name", name)])) (tray w);
             mkCall GET "/api/profiles" None
               (set_submenu (firstn 2 (profiles_submenu (tray w)))
                  (set_current_profile name (tray w)))]
    /\ notifications w'
       = notifications w
         ++ [mkNotification "KeyRx Profile" (Fmt "Switched to profile: " name)
               "input-keyboard"]
    /\ timers w' = timers w
    /\ http_log w' = http_log w
         ++ (if MOCK_MODE cfg then []
             else [mkRequest POST (DAEMON_API_BASE cfg ++ "/api/profiles/activate")
                     (Some (PDict [("name", name)]));
                   mkRequest GET (DAEMON_API_BASE cfg ++ "/api/profiles") None]).
Proof.
  intros Hack. unfold on_switch_profile. unfold bind at 1.
  destruct (api_post_value "/api/profiles/activate" (PDict [("name", name)]) w)
    as (wp & E & Ht & Hc & Hn & Hti & Hh).
  rewrite E, Hack.
  unfold bind at 1, write at 1. cbv beta iota.
  unfold bind at 1, show_notification at 1. cbv beta iota.
  match goal with |- context [update_profiles cfg net ?w1] =>
    set (wu := w1);
    destruct (update_profiles_spec wu)
      as (r & its & w' & E' & Hf & Hs & Hle & Hc' & Hn' & Hti' & Hh' & _) end.
  exists r, its, w', wu. rewrite E'.
  unfold fields in Hf. cbn in Hf, Hs, Hc', Hn', Hti'.
  injection Hf as Hf1 Hf2 Hf3 Hf4 Hf5 Hf6 Hf7.
  rewrite Hf2, Hf1, Hf3, Hf4, Hf6, Hs, Hc', Hn', Hti', Hh', Ht, Hc, Hn, Hti,
    <- app_assoc.
  cbn. rewrite Hh, <- app_assoc. destruct (MOCK_MODE cfg); repeat split; auto.
Qed.

End Handlers.
(** ** Invariants that every handler keeps *)

Lemma preserves_bind {A B} (I : World -> Prop) (c : M A) (k : A -> M B) :
  preserves I c -> (forall a, preserves I (k a)) -> preserves I (bind c k).
Proof.
  intros Hc Hk w Hw. unfold bind. specialize (Hc w Hw).
  destruct (c w) as [[a | e] w']; cbn in *; [now apply Hk | exact Hc].
Qed.

Lemma preserves_ret {A} (I : World -> Prop) (a : A) : preserves I (ret a).
Proof. intros w Hw. exact Hw. Qed.

Lemma preserves_lift {A} (I : World -> Prop) (r : Res A) : preserves I (lift r).
Proof. intros w Hw. exact Hw. Qed.

Lemma preserves_read {A} (I : World -> Prop) (f : Tray -> A) : preserves I (read f).
Proof. intros w Hw. exact Hw. Qed.

Section Invariants.

Variable cfg : Config.
Variable net : Network.
Variable I : World -> Prop.

Hypothesis I_write : forall f w, I w -> I (with_tray f w).
Hypothesis I_notify : forall title message icon,
    preserves I (show_notification title message icon).
Hypothesis I_get : forall endpoint, preserves I (api_get cfg net endpoint).
Hypothesis I_post : forall endpoint data, preserves I (api_post cfg net endpoint data).
Hypothesis I_print : forall line, preserves I (print line).
Hypothesis I_shown : forall n w, I w -> I (set_shown n w).
Hypothesis I_untimer : forall w, I w -> I (set_timers (List.tl (timers w)) w).

Lemma preserves_write (f : Tray -> Tray) : preserves I (write f).
Proof. intros w Hw. now apply I_write. Qed.

Lemma preserves_emit (handler : M unit) :
  preserves I handler -> preserves I (emit handler).
Proof.
  intros Hh w Hw. unfold emit. specialize (Hh w Hw).
  destruct (handler w) as [[[] | e] w']; cbn in *; [exact Hh | ].
  now apply I_print.
Qed.

Ltac preserve :=
  repeat first
    [ apply preserves_ret | apply preserves_lift | apply preserves_read
    | apply preserves_write | apply I_notify | apply I_get | apply I_post
    | match goal with
      | |- preserves _ (bind _ _) => apply preserves_bind; [ | intros ]
      | |- preserves _ (if ?b then _ else _) => destruct b
      | |- preserves _ (emit _) => apply preserves_emit
      end ].

Lemma set_active_preserves (handler : M unit) (b : bool) :
  preserves I handler -> preserves I (set_active handler b).
Proof. intros Hh. unfold set_active. preserve. exact Hh. Qed.

Lemma on_toggle_remapping_preserves depth :
  preserves I (on_toggle_remapping cfg net depth).
Proof.
  induction depth as [ | below IH]; cbn [on_toggle_remapping]; preserve;
    apply set_active_preserves; [apply preserves_lift | exact IH].
Qed.

Lemma activate_preserves depth : preserves I (activate cfg net depth).
Proof.
  destruct depth; cbn [activate];
    [apply preserves_lift | apply on_toggle_remapping_preserves].
Qed.

Lemma add_profile_items_preserves items : preserves I (add_profile_items items).
Proof.
  induction items as [ | profile rest IH]; cbn [add_profile_items]; preserve.
  exact IH.
Qed.

Lemma remove_profile_items_preserves : preserves I remove_profile_items.
Proof. intros w Hw. now apply I_shown, I_write. Qed.

Lemma show_all_preserves : preserves I show_all.
Proof. intros w Hw. now apply I_shown. Qed.

Lemma update_profiles_preserves : preserves I (update_profiles cfg net).
Proof.
  unfold update_profiles.
  apply preserves_bind; [apply remove_profile_items_preserves | intros _].
  apply preserves_bind; [apply I_get | intros data].
  apply preserves_bind; [ | intros _; apply show_all_preserves].
  preserve. apply add_profile_items_preserves.
Qed.

Lemma update_status_preserves depth : preserves I (update_status cfg net depth).
Proof.
  unfold update_status. preserve.
  - apply set_active_preserves, activate_preserves.
  - apply update_profiles_preserves.
Qed.

Lemma on_switch_profile_preserves name : preserves I (on_switch_profile cfg net name).
Proof. unfold on_switch_profile. preserve. apply update_profiles_preserves. Qed.

Lemma on_timer_preserves depth : preserves I (on_timer cfg net depth).
Proof.
  intros w Hw. unfold on_timer. pose proof (update_status_preserves depth w Hw) as Hu.
  destruct (update_status cfg net depth w) as [[ok | e] w']; cbn in *; [exact Hu | ].
  now apply I_untimer.
Qed.

Lemma dispatch_preserves depth ev : preserves I (dispatch cfg net depth ev).
Proof.
  destruct ev; cbn [dispatch]; preserve;
    first [ apply on_timer_preserves | apply on_toggle_remapping_preserves
          | apply on_switch_profile_preserves | apply update_profiles_preserves ].
Qed.

Lemma deliver_preserves depth ev w : I w -> I (deliver cfg net depth ev w).
Proof.
  intros Hw. unfold deliver.
  destruct ev, (timers w); try exact Hw; now apply dispatch_preserves.
Qed.

Lemma run_loop_preserves depth evs : forall w, I w -> I (run_loop cfg net depth evs w).
Proof.
  induction evs as [ | ev rest IH]; intros w Hw; [exact Hw | ].
  cbn [run_loop]. apply IH, deliver_preserves, Hw.
Qed.

(** The same, with what the toggle handler keeps left open. *)
Lemma update_status_preserves_via depth :
  (forall b, preserves I (set_active (activate cfg net depth) b)) ->
  preserves I (update_status cfg net depth).
Proof.
  intros Hset. unfold update_status. preserve.
  - apply Hset.
  - apply update_profiles_preserves.
Qed.

Lemma dispatch_preserves_via depth ev :
  preserves I (on_timer cfg net depth) ->
  preserves I (on_toggle_remapping cfg net depth) ->
  preserves I (dispatch cfg net depth ev).
Proof.
  intros Htimer Htoggle. destruct ev; cbn [dispatch]; preserve;
    first [ exact Htimer | exact Htoggle
          | apply on_switch_profile_preserves | apply update_profiles_preserves ].
Qed.

End Invariants.

Lemma run_loop_preserves_via cfg net (I : World -> Prop) depth :
  (forall ev w, I w -> I (deliver cfg net depth ev w)) ->
  forall evs w, I w -> I (run_loop cfg net depth evs w).
Proof.
  intros Hstep evs. induction evs as [ | ev rest IH]; intros w Hw; [exact Hw | ].
  cbn [run_loop]. apply IH, Hstep, Hw.
Qed.
(** ** The toggle handler and the signal it answers *)

Lemma set_active_same (handler : M unit) (b : bool) (w : World) :
  toggle_item (tray w) = b -> set_active handler b w = (Ok tt, w).
Proof.
  intros Hsame. unfold set_active, bind, read. cbv beta iota.
  rewrite Hsame, eqb_reflx. reflexivity.
Qed.

Lemma set_active_changed (handler : M unit) (b : bool) (w : World) :
  toggle_item (tray w) <> b ->
  set_active handler b w = emit handler (with_tray (set_toggle_active b) w).
Proof.
  intros Hdiff. unfold set_active, bind, read, write. cbv beta iota.
  destruct (Bool.eqb (toggle_item (tray w)) b) eqn:Heq; [ | reflexivity].
  apply eqb_prop in Heq. contradiction.
Qed.

Section Toggle.

Variable cfg : Config.
Variable net : Network.

Lemma on_toggle_remapping_eq depth :
  on_toggle_remapping cfg net depth
  = (enabled <- read toggle_item ;;
     write (set_remapping_enabled enabled) ;;
     ok <- api_post cfg net "/api/toggle" (PDict [("enabled", PBool enabled)]) ;;
     if ok then
       show_notification "KeyRx Remapping"
         (Text ("Remapping " ++ (if enabled then "enabled" else "disabled")))
         "input-keyboard"
     else
       set_active (activate cfg net depth) (negb enabled) ;;
       show_notification "KeyRx Error" (Text "Failed to toggle remapping")
         "dialog-error").
Proof. destruct depth; reflexivity. Qed.

(** The handler, opened up at the POST. *)
Lemma on_toggle_remapping_run depth w :
  let enabled := toggle_item (tray w) in
  exists wp,
    tray wp = set_remapping_enabled enabled (tray w)
    /\ calls wp = calls w ++ [mkCall POST "/api/toggle"
                               (Some (PDict [("enabled", PBool enabled)]))
                               (set_remapping_enabled enabled (tray w))]
    /\ notifications wp = notifications w
    /\ timers wp = timers w
    /\ http_log wp = http_log w
         ++ (if MOCK_MODE cfg then [] else [toggle_request cfg enabled])
    /\ on_toggle_remapping cfg net depth w
       = if post_ok cfg net "/api/toggle" (PDict [("enabled", PBool enabled)]) w
         then show_notification "KeyRx Remapping"
                (Text ("Remapping " ++ (if enabled then "enabled" else "disabled")))
                "input-keyboard" wp
         else match emit (activate cfg net depth)
                         (with_tray (set_toggle_active (negb enabled)) wp) with
              | (_, w2) =>
                  show_notification "KeyRx Error" (Text "Failed to toggle remapping")
                    "dialog-error" w2
              end.
Proof.
  intros enabled. rewrite on_toggle_remapping_eq.
  unfold bind at 1, read at 1. cbv beta iota. fold enabled.
  unfold bind at 1, write at 1. cbv beta iota. unfold bind at 1.
  match goal with |- context [api_post cfg net ?e ?d ?w1] =>
    destruct (api_post_value cfg net e d w1) as (wp & E & Ht & Hc & Hn & Hti & Hh) end.
  rewrite E.
  change (post_ok cfg net _ _ (with_tray _ w))
    with (post_ok cfg net "/api/toggle" (PDict [("enabled", PBool enabled)]) w).
  cbn in Ht, Hc, Hn, Hti, Hh. exists wp.
  repeat (split; [assumption | ]).
  destruct (post_ok cfg net "/api/toggle" (PDict [("enabled", PBool enabled)]) w);
    [reflexivity | ].
  unfold bind at 1. rewrite set_active_changed.
  - unfold emit.
    destruct (activate cfg net depth _) as [[[] | e] w2]; reflexivity.
  - rewrite Ht. cbn. unfold enabled. now destruct (toggle_item (tray w)).
Qed.

(** The handler always returns, makes at least one POST, shows at least
    one notification, and touches nothing of the tray but the two holders
    of the remapping flag. *)
Lemma toggle_frame depth :
  forall w, exists w',
    on_toggle_remapping cfg net depth w = (Ok tt, w')
    /\ besides_flag (tray w') = besides_flag (tray w)
    /\ S (post_calls w) <= post_calls w'
    /\ S (List.length (notifications w)) <= List.length (notifications w').
Proof.
  induction depth as [ | below IH]; intros w;
    destruct (on_toggle_remapping_run 0 w) as (wp0 & _);
    match goal with |- context [on_toggle_remapping cfg net ?d w] =>
      destruct (on_toggle_remapping_run d w) as (wp & Ht & Hc & Hn & _ & _ & E) end;
    rewrite E; clear E;
    assert (Hposts : post_calls wp = S (post_calls w))
      by (unfold post_calls; rewrite Hc, filter_app, length_app; cbn; lia);
    destruct (post_ok cfg net _ _ w).
  - eexists. split; [reflexivity | ]. cbn. rewrite Ht, Hn, length_app.
    unfold post_calls in *. cbn. repeat split; lia.
  - cbn [activate]. unfold emit, lift, print. cbn.
    eexists. split; [reflexivity | ]. cbn. rewrite Ht, Hn, length_app.
    unfold post_calls in *. cbn. repeat split; lia.
  - eexists. split; [reflexivity | ]. cbn. rewrite Ht, Hn, length_app.
    unfold post_calls in *. cbn. repeat split; lia.
  - cbn [activate]. unfold emit.
    destruct (IH (with_tray (set_toggle_active (negb (toggle_item (tray w)))) wp))
      as (w2 & E2 & Hf2 & Hp2 & Hn2).
    rewrite E2. eexists. split; [reflexivity | ]. cbn.
    rewrite Hf2, length_app. unfold post_calls in *. cbn in *. rewrite Ht.
    rewrite Hn in Hn2. repeat split; lia.
Qed.

(** [set_active] on the toggle item always returns; it leaves the world
    alone when the item shows the value already. *)
Lemma set_active_frame depth b w :
  exists w',
    set_active (activate cfg net depth) b w = (Ok tt, w')
    /\ besides_flag (tray w') = besides_flag (tray w)
    /\ (toggle_item (tray w) = b -> w' = w).
Proof.
  destruct (Bool.bool_dec (toggle_item (tray w)) b) as [Hsame | Hdiff].
  - exists w. rewrite set_active_same by exact Hsame. auto.
  - rewrite set_active_changed by exact Hdiff. unfold emit.
    destruct depth as [ | below]; cbn [activate].
    + unfold lift, print. cbn. eexists. split; [reflexivity | ].
      cbn. split; [reflexivity | contradiction].
    + destruct (toggle_frame below (with_tray (set_toggle_active b) w))
        as (w' & E & Hf & _).
      rewrite E. exists w'. split; [reflexivity | ].
      split; [rewrite Hf; reflexivity | contradiction].
Qed.

(** [set_active] that changes the item, with room for the handler and a
    daemon that acknowledges its POST: item and field both take the
    value, one POST, one notification. *)
Lemma set_active_acked depth b w :
  toggle_item (tray w) <> b ->
  post_ok cfg net "/api/toggle" (PDict [("enabled", PBool b)]) w = true ->
  exists w',
    set_active (activate cfg net (S depth)) b w = (Ok tt, w')
    /\ tray w' = set_remapping_enabled b (set_toggle_active b (tray w))
    /\ notifications w'
       = notifications w
         ++ [mkNotification "KeyRx Remapping"
               (Text ("Remapping " ++ (if b then "enabled" else "disabled")))
               "input-keyboard"]
    /\ calls w'
       = calls w ++ [mkCall POST "/api/toggle" (Some (PDict [("enabled", PBool b)]))
                       (set_remapping_enabled b (set_toggle_active b (tray w)))].
Proof.
  intros Hdiff Hack. rewrite set_active_changed by exact Hdiff.
  unfold emit. cbn [activate].
  destruct (on_toggle_remapping_run depth (with_tray (set_toggle_active b) w))
    as (wp & Ht & Hc & Hn & _ & _ & E).
  rewrite E. clear E. cbn [with_tray tray set_toggle_active toggle_item] in *.
  change (post_ok cfg net "/api/toggle" (PDict [("enabled", PBool b)])
            (with_tray (set_toggle_active b) w))
    with (post_ok cfg net "/api/toggle" (PDict [("enabled", PBool b)]) w).
  rewrite Hack. cbn. eexists. split; [reflexivity | ].
  cbn. rewrite Ht, Hn, Hc. auto.
Qed.

End Toggle.
(** ** The poll *)

Lemma besides_flag_fields (t t' : Tray) :
  besides_flag t = besides_flag t' ->
  daemon_running t = daemon_running t'
  /\ current_profile t = current_profile t'
  /\ profiles_loaded t = profiles_loaded t'
  /\ status_item t = status_item t'
  /\ indicator_icon t = indicator_icon t'
  /\ profiles_submenu t = profiles_submenu t'.
Proof.
  intros H.
  pose proof (f_equal daemon_running H). pose proof (f_equal current_profile H).
  pose proof (f_equal profiles_loaded H). pose proof (f_equal status_item H).
  pose proof (f_equal indicator_icon H). pose proof (f_equal profiles_submenu H).
  auto 10.
Qed.

Section Poll.

Variable cfg : Config.
Variable net : Network.

(** A poll whose status fetch gives nothing. *)
Lemma update_status_failed depth w :
  py_truthy (status_value cfg net w) = false ->
  exists w',
    update_status cfg net depth w = (Ok true, w')
    /\ tray w' = set_icon "input-keyboard-symbolic"
                   (set_status_label (Text "Status: Daemon not running")
                      (set_daemon_running false (tray w)))
    /\ calls w' = calls w ++ [mkCall GET "/api/status" None (tray w)]
    /\ notifications w' = notifications w
    /\ timers w' = timers w.
Proof.
  intros Hfalse. unfold update_status. unfold bind at 1. unfold bind at 1.
  destruct (api_get_status cfg net w) as (wg & E & Ht & Hc & Hn & Hti & Hh).
  rewrite E, Hfalse. cbn. eexists. split; [reflexivity | ].
  cbn. rewrite Ht. auto.
Qed.

(** A poll whose payload is true but has no [get]: the handler raises
    after it has set [daemon_running]. *)
Lemma update_status_raises depth w :
  py_truthy (status_value cfg net w) = true ->
  (forall d, status_value cfg net w <> PDict d) ->
  exists w',
    update_status cfg net depth w = (Raise AttributeError, w')
    /\ tray w' = set_daemon_running true (tray w)
    /\ calls w' = calls w ++ [mkCall GET "/api/status" None (tray w)]
    /\ notifications w' = notifications w
    /\ timers w' = timers w.
Proof.
  intros Htrue Hnodict. unfold update_status. unfold bind at 1. unfold bind at 1.
  destruct (api_get_status cfg net w) as (wg & E & Ht & Hc & Hn & Hti & Hh).
  rewrite E, Htrue.
  destruct (status_value cfg net w) as [ | b | q | s | l | d];
    try (cbn; eexists; split; [reflexivity | ]; cbn; rewrite Ht; auto);
    try discriminate Htrue.
  now destruct (Hnodict d).
Qed.

(** A poll whose payload is a non-empty dict, opened up at
    [set_active] and at the profile fetch. *)
Lemma update_status_run depth w d :
  status_value cfg net w = PDict d -> d <> [] ->
  let profile := match dict_lookup d "profile" with
                 | Some v => v | None => PStr "Unknown" end in
  let enabled := match dict_lookup d "remapping_enabled" with
                 | Some v => v | None => PBool true end in
  let icon := if py_truthy enabled then "input-keyboard"
              else "input-keyboard-symbolic" in
  exists w1 w2,
    tray w1 = set_status_label (Fmt "Profile: " profile)
                (set_current_profile profile (set_daemon_running true (tray w)))
    /\ calls w1 = calls w ++ [mkCall GET "/api/status" None (tray w)]
    /\ notifications w1 = notifications w
    /\ timers w1 = timers w
    /\ http_log w1 = http_log w
         ++ (if MOCK_MODE cfg then []
             else [mkRequest GET (DAEMON_API_BASE cfg ++ "/api/status") None])
    /\ set_active (activate cfg net depth) (py_truthy enabled) w1 = (Ok tt, w2)
    /\ besides_flag (tray w2) = besides_flag (tray w1)
    /\ (toggle_item (tray w) = py_truthy enabled -> w2 = w1)
    /\ update_status cfg net depth w
       = if profiles_loaded (tray w) then (Ok true, with_tray (set_icon icon) w2)
         else match update_profiles cfg net (with_tray (set_icon icon) w2) with
              | (Ok _, w') => (Ok true, with_tray (set_profiles_loaded true) w')
              | (Raise e, w') => (Raise e, w')
              end.
Proof.
  intros Hstatus Hne profile enabled icon.
  unfold update_status. unfold bind at 1. unfold bind at 1.
  destruct (api_get_status cfg net w) as (wg & E & Ht & Hc & Hn & Hti & Hh).
  rewrite E, Hstatus.
  destruct d as [ | kv d']; [contradiction | ]. cbn [py_truthy].
  set (d := kv :: d') in *.
  unfold bind at 1, write at 1. cbv beta iota.
  unfold bind at 1, lift at 1. cbn [py_get]. fold profile.
  unfold bind at 1, write at 1. cbv beta iota.
  unfold bind at 1, lift at 1. cbn [py_get]. fold enabled.
  unfold bind at 1, write at 1. cbv beta iota.
  unfold bind at 1.
  match goal with |- context [set_active _ _ ?x] =>
    set (w1 := x);
    destruct (set_active_frame cfg net depth (py_truthy enabled) w1)
      as (w2 & Es & Hf & Hsame) end.
  rewrite Es. exists w1, w2.
  assert (Ht1 : tray w1 = set_status_label (Fmt "Profile: " profile)
                            (set_current_profile profile
                               (set_daemon_running true (tray w))))
    by (subst w1; cbn; now rewrite Ht).
  split; [exact Ht1 | ]. split; [exact Hc | ]. split; [exact Hn | ].
  split; [exact Hti | ]. split; [exact Hh | ]. split; [exact Es | ]. split; [exact Hf | ].
  split; [intros Hitem; apply Hsame; rewrite Ht1; exact Hitem | ].
  unfold bind at 1, write at 1. cbv beta iota.
  unfold bind at 1, read at 1. cbv beta iota. fold icon.
  destruct (besides_flag_fields _ _ Hf) as (_ & _ & Hl & _).
  rewrite Ht1 in Hl. cbn in Hl.
  cbn [with_tray tray set_icon profiles_loaded]. rewrite Hl.
  destruct (profiles_loaded (tray w)); cbn [negb]; [reflexivity | ].
  unfold bind at 1.
  destruct (update_profiles cfg net _) as [[[] | e] w']; reflexivity.
Qed.

Lemma set_active_fetches depth b w :
  profile_fetches (snd (set_active (activate cfg net depth) b w)) = profile_fetches w
  /\ timers (snd (set_active (activate cfg net depth) b w)) = timers w
  /\ shown (snd (set_active (activate cfg net depth) b w)) = shown w.
Proof.
  assert (Hkeep : forall I : World -> Prop,
             (forall f w, I w -> I (with_tray f w)) ->
             (forall t m i, preserves I (show_notification t m i)) ->
             (forall e d, preserves I (api_post cfg net e d)) ->
             (forall l, preserves I (print l)) ->
             I w -> I (snd (set_active (activate cfg net depth) b w))).
  { intros I H1 H2 H3 H4. apply set_active_preserves; try assumption.
    now apply activate_preserves. }
  split; [ | split].
  - apply (Hkeep (fun w' => profile_fetches w' = profile_fetches w));
      try reflexivity; try (intros; intros w0 Hw0; exact Hw0);
      try (intros f w0 Hw0; exact Hw0).
    intros e d w0 Hw0.
    destruct (api_post_value cfg net e d w0) as (w' & E & _ & Hc & _).
    rewrite E. cbn [snd]. unfold profile_fetches in *.
    rewrite Hc, filter_app, length_app. cbn. lia.
  - apply (Hkeep (fun w' => timers w' = timers w));
      try reflexivity; try (intros; intros w0 Hw0; exact Hw0);
      try (intros f w0 Hw0; exact Hw0).
    intros e d w0 Hw0.
    destruct (api_post_value cfg net e d w0) as (w' & E & _ & _ & _ & Ht & _).
    rewrite E. cbn [snd]. congruence.
  - apply (Hkeep (fun w' => shown w' = shown w));
      try reflexivity; try (intros; intros w0 Hw0; exact Hw0);
      try (intros f w0 Hw0; exact Hw0).
    intros e d w0 Hw0. rewrite api_post_shown. exact Hw0.
Qed.

(** A poll whose payload is a non-empty dict: what it leaves. *)
Lemma update_status_ok depth w d :
  status_value cfg net w = PDict d -> d <> [] ->
  let profile := match dict_lookup d "profile" with
                 | Some v => v | None => PStr "Unknown" end in
  let enabled := match dict_lookup d "remapping_enabled" with
                 | Some v => v | None => PBool true end in
  exists r w',
    update_status cfg net depth w = (r, w')
    /\ daemon_running (tray w') = true
    /\ current_profile (tray w') = profile
    /\ status_item (tray w') = Fmt "Profile: " profile
    /\ indicator_icon (tray w')
       = (if py_truthy enabled then "input-keyboard" else "input-keyboard-symbolic")
    /\ timers w' = timers w
    /\ (toggle_item (tray w) = py_truthy enabled ->
        toggle_item (tray w') = toggle_item (tray w)
        /\ remapping_enabled (tray w') = remapping_enabled (tray w)
        /\ notifications w' = notifications w)
    /\ (if profiles_loaded (tray w) then
          r = Ok true
          /\ profiles_loaded (tray w') = true
          /\ profiles_submenu (tray w') = profiles_submenu (tray w)
          /\ profile_fetches w' = profile_fetches w
        else
          ((r = Ok true /\ profiles_loaded (tray w') = true)
           \/ ((exists e, r = Raise e) /\ profiles_loaded (tray w') = false))
          /\ profile_fetches w' = S (profile_fetches w)
          /\ exists its wq,
               profiles_submenu (tray w')
               = firstn 2 (profiles_submenu (tray w)) ++ its
               /\ count_active its <= payload_active_count (profiles_value cfg net wq)).
Proof.
  intros Hstatus Hne profile enabled.
  destruct (update_status_run depth w d Hstatus Hne)
    as (w1 & w2 & Ht1 & Hc1 & Hn1 & Hti1 & Hh1 & Es & Hf & Hsame & E).
  fold profile enabled in Ht1, Es, Hsame, E. rewrite E. clear E.
  destruct (besides_flag_fields _ _ Hf) as (F1 & F2 & F3 & F4 & F5 & F6).
  rewrite Ht1 in F1, F2, F3, F4, F5, F6. cbn in F1, F2, F3, F4, F5, F6.
  pose proof (set_active_fetches depth (py_truthy enabled) w1) as (Hfetch & Hti & Hsh).
  rewrite Es in Hfetch, Hti, Hsh. cbn [snd] in Hfetch, Hti, Hsh.
  assert (Hfetch1 : profile_fetches w1 = profile_fetches w)
    by (unfold profile_fetches; rewrite Hc1, filter_app, length_app; cbn; lia).
  set (icon := if py_truthy enabled then "input-keyboard"
               else "input-keyboard-symbolic") in *.
  assert (Hquiet : toggle_item (tray w) = py_truthy enabled -> w2 = w1) by exact Hsame.
  destruct (profiles_loaded (tray w)) eqn:Hloaded.
  - eexists _, _. split; [reflexivity | ]. unfold profile_fetches in *. cbn.
    rewrite F1, F2, F3, F4, F6, Hti, Hti1, Hfetch, Hfetch1.
    repeat match goal with |- _ /\ _ => split end; auto.
    intros Hitem. rewrite (Hquiet Hitem), Ht1, Hn1. auto.
  - destruct (update_profiles_spec cfg net (with_tray (set_icon icon) w2))
      as (r & its & w' & E' & Hf' & Hs' & Hle' & Hc' & Hn' & Hti' & _).
    rewrite E'. unfold fields in Hf'. cbn in Hf', Hs', Hc', Hn', Hti'.
    injection Hf' as G1 G2 G3 G4 G5 G6 G7.
    assert (Hfetch' : profile_fetches w' = S (profile_fetches w)).
    { unfold profile_fetches in *. rewrite Hc', filter_app, length_app. cbn. lia. }
    assert (Hquiet' : toggle_item (tray w) = py_truthy enabled ->
                      toggle_item (tray w') = toggle_item (tray w)
                      /\ remapping_enabled (tray w') = remapping_enabled (tray w)
                      /\ notifications w' = notifications w).
    { intros Hitem. rewrite G6, G3, Hn', (Hquiet Hitem), Ht1, Hn1. auto. }
    destruct r as [[] | e].
    + eexists _, _. split; [reflexivity | ]. cbn.
      rewrite G1, G2, G5, G7, Hti', Hs', F1, F2, F4, F6, Hti, Hti1.
      repeat match goal with |- _ /\ _ => split end; auto. exists its. eauto.
    + eexists _, _. split; [reflexivity | ]. cbn.
      rewrite G1, G2, G4, G5, G7, Hti', Hs', F1, F2, F3, F4, F6, Hti, Hti1.
      repeat match goal with |- _ /\ _ => split end; auto;
        [right; eauto | exists its; eauto].
Qed.

End Poll.
(** ** Claims on the transport and the configuration *)

(** C5 as stated fails: a status that is no success and no error passes
    [raise_for_status].  A write answered 304 is acknowledged, and a read
    answered 302 hands the body to the caller. *)
Lemma other_status_is_not_collapsed :
  success_status 304 = false
  /\ fst (api_post live_cfg daemon_not_modified "/api/toggle"
            (PDict [("enabled", PBool false)]) empty_world) = Ok true
  /\ success_status 302 = false
  /\ fst (api_get live_cfg daemon_found "/api/status" empty_world)
     = Ok (status_payload "coding" true).
Proof. repeat split. Qed.

(** C5, amended. In live mode, a read whose request fails (no connection,
    timeout, or an error status, 400 to 599) gives [None] and leaves the
    tray as it was; a write answers [True] exactly when the request got a
    response whose status is not an error, and [False] on every other
    outcome. *)
Theorem transport_error_collapse cfg net endpoint data w :
  MOCK_MODE cfg = false ->
  let get_outcome :=
    net (http_log w) (mkRequest GET (DAEMON_API_BASE cfg ++ endpoint) None) in
  let post_outcome :=
    net (http_log w) (mkRequest POST (DAEMON_API_BASE cfg ++ endpoint) (Some data)) in
  (http_failed get_outcome = true ->
   fst (api_get cfg net endpoint w) = Ok PNone
   /\ tray (snd (api_get cfg net endpoint w)) = tray w)
  /\ (fst (api_post cfg net endpoint data w) = Ok true
      <-> exists status body,
            post_outcome = Response status body /\ raises_for_status status = false)
  /\ (fst (api_post cfg net endpoint data w) = Ok false
      <-> http_failed post_outcome = true).
Proof.
  intros Hlive get_outcome post_outcome.
  destruct (api_get_live cfg net endpoint w Hlive) as (wg & Eg & Htg & _).
  destruct (api_post_live cfg net endpoint data w Hlive) as (wp & Ep & _).
  rewrite Eg, Ep. cbn [fst snd]. fold get_outcome post_outcome.
  split; [ | split].
  - intros Hfail. split; [ | exact Htg]. f_equal.
    destruct get_outcome as [ | | status [v | ]]; cbn in *; try reflexivity.
    now rewrite Hfail.
  - destruct post_outcome as [ | | status body]; cbn; split.
    + discriminate.
    + intros (s & b & Habs & _). discriminate.
    + discriminate.
    + intros (s & b & Habs & _). discriminate.
    + intros H. exists status, body. split; [reflexivity | ].
      destruct (raises_for_status status); [discriminate | reflexivity].
    + intros (s & b & Heq & Hs). injection Heq as <- <-. now rewrite Hs.
  - destruct (http_failed post_outcome); cbn; split; intros H;
      first [reflexivity | discriminate].
Qed.

Lemma transport_error_collapse_witness :
  fst (api_get live_cfg daemon_unavailable "/api/status" empty_world) = Ok PNone
  /\ fst (api_post live_cfg daemon_unavailable "/api/toggle"
            (PDict [("enabled", PBool false)]) empty_world) = Ok false.
Proof.
  destruct (transport_error_collapse live_cfg daemon_unavailable "/api/status"
              (PDict [("enabled", PBool false)]) empty_world eq_refl)
    as (Hget & _ & _).
  destruct (transport_error_collapse live_cfg daemon_unavailable "/api/toggle"
              (PDict [("enabled", PBool false)]) empty_world eq_refl)
    as (_ & _ & Hpost).
  split.
  - apply Hget. reflexivity.
  - apply Hpost. reflexivity.
Defined.

(** C8. In mock mode the four transport operations answer from fixed
    data, whatever the network would do, and put nothing on the wire: the
    status has the keys running, profile and remapping_enabled, the
    profile list has one active entry, and both writes are acknowledged. *)
Theorem mock_mode_substitution cfg net w enabled name :
  MOCK_MODE cfg = true ->
  let status := api_get cfg net "/api/status" w in
  let listing := api_get cfg net "/api/profiles" w in
  let toggle := api_post cfg net "/api/toggle" (PDict [("enabled", PBool enabled)]) w in
  let activate :=
    api_post cfg net "/api/profiles/activate" (PDict [("name", PStr name)]) w in
  (fst status
   = Ok (PDict [("running", PBool true); ("version", PStr "0.1.0");
                ("profile", PStr "default");
                ("remapping_enabled", PBool (remapping_enabled (tray w)))])
   /\ http_log (snd status) = http_log w)
  /\ (fst listing
      = Ok (PDict [("profiles",
                    PList [PDict [("name", PStr "default"); ("active", PBool true)];
                           PDict [("name", PStr "gaming"); ("active", PBool false)];
                           PDict [("name", PStr "coding"); ("active", PBool false)]])])
      /\ payload_active_count mock_profiles <= 1
      /\ http_log (snd listing) = http_log w)
  /\ (fst toggle = Ok true /\ http_log (snd toggle) = http_log w)
  /\ (fst activate = Ok true /\ http_log (snd activate) = http_log w).
Proof.
  intros Hmock. cbv zeta.
  unfold api_get, api_post, bind, log_call, mock_api_response, read, print, ret.
  rewrite Hmock. cbn. repeat split; auto.
Qed.

Lemma mock_mode_substitution_witness :
  fst (api_post mock_cfg daemon_down "/api/toggle"
         (PDict [("enabled", PBool false)]) empty_world) = Ok true
  /\ fst (api_get mock_cfg daemon_down "/api/profiles" empty_world) = Ok mock_profiles.
Proof.
  destruct (mock_mode_substitution mock_cfg daemon_down empty_world false "gaming" eq_refl)
    as (_ & (Hlist & _) & (Htoggle & _) & _).
  split; [exact Htoggle | exact Hlist].
Defined.

(** A true payload is a non-empty dict, or it is no dict at all. *)
(** A true payload is a non-empty dict, or it is no dict at all. *)
Lemma truthy_cases (v : pyval) :
  py_truthy v = true ->
  (exists d, v = PDict d /\ d <> []) \/ (forall d, v <> PDict d).
Proof.
  intros Htruthy. destruct v as [ | b | q | s | l | d]; try (right; discriminate).
  left. exists d. split; [reflexivity | ]. intros ->. discriminate.
Qed.

Lemma update_status_timers cfg net depth w :
  timers (snd (update_status cfg net depth w)) = timers w.
Proof.
  apply (update_status_preserves cfg net (fun w' => timers w' = timers w));
    try reflexivity; try (intros; intros w0 Hw0; exact Hw0);
    try (intros ? w0 Hw0; exact Hw0).
  - intros endpoint w0 Hw0.
    destruct (api_get_frame cfg net endpoint w0) as (v & w' & E & _ & _ & _ & Ht).
    rewrite E. cbn [snd]. congruence.
  - intros endpoint data w0 Hw0.
    destruct (api_post_frame cfg net endpoint data w0)
      as (ok & w' & E & _ & _ & _ & Ht).
    rewrite E. cbn [snd]. congruence.
Qed.

(** C9 as stated fails: no environment changes the poll interval. *)
Lemma poll_interval_not_configurable : ~ configurable UPDATE_INTERVAL.
Proof. intros (env1 & env2 & Hdiff). apply Hdiff. reflexivity. Qed.

(** C9, amended. The poll interval is the constant 5000 ms under every
    environment; [__init__] registers [update_status] on a timer of that
    period.  The API base URL, the web UI address and the mock flag are
    read from the environment. *)
Theorem poll_interval_fixed :
  (forall env, UPDATE_INTERVAL (load_config env) = 5000%Z)
  /\ (forall env net depth w,
        timers (snd (init (load_config env) net depth w))
        = timers w ++ [(5000%Z, CbUpdateStatus)])
  /\ configurable DAEMON_API_BASE
  /\ configurable MOCK_MODE
  /\ configurable WEB_UI_URL.
Proof.
  split; [reflexivity | ]. split; [ | split; [ | split]].
  - intros env net depth w. unfold init.
    unfold bind at 1, timeout_add at 1. cbv beta iota. unfold bind at 1.
    match goal with |- context [update_status ?c ?n ?d ?w1] =>
      pose proof (update_status_timers c n d w1) as Ht;
      destruct (update_status c n d w1) as [[b | e] w'] end;
      cbn in *; exact Ht.
  - exists no_env, other_api_env. discriminate.
  - exists no_env, mock_env. discriminate.
  - exists no_env, other_web_env. discriminate.
Qed.
(** ** Claims on the toggle *)

(** A toggle that is refused once: the handler puts the check item back,
    which runs the handler again with the opposite value; when the daemon
    acknowledges that second POST, field and check item both hold the
    opposite of what was asked for, after two POSTs and two
    notifications. *)
Lemma toggle_refused_then_acked cfg net depth w :
  let enabled := toggle_item (tray w) in
  post_ok cfg net "/api/toggle" (PDict [("enabled", PBool enabled)]) w = false ->
  (forall w1,
      http_log w1 = http_log w
                    ++ (if MOCK_MODE cfg then [] else [toggle_request cfg enabled]) ->
      post_ok cfg net "/api/toggle" (PDict [("enabled", PBool (negb enabled))]) w1
      = true) ->
  let w' := snd (on_toggle_remapping cfg net (S depth) w) in
  remapping_enabled (tray w') = negb enabled
  /\ toggle_item (tray w') = negb enabled
  /\ post_calls w' = 2 + post_calls w
  /\ List.length (notifications w') = 2 + List.length (notifications w).
Proof.
  intros enabled Hfail Hack. cbv zeta.
  destruct (on_toggle_remapping_run cfg net (S depth) w)
    as (wp & Ht & Hc & Hn & _ & Hh & E).
  fold enabled in Ht, Hc, Hh, E. rewrite E, Hfail. clear E.
  unfold emit. cbn [activate].
  destruct (on_toggle_remapping_run cfg net depth
              (with_tray (set_toggle_active (negb enabled)) wp))
    as (wq & Ht' & Hc' & Hn' & _ & _ & E').
  cbn [with_tray tray set_toggle_active toggle_item calls notifications] in *.
  rewrite E'. clear E'.
  change (post_ok cfg net "/api/toggle" (PDict [("enabled", PBool (negb enabled))])
            (with_tray (set_toggle_active (negb enabled)) wp))
    with (post_ok cfg net "/api/toggle" (PDict [("enabled", PBool (negb enabled))]) wp).
  rewrite (Hack wp Hh).
  unfold show_notification, post_calls.
  cbn [snd tray calls notifications with_tray].
  rewrite Ht', Hn', Hn, Hc', Hc, !filter_app, !length_app.
  cbn. repeat split; lia.
Qed.

(** A toggle that is refused twice: the handler runs three times, and
    when the daemon acknowledges the third POST the field and the check
    item hold the value that was asked for. *)
Lemma toggle_refused_twice cfg net depth w :
  let enabled := toggle_item (tray w) in
  post_ok cfg net "/api/toggle" (PDict [("enabled", PBool enabled)]) w = false ->
  (forall w1,
      http_log w1 = http_log w ++ [toggle_request cfg enabled] ->
      post_ok cfg net "/api/toggle" (PDict [("enabled", PBool (negb enabled))]) w1
      = false) ->
  (forall w2,
      http_log w2 = http_log w ++ [toggle_request cfg enabled;
                                   toggle_request cfg (negb enabled)] ->
      post_ok cfg net "/api/toggle" (PDict [("enabled", PBool enabled)]) w2 = true) ->
  let w' := snd (on_toggle_remapping cfg net (S (S depth)) w) in
  remapping_enabled (tray w') = enabled
  /\ toggle_item (tray w') = enabled
  /\ post_calls w' = 3 + post_calls w
  /\ List.length (notifications w') = 3 + List.length (notifications w).
Proof.
  intros enabled Hfail Hfail2 Hack. cbv zeta.
  assert (Hlive : MOCK_MODE cfg = false).
  { unfold post_ok in Hfail. destruct (MOCK_MODE cfg); [discriminate | reflexivity]. }
  destruct (on_toggle_remapping_run cfg net (S (S depth)) w)
    as (wp & Ht & Hc & Hn & _ & Hh & E).
  fold enabled in Ht, Hc, Hh, E. rewrite E, Hfail. clear E.
  rewrite Hlive in Hh. unfold emit. cbn [activate].
  set (wr := with_tray (set_toggle_active (negb enabled)) wp).
  destruct (toggle_refused_then_acked cfg net depth wr) as (Hf & Hi & Hp & Hn').
  - apply Hfail2. exact Hh.
  - intros w1 Hlog. cbn [wr with_tray tray set_toggle_active toggle_item].
    rewrite negb_involutive. apply Hack. rewrite Hlog, Hlive.
    cbn [wr with_tray http_log tray set_toggle_active toggle_item].
    rewrite Hh, <- app_assoc. reflexivity.
  - cbn [wr with_tray tray set_toggle_active toggle_item] in Hf, Hi.
    rewrite negb_involutive in Hf, Hi.
    assert (Hposts : post_calls wr = S (post_calls w))
      by (unfold post_calls; cbn [wr with_tray calls];
          rewrite Hc, filter_app, length_app; cbn; lia).
    destruct (on_toggle_remapping cfg net (S depth) wr) as [[[] | e] w2];
      unfold print, show_notification, post_calls in *;
      cbn [fst snd tray calls notifications wr with_tray] in *;
      rewrite ?length_app, Hf, Hi, Hp, Hn', Hn, Hposts; cbn; repeat split; lia.
Qed.

(** C1 fails on the code.  The tray has started without the daemon and
    has [remapping_enabled = True]; the user unchecks the item and the
    POST fails.  The failure branch calls [set_active] on the item the
    handler is connected to, so the handler runs again and posts the
    opposite value; that POST fails too, the handler runs a third time and
    its POST is acknowledged.  The command ends with the field and the
    check item at [False], whatever room the interpreter has beyond these
    three runs. *)
Theorem toggle_failure_not_rolled_back :
  let net := scripted retry_script in
  let started := proc_world (main live_cfg net 3) in
  let w := run_loop live_cfg net 3 [ToggleActivated false] started in
  proc_loop (main live_cfg net 3) = Running
  /\ remapping_enabled (tray started) = true
  /\ toggle_item (tray started) = true
  /\ net (http_log started) (toggle_request live_cfg false) = ConnectionFailed
  /\ remapping_enabled (tray w) = false
  /\ toggle_item (tray w) = false
  /\ http_log w = http_log started
                  ++ [toggle_request live_cfg false;
                      toggle_request live_cfg true;
                      toggle_request live_cfg false]
  /\ List.length (notifications w) = 3
  /\ forall depth,
       remapping_enabled
         (tray (run_loop live_cfg net (S (S depth)) [ToggleActivated false]
                  (proc_world (main live_cfg net (S (S depth)))))) = false.
Proof.
  cbv zeta. repeat (split; [vm_compute; reflexivity | ]).
  intros depth.
  assert (Hstart : proc_world (main live_cfg (scripted retry_script) (S (S depth)))
                   = down_started) by reflexivity.
  rewrite Hstart.
  change (run_loop live_cfg (scripted retry_script) (S (S depth))
            [ToggleActivated false] down_started)
    with (snd (on_toggle_remapping live_cfg (scripted retry_script) (S (S depth))
                 (with_tray (set_toggle_active false) down_started))).
  apply (toggle_refused_twice live_cfg (scripted retry_script) depth
           (with_tray (set_toggle_active false) down_started)).
  - reflexivity.
  - intros w1 Hlog. unfold post_ok, scripted. rewrite Hlog. reflexivity.
  - intros w2 Hlog. unfold post_ok, scripted. rewrite Hlog. reflexivity.
Qed.

(** ** Claims on the poll *)

Lemma api_get_status_value cfg net w v :
  fst (api_get cfg net "/api/status" w) = Ok v -> status_value cfg net w = v.
Proof.
  destruct (api_get_status cfg net w) as (w' & E & _). rewrite E. cbn.
  intros Heq. now injection Heq.
Qed.

(** C4. A poll whose status fetch gives [None] (as every failed request
    does) or another false value sets [daemon_running] to [False] and
    leaves the profile name, the remapping flag (field and check item) and
    the profile list as they were; a profile name coding stays coding. *)
Theorem failed_poll_keeps_last_known cfg net depth w v :
  fst (api_get cfg net "/api/status" w) = Ok v ->
  py_truthy v = false ->
  let w' := snd (update_status cfg net depth w) in
  daemon_running (tray w') = false
  /\ current_profile (tray w') = current_profile (tray w)
  /\ remapping_enabled (tray w') = remapping_enabled (tray w)
  /\ toggle_item (tray w') = toggle_item (tray w)
  /\ profiles_submenu (tray w') = profiles_submenu (tray w)
  /\ (current_profile (tray w) = PStr "coding" ->
      current_profile (tray w') = PStr "coding").
Proof.
  intros Hget Hfalse. apply api_get_status_value in Hget. subst v.
  destruct (update_status_failed cfg net depth w Hfalse) as (w' & E & Ht & _).
  cbv zeta. rewrite E. cbn [snd]. rewrite Ht. cbn. auto 10.
Qed.

Lemma failed_poll_keeps_last_known_witness :
  current_profile (tray coding_world) = PStr "coding"
  /\ daemon_running (tray coding_world) = true
  /\ daemon_running
       (tray (snd (update_status live_cfg (scripted coding_script) 3 coding_world)))
     = false
  /\ current_profile
       (tray (snd (update_status live_cfg (scripted coding_script) 3 coding_world)))
     = PStr "coding".
Proof.
  destruct (failed_poll_keeps_last_known live_cfg (scripted coding_script) 3 coding_world
              PNone eq_refl eq_refl) as (Hdown & _ & _ & _ & _ & Hcoding).
  split; [reflexivity | ]. split; [reflexivity | ].
  split; [exact Hdown | apply Hcoding; reflexivity].
Defined.

(** What a poll with a status payload leaves in the two holders of the
    remapping flag is what [set_active] left there. *)
Lemma update_status_flag cfg net depth w d :
  status_value cfg net w = PDict d -> d <> [] ->
  let enabled := match dict_lookup d "remapping_enabled" with
                 | Some v => v | None => PBool true end in
  exists w1 w2,
    toggle_item (tray w1) = toggle_item (tray w)
    /\ remapping_enabled (tray w1) = remapping_enabled (tray w)
    /\ http_log w1 = http_log w
         ++ (if MOCK_MODE cfg then []
             else [mkRequest GET (DAEMON_API_BASE cfg ++ "/api/status") None])
    /\ set_active (activate cfg net depth) (py_truthy enabled) w1 = (Ok tt, w2)
    /\ toggle_item (tray (snd (update_status cfg net depth w))) = toggle_item (tray w2)
    /\ remapping_enabled (tray (snd (update_status cfg net depth w)))
       = remapping_enabled (tray w2).
Proof.
  intros Hstatus Hne enabled.
  destruct (update_status_run cfg net depth w d Hstatus Hne)
    as (w1 & w2 & Ht1 & _ & _ & _ & Hh1 & Es & _ & _ & E).
  fold enabled in Es, E. exists w1, w2. rewrite E, Ht1. clear E.
  split; [reflexivity | ]. split; [reflexivity | ]. split; [exact Hh1 | ].
  split; [exact Es | ].
  destruct (profiles_loaded (tray w)); [split; reflexivity | ].
  match goal with |- context [update_profiles cfg net ?wu] =>
    destruct (update_profiles_spec cfg net wu) as (r & its & w' & E' & Hf & _) end.
  rewrite E'. unfold fields in Hf. cbn in Hf. injection Hf as _ _ G3 _ _ G6 _.
  destruct r as [[] | e]; cbn; auto.
Qed.

Lemma post_ok_acked cfg net enabled w :
  MOCK_MODE cfg = true \/ daemon_acks_toggles cfg net ->
  post_ok cfg net "/api/toggle" (PDict [("enabled", PBool enabled)]) w = true.
Proof.
  intros Hcase. unfold post_ok. destruct (MOCK_MODE cfg); [reflexivity | ].
  destruct Hcase as [Habs | Hacks]; [discriminate Habs | ].
  apply negb_true_iff, (Hacks (http_log w) enabled).
Qed.




(** ** Steps of the main loop *)

Lemma flip_item_profiles (name : pyval) (t : Tray) :
  well_formed_menu t ->
  flip_item name (profiles_submenu t)
  = [RefreshProfiles; Separator] ++ flip_item name (profiles t).
Proof.
  unfold well_formed_menu, profiles.
  destruct (profiles_submenu t) as [ | i1 [ | i2 rest]]; try discriminate.
  cbn. intros Hwf. injection Hwf as -> ->. reflexivity.
Qed.

Lemma count_active_flip (name : pyval) (l : list MenuItem) :
  count_active (flip_item name l) <= S (count_active l).
Proof.
  unfold count_active. induction l as [ | i rest IH]; cbn; [lia | ].
  destruct i as [ | | | n a]; cbn; try exact IH.
  destruct (label_eqb n name); cbn.
  - destruct a; cbn; lia.
  - destruct a; cbn; lia.
Qed.

Section Steps.

Variable cfg : Config.
Variable net : Network.

(** What one poll does to the flag, the list and the transport log. *)
Lemma update_status_step depth w :
  let w' := snd (update_status cfg net depth w) in
  (profiles_loaded (tray w) = true -> profiles_loaded (tray w') = true)
  /\ profile_fetches w'
     = profile_fetches w
       + (if is_nonempty_dict (status_value cfg net w)
             && negb (profiles_loaded (tray w)) then 1 else 0)
  /\ (profiles_submenu (tray w') = profiles_submenu (tray w)
      \/ exists its w1,
           profiles_submenu (tray w') = firstn 2 (profiles_submenu (tray w)) ++ its
           /\ count_active its <= payload_active_count (profiles_value cfg net w1)).
Proof.
  cbv zeta. destruct (py_truthy (status_value cfg net w)) eqn:Htruthy.
  - destruct (truthy_cases _ Htruthy) as [(d & Hstatus & Hne) | Hnodict].
    + destruct (update_status_ok cfg net depth w d Hstatus Hne)
        as (r & w' & E & _ & _ & _ & _ & _ & _ & Hrest).
      rewrite E, Hstatus. cbn [snd].
      destruct d as [ | kv d']; [contradiction | ]. cbn [is_nonempty_dict andb].
      destruct (profiles_loaded (tray w)).
      * destruct Hrest as (_ & Hl & Hs & Hc).
        rewrite Hc. cbn. repeat split; auto; lia.
      * destruct Hrest as (_ & Hc & its & w1 & Hs & Hle).
        rewrite Hc. cbn.
        repeat split; try discriminate; try lia. right. eauto.
    + destruct (update_status_raises cfg net depth w Htruthy Hnodict)
        as (w' & E & Ht & Hc & _).
      rewrite E. cbn [snd]. rewrite Ht. cbn.
      unfold profile_fetches. rewrite Hc, !filter_app, !length_app. cbn.
      replace (is_nonempty_dict (status_value cfg net w)) with false
        by (destruct (status_value cfg net w); try reflexivity;
            now destruct (Hnodict d)).
      cbn. repeat split; auto; lia.
  - destruct (update_status_failed cfg net depth w Htruthy) as (w' & E & Ht & Hc & _).
    rewrite E. cbn [snd]. rewrite Ht. cbn.
    unfold profile_fetches. rewrite Hc, !filter_app, !length_app. cbn.
    replace (is_nonempty_dict (status_value cfg net w)) with false
      by (destruct (status_value cfg net w) as [ | | | | | [ | ]];
          try reflexivity; discriminate).
    cbn. repeat split; auto; lia.
Qed.

Lemma update_profiles_step w :
  let w' := snd (update_profiles cfg net w) in
  profiles_loaded (tray w') = profiles_loaded (tray w)
  /\ profile_fetches w' = S (profile_fetches w)
  /\ exists its w1,
       profiles_submenu (tray w') = firstn 2 (profiles_submenu (tray w)) ++ its
       /\ count_active its <= payload_active_count (profiles_value cfg net w1).
Proof.
  destruct (update_profiles_spec cfg net w)
    as (r & its & w' & E & Hf & Hs & Hle & Hc & _).
  cbv zeta. rewrite E. cbn [snd]. unfold fields in Hf.
  injection Hf as _ _ _ Hl _ _ _.
  unfold profile_fetches. rewrite Hc, filter_app, length_app. cbn.
  repeat split; auto; try lia. eauto.
Qed.

(** The timer callback leaves the world of the poll, but for the timer it
    may remove. *)
Lemma on_timer_world depth w :
  let wp := snd (update_status cfg net depth w) in
  let w' := snd (on_timer cfg net depth w) in
  tray w' = tray wp /\ calls w' = calls wp /\ notifications w' = notifications wp
  /\ http_log w' = http_log wp /\ shown w' = shown wp
  /\ (timers w' = timers wp \/ timers w' = List.tl (timers wp)).
Proof.
  cbv zeta. unfold on_timer.
  destruct (update_status cfg net depth w) as [[ok | e] wp]; cbn; auto 10.
Qed.

(** A click on the toggle: the handler runs on the new check state,
    makes at least one POST and shows at least one notification; exactly
    one of each when the daemon acknowledges the POST. *)
Lemma toggle_step depth b w :
  let w' := snd (dispatch cfg net depth (ToggleActivated b) w) in
  fst (dispatch cfg net depth (ToggleActivated b) w) = Ok tt
  /\ besides_flag (tray w') = besides_flag (tray w)
  /\ S (post_calls w) <= post_calls w'
  /\ S (List.length (notifications w)) <= List.length (notifications w')
  /\ (post_ok cfg net "/api/toggle" (PDict [("enabled", PBool b)]) w = true ->
      post_calls w' = S (post_calls w)
      /\ List.length (notifications w') = S (List.length (notifications w))
      /\ toggle_item (tray w') = b
      /\ remapping_enabled (tray w') = b).
Proof.
  cbv zeta. set (wc := with_tray (set_toggle_active b) w).
  change (dispatch cfg net depth (ToggleActivated b) w)
    with (on_toggle_remapping cfg net depth wc).
  destruct (toggle_frame cfg net depth wc) as (w' & E & Hf & Hp & Hn).
  rewrite E. cbn [fst snd].
  split; [reflexivity | ]. split; [exact Hf | ]. split; [exact Hp | ].
  split; [exact Hn | ].
  intros Hack.
  destruct (on_toggle_remapping_run cfg net depth wc)
    as (wp & Ht & Hc & Hn' & _ & _ & E').
  rewrite E in E'.
  change (toggle_item (tray wc)) with b in *.
  change (post_ok cfg net "/api/toggle" (PDict [("enabled", PBool b)]) wc)
    with (post_ok cfg net "/api/toggle" (PDict [("enabled", PBool b)]) w) in E'.
  rewrite Hack in E'. unfold show_notification in E'. injection E' as ->.
  cbn. unfold post_calls. rewrite Ht, Hc, Hn', filter_app, !length_app. cbn.
  repeat split; lia.
Qed.


(** No event unsets the flag [_profiles_loaded]. *)
Lemma dispatch_keeps_loaded depth ev w :
  profiles_loaded (tray w) = true ->
  profiles_loaded (tray (snd (dispatch cfg net depth ev w))) = true.
Proof.
  intros Hl. destruct ev as [ | b | name | ].
  - cbn [dispatch]. destruct (on_timer_world depth w) as (Ht & _). rewrite Ht.
    now apply (update_status_step depth w).
  - destruct (toggle_step depth b w) as (_ & Hf & _).
    apply besides_flag_fields in Hf as (_ & _ & Hl' & _). congruence.
  - set (wc := with_tray (fun t => set_submenu (flip_item name (profiles_submenu t)) t)
                  w).
    change (dispatch cfg net depth (ProfileActivated name) w)
      with (on_switch_profile cfg net name wc).
    destruct (post_ok cfg net "/api/profiles/activate" (PDict [("name", name)]) wc)
      eqn:Hok.
    + destruct (on_switch_profile_success cfg net name wc Hok)
        as (r & its & w' & w1 & E & _ & _ & _ & _ & Hl' & _).
      rewrite E. cbn [snd]. rewrite Hl'. exact Hl.
    + destruct (on_switch_profile_failure cfg net name wc Hok) as (w' & E & Ht & _).
      rewrite E. cbn [snd]. rewrite Ht. exact Hl.
  - cbn [dispatch]. destruct (update_profiles_step w) as (Hl' & _).
    cbv zeta in Hl'. congruence.
Qed.

(** Every event leaves the submenu as it was, or rebuilds it from a
    payload of the daemon, or, for a click on a profile entry the daemon
    refuses, leaves it with the clicked entry flipped. *)
Lemma dispatch_submenu depth ev w :
  let w' := snd (dispatch cfg net depth ev w) in
  profiles_submenu (tray w') = profiles_submenu (tray w)
  \/ (exists its w1,
        profiles_submenu (tray w')
        = firstn 2 (match ev with
                    | ProfileActivated name => flip_item name (profiles_submenu (tray w))
                    | _ => profiles_submenu (tray w)
                    end) ++ its
        /\ count_active its <= payload_active_count (profiles_value cfg net w1))
  \/ (exists name,
        ev = ProfileActivated name
        /\ post_ok cfg net "/api/profiles/activate" (PDict [("name", name)]) w = false
        /\ profiles_submenu (tray w') = flip_item name (profiles_submenu (tray w))).
Proof.
  cbv zeta. destruct ev as [ | b | name | ].
  - cbn [dispatch]. destruct (on_timer_world depth w) as (Ht & _). rewrite Ht.
    destruct (update_status_step depth w) as (_ & _ & [Hs | Hs]); auto.
  - destruct (toggle_step depth b w) as (_ & Hf & _).
    apply besides_flag_fields in Hf as (_ & _ & _ & _ & _ & Hs). auto.
  - set (wc := with_tray (fun t => set_submenu (flip_item name (profiles_submenu t)) t)
                  w).
    change (dispatch cfg net depth (ProfileActivated name) w)
      with (on_switch_profile cfg net name wc).
    change (post_ok cfg net "/api/profiles/activate" (PDict [("name", name)]) w)
      with (post_ok cfg net "/api/profiles/activate" (PDict [("name", name)]) wc).
    destruct (post_ok cfg net "/api/profiles/activate" (PDict [("name", name)]) wc)
      eqn:Hok.
    + destruct (on_switch_profile_success cfg net name wc Hok)
        as (r & its & w' & w1 & E & _ & _ & _ & _ & _ & Hs & Hle & _).
      rewrite E. cbn [snd]. right. left. exists its, w1. split; [exact Hs | exact Hle].
    + destruct (on_switch_profile_failure cfg net name wc Hok) as (w' & E & Ht & _).
      rewrite E. cbn [snd]. rewrite Ht. right. right. exists name. auto.
  - cbn [dispatch]. destruct (update_profiles_step w) as (_ & _ & Hs).
    right. left. exact Hs.
Qed.

End Steps.

(** Only a poll touches the timer. *)
Lemma dispatch_timers cfg net depth ev w :
  is_tick ev = false ->
  timers (snd (dispatch cfg net depth ev w)) = timers w.
Proof.
  intros Hev.
  assert (Hget : forall endpoint,
             preserves (fun w' => timers w' = timers w) (api_get cfg net endpoint)).
  { intros endpoint w0 Hw0.
    destruct (api_get_frame cfg net endpoint w0) as (v & w' & E & _ & _ & _ & Ht).
    rewrite E. cbn [snd]. congruence. }
  assert (Hpost : forall endpoint data,
             preserves (fun w' => timers w' = timers w)
               (api_post cfg net endpoint data)).
  { intros endpoint data w0 Hw0.
    destruct (api_post_frame cfg net endpoint data w0)
      as (ok & w' & E & _ & _ & _ & Ht).
    rewrite E. cbn [snd]. congruence. }
  assert (Hwrite : forall f w0, timers w0 = timers w -> timers (with_tray f w0) = timers w)
    by (intros f w0 Hw0; exact Hw0).
  assert (Hnotify : forall title message icon,
             preserves (fun w' => timers w' = timers w)
               (show_notification title message icon))
    by (intros title message icon w0 Hw0; exact Hw0).
  assert (Hprint : forall line, preserves (fun w' => timers w' = timers w) (print line))
    by (intros line w0 Hw0; exact Hw0).
  assert (Hshown : forall n w0, timers w0 = timers w -> timers (set_shown n w0) = timers w)
    by (intros n w0 Hw0; exact Hw0).
  destruct ev as [ | b | name | ]; [discriminate Hev | | | ].
  - exact (on_toggle_remapping_preserves cfg net _ Hwrite Hnotify Hpost Hprint depth
             (with_tray (set_toggle_active b) w) eq_refl).
  - exact (on_switch_profile_preserves cfg net _ Hwrite Hnotify Hget Hpost Hshown name
             (with_tray (fun t => set_submenu (flip_item name (profiles_submenu t)) t) w)
             eq_refl).
  - exact (update_profiles_preserves cfg net _ Hwrite Hget Hshown w eq_refl).
Qed.

(** What one event does to the timer. *)
Lemma deliver_timers cfg net depth ev w :
  timers (deliver cfg net depth ev w) = timers w
  \/ (ev = Tick
      /\ (exists e, fst (update_status cfg net depth w) = Raise e)
      /\ timers (deliver cfg net depth ev w) = List.tl (timers w)).
Proof.
  destruct ev as [ | b | name | ];
    try (left; unfold deliver; now apply dispatch_timers).
  unfold deliver. destruct (timers w) as [ | timer others] eqn:Htimers; [now left | ].
  cbn [dispatch]. unfold on_timer.
  pose proof (update_status_timers cfg net depth w) as Hkeep.
  destruct (update_status cfg net depth w) as [[ok | e] w']; cbn [fst snd] in *.
  - left. congruence.
  - right. split; [reflexivity | ]. split; [eauto | ]. cbn. now rewrite Hkeep, Htimers.
Qed.
(** ** Startup *)

(** [check_daemon_running] always returns; in live mode it makes one
    request of its own, which is no transport call, and says yes for the
    status 200 only. *)
Lemma check_daemon_running_spec cfg net w :
  exists w',
    check_daemon_running cfg net w
    = (Ok (if MOCK_MODE cfg then true
           else match net (http_log w)
                          (mkRequest GET (DAEMON_API_BASE cfg ++ "/api/status") None) with
                | Response status _ => Z.eqb status 200
                | _ => false
                end), w')
    /\ tray w' = tray w
    /\ calls w' = calls w
    /\ http_log w' = http_log w
         ++ (if MOCK_MODE cfg then []
             else [mkRequest GET (DAEMON_API_BASE cfg ++ "/api/status") None])
    /\ timers w' = timers w
    /\ notifications w' = notifications w
    /\ shown w' = shown w
    /\ console w' = console w.
Proof.
  unfold check_daemon_running. destruct (MOCK_MODE cfg).
  - exists w. rewrite app_nil_r. auto 10.
  - unfold bind, http. cbv beta iota zeta.
    destruct (net _ _); eexists; (split; [reflexivity | cbn; auto 10]).
Qed.

(** [main], opened up at the first poll. *)
Lemma main_run cfg net depth :
  exists w1,
    tray w1 = initial_tray
    /\ calls w1 = []
    /\ http_log w1 = (if MOCK_MODE cfg then [] else [status_request cfg])
    /\ timers w1 = [(UPDATE_INTERVAL cfg, CbUpdateStatus)]
    /\ notifications w1 = []
    /\ shown w1 = 2
    /\ console w1 = []
    /\ main cfg net depth
       = let warnings :=
           if MOCK_MODE cfg then []
           else match net [] (status_request cfg) with
                | Response status _ =>
                    if Z.eqb status 200 then [] else startup_warning
                | _ => startup_warning
                end in
         match update_status cfg net depth w1 with
         | (Ok _, w2) => mkProcess w2 (warnings ++ started_lines cfg) Running
         | (Raise e, w2) => mkProcess w2 warnings (Crashed e)
         end.
Proof.
  unfold main.
  destruct (check_daemon_running_spec cfg net empty_world)
    as (wc & -> & Ht & Hc & Hh & Hti & Hn & Hsh & Hco).
  exists (snd (timeout_add (UPDATE_INTERVAL cfg) CbUpdateStatus wc)).
  split; [exact Ht | ]. split; [exact Hc | ].
  split; [cbn; rewrite Hh; reflexivity | ].
  split; [cbn; rewrite Hti; reflexivity | ].
  split; [exact Hn | ]. split; [exact Hsh | ]. split; [exact Hco | ].
  unfold init. unfold bind at 1, timeout_add at 1. cbv beta iota zeta.
  unfold bind. cbn [snd timeout_add].
  assert (Hwarn :
            (if negb (if MOCK_MODE cfg then true
                      else match net (http_log empty_world)
                                     (mkRequest GET (DAEMON_API_BASE cfg ++ "/api/status")
                                        None) with
                           | Response status _ => Z.eqb status 200
                           | _ => false
                           end) && negb (MOCK_MODE cfg)
             then startup_warning else [])
            = (if MOCK_MODE cfg then []
               else match net [] (status_request cfg) with
                    | Response status _ =>
                        if Z.eqb status 200 then [] else startup_warning
                    | _ => startup_warning
                    end)).
  { cbn [http_log empty_world]. unfold status_request.
    destruct (MOCK_MODE cfg); [reflexivity | ].
    destruct (net _ _) as [ | | status body]; try reflexivity.
    destruct (Z.eqb status 200); reflexivity. }
  rewrite Hwarn.
  match goal with |- context [update_status cfg net depth ?w2] =>
    destruct (update_status cfg net depth w2) as [[ok | e] w'] end; reflexivity.
Qed.

(** ** Claims on when profiles are fetched *)

(** C6 as stated fails: the daemon is reachable, then unreachable, then
    reachable again, and the poll that finds it again fetches no
    profiles. *)
Lemma no_refetch_after_reconnect :
  let net := scripted reconnect_script in
  let w1 := snd (init live_cfg net 3 empty_world) in
  let w2 := snd (update_status live_cfg net 3 w1) in
  let w3 := snd (update_status live_cfg net 3 w2) in
  daemon_running (tray w1) = true
  /\ daemon_running (tray w2) = false
  /\ daemon_running (tray w3) = true
  /\ profile_fetches w1 = 1
  /\ profile_fetches w3 = profile_fetches w2.
Proof. vm_compute. repeat split. Qed.

(** C6, amended. A poll fetches the profiles exactly when its status
    payload is a non-empty dict and the flag [_profiles_loaded] is not
    set.  The flag is set when that poll returns, and no event unsets it:
    once it is set, no sequence of polls fetches profiles, whatever the
    daemon does in between.  The refresh action fetches them every
    time, and so does a profile switch the daemon acknowledges. *)
Theorem profile_fetch_gating cfg net depth :
  (forall w v,
     fst (api_get cfg net "/api/status" w) = Ok v ->
     profile_fetches (snd (update_status cfg net depth w))
     = profile_fetches w
       + (if is_nonempty_dict v && negb (profiles_loaded (tray w)) then 1 else 0))
  /\ (forall w,
        fst (update_status cfg net depth w) = Ok true ->
        is_nonempty_dict (status_value cfg net w) = true ->
        profiles_loaded (tray (snd (update_status cfg net depth w))) = true)
  /\ (forall ev w,
        profiles_loaded (tray w) = true ->
        profiles_loaded (tray (snd (dispatch cfg net depth ev w))) = true)
  /\ (forall evs w,
        profiles_loaded (tray w) = true ->
        forallb is_tick evs = true ->
        profile_fetches (run_loop cfg net depth evs w) = profile_fetches w)
  /\ (forall w,
        profile_fetches (snd (dispatch cfg net depth RefreshActivated w))
        = S (profile_fetches w))
  /\ (forall name w,
        post_ok cfg net "/api/profiles/activate" (PDict [("name", name)]) w = true ->
        profile_fetches (snd (dispatch cfg net depth (ProfileActivated name) w))
        = S (profile_fetches w)).
Proof.
  split; [ | split; [ | split; [ | split; [ | split]]]].
  - intros w v Hget. apply api_get_status_value in Hget. subst v.
    apply (update_status_step cfg net depth w).
  - intros w Hret Hdict.
    destruct (status_value cfg net w) as [ | | | | | d] eqn:Hstatus;
      try discriminate Hdict.
    assert (Hne : d <> []) by (intros ->; discriminate Hdict).
    destruct (update_status_ok cfg net depth w d Hstatus Hne)
      as (r & w' & E & _ & _ & _ & _ & _ & _ & Hrest).
    rewrite E in *. cbn [fst snd] in *.
    destruct (profiles_loaded (tray w)).
    + tauto.
    + destruct Hrest as ([(_ & Hl) | ((e & He) & _)] & _); [exact Hl | ].
      congruence.
  - intros ev w. apply dispatch_keeps_loaded.
  - intros evs. induction evs as [ | ev rest IH]; intros w Hl Hticks; [reflexivity | ].
    cbn [forallb] in Hticks. apply andb_prop in Hticks as (Htick & Hticks).
    destruct ev; try discriminate Htick. cbn [run_loop]. unfold deliver.
    destruct (timers w) as [ | timer others]; [now apply IH | ].
    rewrite IH; auto.
    + cbn [dispatch]. unfold profile_fetches.
      destruct (on_timer_world cfg net depth w) as (_ & Hc & _). rewrite Hc.
      pose proof (update_status_step cfg net depth w) as (_ & Hf & _).
      rewrite Hl, andb_false_r, Nat.add_0_r in Hf. exact Hf.
    + now apply dispatch_keeps_loaded.
  - intros w. apply (update_profiles_step cfg net w).
  - intros name w Hack.
    set (wc := with_tray (fun t => set_submenu (flip_item name (profiles_submenu t)) t)
                 w).
    change (dispatch cfg net depth (ProfileActivated name) w)
      with (on_switch_profile cfg net name wc).
    destruct (on_switch_profile_success cfg net name wc Hack)
      as (r & its & w' & w1 & E & _ & _ & _ & _ & _ & _ & _ & Hc & _).
    rewrite E. cbn [snd]. unfold profile_fetches.
    rewrite Hc, filter_app, length_app. cbn. lia.
Qed.

Lemma profile_fetch_gating_witness :
  let net := scripted reconnect_script in
  let w1 := snd (init live_cfg net 3 empty_world) in
  profiles_loaded (tray w1) = true
  /\ profile_fetches (run_loop live_cfg net 3 [Tick; Tick] w1) = profile_fetches w1.
Proof.
  cbv zeta.
  destruct (profile_fetch_gating live_cfg (scripted reconnect_script) 3)
    as (_ & _ & _ & Hticks & _).
  split; [reflexivity | ].
  apply Hticks; reflexivity.
Defined.

(** ** Claims on the profile list *)

(** C7 as stated fails: the list shows what the daemon sends.  A daemon
    that marks two profiles active gives a reachable state with two
    checked entries. *)
Lemma two_active_shown :
  let w := snd (init live_cfg (scripted two_active_script) 3 empty_world) in
  daemon_running (tray w) = true
  /\ profiles (tray w) = [ProfileItem (PStr "default") true;
                          ProfileItem (PStr "gaming") true]
  /\ ~ count_active (profiles (tray w)) <= 1.
Proof.
  vm_compute. split; [reflexivity | ]. split; [reflexivity | ].
  intros Hle. lia.
Qed.

Lemma profiles_value_bound cfg net w :
  daemon_lists_one_active cfg net ->
  payload_active_count (profiles_value cfg net w) <= 1.
Proof.
  intros Hdaemon. unfold profiles_value.
  destruct (MOCK_MODE cfg); [cbn; lia | ].
  destruct (net _ _) as [ | | status [v | ]] eqn:Hnet; cbn; try lia.
  destruct (raises_for_status status); [cbn; lia | ].
  exact (Hdaemon _ _ _ Hnet).
Qed.

Lemma rebuilt_menu (t t' : Tray) (its : list MenuItem) :
  well_formed_menu t ->
  profiles_submenu t' = firstn 2 (profiles_submenu t) ++ its ->
  well_formed_menu t' /\ profiles t' = its.
Proof.
  unfold well_formed_menu, profiles. intros Hwf ->. rewrite Hwf. split; reflexivity.
Qed.

Lemma switch_acknowledged cfg net name w :
  MOCK_MODE cfg = true \/ daemon_acks_switches cfg net ->
  post_ok cfg net "/api/profiles/activate" (PDict [("name", name)]) w = true.
Proof.
  intros Hcase. unfold post_ok. destruct (MOCK_MODE cfg); [reflexivity | ].
  destruct Hcase as [Habs | Hacks]; [discriminate Habs | ].
  apply negb_true_iff, (Hacks (http_log w) name).
Qed.

(** One event keeps the list well formed with at most one checked
    entry, unless it is a click on a profile entry the daemon refuses. *)
Lemma dispatch_one_active cfg net depth ev w :
  daemon_lists_one_active cfg net ->
  (forall name, ev = ProfileActivated name ->
                post_ok cfg net "/api/profiles/activate" (PDict [("name", name)]) w
                = true) ->
  well_formed_menu (tray w) /\ count_active (profiles (tray w)) <= 1 ->
  well_formed_menu (tray (snd (dispatch cfg net depth ev w)))
  /\ count_active (profiles (tray (snd (dispatch cfg net depth ev w)))) <= 1.
Proof.
  intros Hdaemon Hacked (Hwf & Hcount).
  destruct (dispatch_submenu cfg net depth ev w)
    as [Hsame | [(its & w1 & Hs & Hle) | (name & -> & Hrefused & _)]].
  - unfold well_formed_menu, profiles in *. rewrite Hsame. auto.
  - assert (Hfixed : profiles_submenu (tray (snd (dispatch cfg net depth ev w)))
                     = firstn 2 (profiles_submenu (tray w)) ++ its).
    { rewrite Hs. destruct ev as [ | b | name | ]; try reflexivity.
      rewrite (flip_item_profiles name _ Hwf). unfold well_formed_menu in Hwf.
      now rewrite Hwf. }
    destruct (rebuilt_menu _ _ _ Hwf Hfixed) as (Hwf' & Hp).
    split; [exact Hwf' | ]. rewrite Hp.
    pose proof (profiles_value_bound cfg net w1 Hdaemon). lia.
  - rewrite (Hacked name eq_refl) in Hrefused. discriminate Hrefused.
Qed.

(** C7, amended. The list shows what the daemon lists.  When the daemon
    never lists more than one active profile, the tray shows at most one
    checked entry after startup, and every poll, refresh, toggle and
    acknowledged profile switch keeps it so; so does every run of the
    main loop in mock mode or with a daemon that acknowledges every
    switch.  A switch the daemon refuses is left out: the click has
    checked the entry and nothing unchecks it. *)
Theorem at_most_one_active cfg net depth :
  daemon_lists_one_active cfg net ->
  let Inv := fun w => well_formed_menu (tray w)
                      /\ count_active (profiles (tray w)) <= 1 in
  Inv (snd (init cfg net depth empty_world))
  /\ Inv (proc_world (main cfg net depth))
  /\ (forall ev w,
        Inv w ->
        (forall name, ev = ProfileActivated name ->
                      post_ok cfg net "/api/profiles/activate" (PDict [("name", name)]) w
                      = true) ->
        Inv (snd (dispatch cfg net depth ev w)))
  /\ (MOCK_MODE cfg = true \/ daemon_acks_switches cfg net ->
      forall evs, Inv (run_loop cfg net depth evs (proc_world (main cfg net depth)))).
Proof.
  intros Hdaemon Inv.
  assert (Hstep : forall ev w,
             Inv w ->
             (forall name, ev = ProfileActivated name ->
                           post_ok cfg net "/api/profiles/activate"
                             (PDict [("name", name)]) w = true) ->
             Inv (snd (dispatch cfg net depth ev w))).
  { intros ev w Hw Hacked. now apply dispatch_one_active. }
  assert (Hpoll : forall w, Inv w -> Inv (snd (update_status cfg net depth w))).
  { intros w Hw.
    assert (Htick : Inv (snd (dispatch cfg net depth Tick w)))
      by (apply Hstep; [exact Hw | discriminate]).
    cbn [dispatch] in Htick. destruct (on_timer_world cfg net depth w) as (Ht & _).
    unfold Inv in *. rewrite Ht in Htick. exact Htick. }
  assert (Hinit : Inv (snd (init cfg net depth empty_world))).
  { assert (Hfirst : Inv (snd (update_status cfg net depth
                                 (snd (timeout_add (UPDATE_INTERVAL cfg) CbUpdateStatus
                                         empty_world)))))
      by (apply Hpoll; split; [reflexivity | cbn; lia]).
    unfold init, bind in *. cbn [timeout_add snd] in *.
    destruct (update_status cfg net depth _) as [[ok | e] w']; exact Hfirst. }
  assert (Hmain : Inv (proc_world (main cfg net depth))).
  { destruct (main_run cfg net depth) as (w1 & Ht & _ & _ & _ & _ & _ & _ & E).
    rewrite E. cbv zeta.
    assert (Hfirst : Inv (snd (update_status cfg net depth w1)))
      by (apply Hpoll; unfold Inv; rewrite Ht; split; [reflexivity | cbn; lia]).
    destruct (update_status cfg net depth w1) as [[ok | e] w']; exact Hfirst. }
  split; [exact Hinit | ]. split; [exact Hmain | ]. split; [exact Hstep | ].
  intros Hacks evs. generalize (proc_world (main cfg net depth)), Hmain.
  induction evs as [ | ev rest IH]; intros w Hw; [exact Hw | ].
  cbn [run_loop]. apply IH. unfold deliver.
  assert (Hgo : Inv (snd (dispatch cfg net depth ev w))).
  { apply Hstep; [exact Hw | ]. intros name _. now apply switch_acknowledged. }
  destruct ev; try exact Hgo. destruct (timers w); [exact Hw | exact Hgo].
Qed.

Lemma steady_daemon_lists_one_active : daemon_lists_one_active live_cfg steady_daemon.
Proof.
  intros history status v Hnet. cbn in Hnet. injection Hnet as _ <-. cbn. lia.
Qed.

Lemma steady_daemon_acks_switches : daemon_acks_switches live_cfg steady_daemon.
Proof. intros history name. reflexivity. Qed.

Lemma at_most_one_active_witness :
  count_active
    (profiles
       (tray (run_loop live_cfg steady_daemon 3
                [ProfileActivated (PStr "gaming"); Tick; RefreshActivated]
                (proc_world (main live_cfg steady_daemon 3))))) <= 1.
Proof.
  destruct (at_most_one_active live_cfg steady_daemon 3 steady_daemon_lists_one_active)
    as (_ & _ & _ & Hrun).
  apply (Hrun (or_intror steady_daemon_acks_switches)
              [ProfileActivated (PStr "gaming"); Tick; RefreshActivated]).
Defined.
(** ** Claims on commands *)








(** C3 as stated fails: in the scenario of the mock (default active,
    gaming and coding not), when the POST for gaming is made the tray
    still names default as the profile and shows it as a checked entry.
    The click itself has checked gaming, next to default. *)
Lemma switch_is_not_optimistic :
  let w' := snd (on_switch_profile mock_cfg daemon_down (PStr "gaming") mock_started) in
  let clicked := with_tray (fun t => set_submenu
                                       (flip_item (PStr "gaming") (profiles_submenu t)) t)
                   mock_started in
  let wd := snd (dispatch mock_cfg daemon_down 3 (ProfileActivated (PStr "gaming"))
                   mock_started) in
  shows_active (PStr "default") (tray mock_started)
  /\ In (activate_call (PStr "gaming") (tray mock_started)) (calls w')
  /\ ~ shows_active (PStr "gaming") (tray mock_started)
  /\ In (activate_call (PStr "gaming") (tray clicked)) (calls wd)
  /\ current_profile (tray clicked) = PStr "default"
  /\ filter is_active (profiles (tray clicked))
     = [ProfileItem (PStr "default") true; ProfileItem (PStr "gaming") true]
  /\ ~ shows_active (PStr "gaming") (tray clicked).
Proof.
  cbv zeta. split; [split; vm_compute; reflexivity | ]. split; [vm_compute; auto | ].
  split; [intros (Hname & _); discriminate Hname | ].
  split; [vm_compute; auto | ]. split; [reflexivity | ]. split; [reflexivity | ].
  intros (Hname & _). discriminate Hname.
Qed.

(** C3, amended. [on_switch_profile] makes its POST first, with the tray
    as it found it.  When the POST is acknowledged it stores the name as
    the current profile and fetches the profile list again; when the POST
    fails the tray stays as it was.  For a click, the tray the handler
    finds is the one with the clicked entry flipped. *)
Theorem switch_posts_before_update cfg net depth name w :
  let ok := post_ok cfg net "/api/profiles/activate" (PDict [("name", name)]) w in
  let w' := snd (on_switch_profile cfg net name w) in
  nth_error (calls w') (List.length (calls w)) = Some (activate_call name (tray w))
  /\ (ok = false -> tray w' = tray w /\ List.length (calls w') = S (List.length (calls w)))
  /\ (ok = true ->
      current_profile (tray w') = name
      /\ nth_error (calls w') (S (List.length (calls w)))
         = Some (mkCall GET "/api/profiles" None
                   (set_submenu (firstn 2 (profiles_submenu (tray w)))
                      (set_current_profile name (tray w)))))
  /\ nth_error (calls (snd (dispatch cfg net depth (ProfileActivated name) w)))
       (List.length (calls w))
     = Some (activate_call name
               (set_submenu (flip_item name (profiles_submenu (tray w))) (tray w))).
Proof.
  assert (Hfirst : forall w0,
             nth_error (calls (snd (on_switch_profile cfg net name w0)))
               (List.length (calls w0))
             = Some (activate_call name (tray w0))).
  { intros w0.
    destruct (post_ok cfg net "/api/profiles/activate" (PDict [("name", name)]) w0)
      eqn:Hok.
    - destruct (on_switch_profile_success cfg net name w0 Hok)
        as (r & its & w' & w1 & E & _ & _ & _ & _ & _ & _ & _ & Hc & _).
      rewrite E. cbn [snd]. rewrite Hc.
      rewrite nth_error_app2, Nat.sub_diag by lia. reflexivity.
    - destruct (on_switch_profile_failure cfg net name w0 Hok) as (w' & E & _ & Hc & _).
      rewrite E. cbn [snd]. rewrite Hc.
      rewrite nth_error_app2, Nat.sub_diag by lia. reflexivity. }
  cbv zeta. split; [apply Hfirst | ].
  split; [ | split].
  - intros Hok.
    destruct (on_switch_profile_failure cfg net name w Hok) as (w' & E & Ht & Hc & _).
    rewrite E. cbn [snd]. rewrite Hc, length_app. cbn. split; [exact Ht | lia].
  - intros Hok.
    destruct (on_switch_profile_success cfg net name w Hok)
      as (r & its & w' & w1 & E & Hname & _ & _ & _ & _ & _ & _ & Hc & _).
    rewrite E. cbn [snd]. rewrite Hc. split; [exact Hname | ].
    rewrite nth_error_app2 by lia.
    replace (S (List.length (calls w)) - List.length (calls w)) with 1 by lia.
    reflexivity.
  - exact (Hfirst (with_tray (fun t => set_submenu
                                         (flip_item name (profiles_submenu t)) t) w)).
Qed.

Lemma switch_posts_before_update_witness :
  let w' := snd (on_switch_profile mock_cfg daemon_down (PStr "gaming") mock_started) in
  nth_error (calls w') (List.length (calls mock_started))
  = Some (activate_call (PStr "gaming") (tray mock_started))
  /\ current_profile (tray w') = PStr "gaming".
Proof.
  destruct (switch_posts_before_update mock_cfg daemon_down 3 (PStr "gaming")
              mock_started) as (Hcall & _ & Hack & _).
  cbv zeta. split; [exact Hcall | ]. apply Hack. reflexivity.
Defined.
(** ** Further properties: configuration and transport *)

(** X1. Mock mode is on exactly when KEYRX_MOCK is the string 1; the API
    base is KEYRX_API_URL when it is set; the web UI address has a default
    of its own and does not follow KEYRX_API_URL. *)
Theorem load_config_reads_environment (env : Environ) :
  (MOCK_MODE (load_config env) = true <-> env "KEYRX_MOCK" = Some "1")
  /\ (forall url, env "KEYRX_API_URL" = Some url ->
                  DAEMON_API_BASE (load_config env) = url)
  /\ (env "KEYRX_API_URL" = None ->
      DAEMON_API_BASE (load_config env) = "http://127.0.0.1:9867")
  /\ (env "KEYRX_WEB_UI" = None ->
      WEB_UI_URL (load_config env) = "http://127.0.0.1:9867").
Proof.
  unfold load_config, getenv. cbn [MOCK_MODE DAEMON_API_BASE WEB_UI_URL].
  split; [ | split; [ | split]].
  - destruct (env "KEYRX_MOCK") as [v | ]; split; intros H.
    + apply String.eqb_eq in H. now subst v.
    + injection H as ->. reflexivity.
    + discriminate H.
    + discriminate H.
  - intros url ->. reflexivity.
  - intros ->. reflexivity.
  - intros ->. reflexivity.
Qed.

Lemma load_config_reads_environment_witness :
  DAEMON_API_BASE (load_config other_api_env) = "http://10.0.0.2:9867"
  /\ WEB_UI_URL (load_config other_api_env) = "http://127.0.0.1:9867"
  /\ MOCK_MODE (load_config mock_env) = true.
Proof.
  destruct (load_config_reads_environment other_api_env) as (_ & Hapi & _ & Hweb).
  destruct (load_config_reads_environment mock_env) as (Hmock & _).
  split; [apply Hapi; reflexivity | ].
  split; [apply Hweb; reflexivity | apply Hmock; reflexivity].
Defined.

(** X2. In live mode [api_get] always returns, and what it returns, if
    not [None], is the decoded body of a response whose status is no
    error: nothing else reaches the caller. *)
Theorem api_get_returns_the_body cfg net endpoint w :
  MOCK_MODE cfg = false ->
  let outcome := net (http_log w) (mkRequest GET (DAEMON_API_BASE cfg ++ endpoint) None) in
  (exists v, fst (api_get cfg net endpoint w) = Ok v)
  /\ forall v, v <> PNone ->
       (fst (api_get cfg net endpoint w) = Ok v
        <-> exists status,
              outcome = Response status (Some v) /\ raises_for_status status = false).
Proof.
  intros Hlive outcome.
  destruct (api_get_live cfg net endpoint w Hlive) as (w' & E & _).
  rewrite E. cbn [fst]. fold outcome. split; [eauto | ].
  intros v Hv. split.
  - intros Heq. injection Heq as Heq.
    destruct outcome as [ | | status [body | ]]; cbn in Heq;
      try (now destruct Hv).
    destruct (raises_for_status status) eqn:Hs; [now destruct Hv | ].
    subst body. eauto.
  - intros (status & -> & Hs). cbn. now rewrite Hs.
Qed.

Lemma api_get_returns_the_body_witness :
  fst (api_get live_cfg steady_daemon "/api/profiles" empty_world) = Ok mock_profiles.
Proof.
  destruct (api_get_returns_the_body live_cfg steady_daemon "/api/profiles" empty_world
              eq_refl) as (_ & Hiff).
  apply (Hiff mock_profiles); [discriminate | ].
  exists 200%Z. split; reflexivity.
Defined.

(** X3. A poll whose request fails is not fatal: [update_status] returns
    [True], so the timer goes on; it makes the one status call and no
    other, and shows no notification. *)
Theorem failed_poll_is_not_fatal cfg net depth w :
  MOCK_MODE cfg = false ->
  http_failed (net (http_log w)
                 (mkRequest GET (DAEMON_API_BASE cfg ++ "/api/status") None)) = true ->
  fst (update_status cfg net depth w) = Ok true
  /\ calls (snd (update_status cfg net depth w))
     = calls w ++ [mkCall GET "/api/status" None (tray w)]
  /\ notifications (snd (update_status cfg net depth w)) = notifications w.
Proof.
  intros Hlive Hfail.
  assert (Hfalse : py_truthy (status_value cfg net w) = false).
  { unfold status_value. rewrite Hlive.
    destruct (net _ _) as [ | | status [v | ]]; cbn in *; try reflexivity.
    now rewrite Hfail. }
  destruct (update_status_failed cfg net depth w Hfalse) as (w' & E & _ & Hc & Hn & _).
  rewrite E. auto.
Qed.

Lemma failed_poll_is_not_fatal_witness :
  fst (update_status live_cfg daemon_unavailable 3 coding_world) = Ok true.
Proof.
  apply (failed_poll_is_not_fatal live_cfg daemon_unavailable 3 coding_world);
    reflexivity.
Defined.


(** ** Further properties: the wire and the timer *)

(** X4. In mock mode nothing is ever put on the wire: not by startup, and
    not by any sequence of events from any state. *)
Theorem mock_mode_stays_off_the_wire cfg net depth :
  MOCK_MODE cfg = true ->
  http_log (proc_world (main cfg net depth)) = []
  /\ forall evs w, http_log (run_loop cfg net depth evs w) = http_log w.
Proof.
  intros Hmock.
  assert (Hget : forall h endpoint,
             preserves (fun w => http_log w = h) (api_get cfg net endpoint)).
  { intros h endpoint w Hw.
    destruct (api_get_mock cfg net endpoint w Hmock) as (v & w' & E & _ & _ & Hh & _).
    rewrite E. cbn [snd]. congruence. }
  assert (Hpost : forall h endpoint data,
             preserves (fun w => http_log w = h) (api_post cfg net endpoint data)).
  { intros h endpoint data w Hw.
    destruct (api_post_mock cfg net endpoint data w Hmock) as (w' & E & _ & Hh & _).
    rewrite E. cbn [snd]. congruence. }
  assert (Hwrite : forall h f w, http_log w = h -> http_log (with_tray f w) = h)
    by (intros h f w Hw; exact Hw).
  assert (Hnotify : forall h title message icon,
             preserves (fun w => http_log w = h) (show_notification title message icon))
    by (intros h title message icon w Hw; exact Hw).
  assert (Hprint : forall h line, preserves (fun w => http_log w = h) (print line))
    by (intros h line w Hw; exact Hw).
  assert (Hshown : forall h n w, http_log w = h -> http_log (set_shown n w) = h)
    by (intros h n w Hw; exact Hw).
  assert (Huntimer : forall h w,
             http_log w = h -> http_log (set_timers (List.tl (timers w)) w) = h)
    by (intros h w Hw; exact Hw).
  split.
  - destruct (main_run cfg net depth) as (w1 & _ & _ & Hh & _ & _ & _ & _ & E).
    rewrite E. cbv zeta. rewrite Hmock in Hh.
    pose proof (update_status_preserves cfg net (fun w => http_log w = [])
                  (Hwrite []) (Hnotify []) (Hget []) (Hpost []) (Hprint []) (Hshown [])
                  depth w1 Hh) as Hpoll.
    destruct (update_status cfg net depth w1) as [[ok | e] w']; exact Hpoll.
  - intros evs w.
    exact (run_loop_preserves cfg net (fun w' => http_log w' = http_log w)
             (Hwrite _) (Hnotify _) (Hget _) (Hpost _) (Hprint _) (Hshown _)
             (Huntimer _) depth evs w eq_refl).
Qed.

Lemma mock_mode_stays_off_the_wire_witness :
  http_log (run_loop mock_cfg steady_daemon 3
              [Tick; ToggleActivated false; ProfileActivated (PStr "gaming")]
              mock_started) = [].
Proof.
  destruct (mock_mode_stays_off_the_wire mock_cfg steady_daemon 3 eq_refl) as (_ & Hrun).
  apply (Hrun [Tick; ToggleActivated false; ProfileActivated (PStr "gaming")]
              mock_started).
Defined.


(** ** Further properties: the profile list *)

Lemma append_items_nil w : append_items [] w = w.
Proof.
  destruct w as [t h c n o ti sh]. destruct t. unfold append_items, with_tray, set_submenu.
  cbn. now rewrite app_nil_r.
Qed.

Lemma append_items_app a b w :
  append_items b (append_items a w) = append_items (a ++ b) w.
Proof.
  unfold append_items, with_tray, set_submenu. cbn. now rewrite app_assoc.
Qed.

(** The loop on well-formed entries: one item each, then the rest. *)
Lemma add_profile_items_prefix (ps : list (string * bool)) (rest : list pyval) :
  forall w,
    add_profile_items (map profile_entry ps ++ rest) w
    = add_profile_items rest (append_items (map profile_item ps) w).
Proof.
  induction ps as [ | p ps IH]; intros w.
  - cbn [map app]. now rewrite append_items_nil.
  - cbn [map app]. cbn [add_profile_items]. unfold bind, lift, write.
    cbn -[add_profile_items append_items with_tray].
    rewrite IH. f_equal.
    unfold append_items, with_tray, set_submenu, profile_item. cbn.
    now rewrite <- app_assoc.
Qed.

(** What the loop appends and whether it raises depend on the entries
    alone, and it appends profile items only. *)
Lemma add_profile_items_uniform (items : list pyval) :
  exists r its,
    forallb is_profile_item its = true
    /\ forall w, add_profile_items items w = (r, append_items its w).
Proof.
  induction items as [ | profile rest (r & its & Hits & IH)].
  - exists (Ok tt), []. split; [reflexivity | ]. intros w. now rewrite append_items_nil.
  - destruct (py_subscript profile "name") as [name | e] eqn:Hname.
    + destruct (as_label name) as [label | e] eqn:Hlabel.
      * destruct (py_get profile "active" (PBool false)) as [active | e] eqn:Hactive.
        -- exists r, (ProfileItem label (py_truthy active) :: its).
           split; [exact Hits | ]. intros w. cbn [add_profile_items].
           unfold bind at 1, lift at 1. rewrite Hname.
           unfold bind at 1, lift at 1. rewrite Hlabel.
           unfold bind at 1, lift at 1. rewrite Hactive.
           unfold bind at 1, write at 1. cbv beta iota.
           rewrite IH.
           fold (append_items [ProfileItem label (py_truthy active)] w).
           rewrite append_items_app. reflexivity.
        -- exists (Raise e), []. split; [reflexivity | ]. intros w.
           cbn [add_profile_items]. unfold bind, lift.
           rewrite Hname, Hlabel, Hactive, append_items_nil. reflexivity.
      * exists (Raise e), []. split; [reflexivity | ]. intros w.
        cbn [add_profile_items]. unfold bind, lift.
        rewrite Hname, Hlabel, append_items_nil. reflexivity.
    + exists (Raise e), []. split; [reflexivity | ]. intros w.
      cbn [add_profile_items]. unfold bind, lift.
      rewrite Hname, append_items_nil. reflexivity.
Qed.

Lemma api_get_profiles_value cfg net w v :
  fst (api_get cfg net "/api/profiles" w) = Ok v -> profiles_value cfg net w = v.
Proof.
  destruct (api_get_profiles cfg net w) as (w' & E & _). rewrite E. cbn.
  intros Heq. now injection Heq.
Qed.

Lemma well_formed_prefix (t : Tray) (its : list MenuItem) :
  well_formed_menu t ->
  firstn 2 (profiles_submenu t) ++ its = RefreshProfiles :: Separator :: its.
Proof. unfold well_formed_menu. intros ->. reflexivity. Qed.

Lemma listed_entries (l : list pyval) :
  py_get (PDict [("profiles", PList l)]) "profiles" (PList []) = Ok (PList l).
Proof. reflexivity. Qed.

(** X7. A payload that lists profiles with string names and boolean
    flags is shown as it was sent: one check item per profile, in the
    daemon's order, with its name and its flag, after the two fixed
    entries, and every child of the submenu is shown.  An empty list
    gives no item at all. *)
Theorem profiles_shown_as_sent cfg net (ps : list (string * bool)) w :
  fst (api_get cfg net "/api/profiles" w) = Ok (profiles_payload ps) ->
  well_formed_menu (tray w) ->
  fst (update_profiles cfg net w) = Ok tt
  /\ profiles_submenu (tray (snd (update_profiles cfg net w)))
     = RefreshProfiles :: Separator :: map profile_item ps
  /\ shown (snd (update_profiles cfg net w)) = 2 + List.length ps.
Proof.
  intros Hget Hwf. apply api_get_profiles_value in Hget.
  destruct (update_profiles_run cfg net w) as (wg & Ht & Hsh & _ & _ & _ & _ & E).
  rewrite E, Hget. unfold profiles_payload.
  rewrite listed_entries. cbn [py_truthy negb py_iter].
  rewrite <- (app_nil_r (map profile_entry ps)), add_profile_items_prefix.
  cbn [add_profile_items ret]. unfold show_all. cbn [fst snd].
  split; [reflexivity | ].
  unfold append_items. cbn. rewrite Ht. cbn.
  rewrite (well_formed_prefix _ _ Hwf). cbn. rewrite length_map. auto.
Qed.

Lemma profiles_shown_as_sent_witness :
  profiles_submenu
    (tray (snd (update_profiles live_cfg steady_daemon mock_started)))
  = [RefreshProfiles; Separator;
     ProfileItem (PStr "default") true;
     ProfileItem (PStr "gaming") false;
     ProfileItem (PStr "coding") false].
Proof.
  apply (profiles_shown_as_sent live_cfg steady_daemon
           [("default", true); ("gaming", false); ("coding", false)] mock_started);
    reflexivity.
Defined.

(** X8. The entry [No profiles available] is shown exactly when the
    fetch gave nothing ([None], an empty dict or another false value), and
    then it is the only entry.  A payload without the key profiles, or
    with an empty list, gives an empty list and no such entry. *)
Theorem placeholder_iff_nothing_fetched cfg net w v :
  fst (api_get cfg net "/api/profiles" w) = Ok v ->
  well_formed_menu (tray w) ->
  let w' := snd (update_profiles cfg net w) in
  (In NoProfiles (profiles (tray w')) <-> py_truthy v = false)
  /\ (py_truthy v = false ->
      profiles (tray w') = [NoProfiles] /\ fst (update_profiles cfg net w) = Ok tt
      /\ shown w' = 3)
  /\ (py_truthy v = true ->
      py_get v "profiles" (PList []) = Ok (PList []) ->
      profiles (tray w') = [] /\ fst (update_profiles cfg net w) = Ok tt).
Proof.
  intros Hget Hwf. apply api_get_profiles_value in Hget. cbv zeta.
  destruct (update_profiles_run cfg net w) as (wg & Ht & Hsh & _ & _ & _ & _ & E).
  rewrite E, Hget. clear E.
  assert (Hcut : profiles (set_submenu (firstn 2 (profiles_submenu (tray w))) (tray w))
                 = []).
  { unfold profiles, set_submenu. cbn [profiles_submenu].
    unfold well_formed_menu in Hwf. now rewrite Hwf. }
  assert (Hsub : forall its,
             profiles_submenu (tray (append_items its wg))
             = RefreshProfiles :: Separator :: its).
  { intros its. unfold append_items, with_tray, set_submenu.
    cbn [tray profiles_submenu]. rewrite Ht. unfold set_submenu.
    cbn [profiles_submenu]. now apply well_formed_prefix. }
  assert (Happ : forall its, profiles (tray (append_items its wg)) = its).
  { intros its. unfold profiles. now rewrite Hsub. }
  destruct (py_truthy v) eqn:Htruthy; cbn [negb].
  - split; [ | split; [discriminate | ]].
    + split; [ | discriminate]. intros Hin. exfalso.
      destruct (py_get v "profiles" (PList [])) as [ps | e];
        [destruct (py_iter ps) as [items | e] | ]; cbn [snd] in Hin;
        try (rewrite Ht, Hcut in Hin; exact Hin).
      destruct (add_profile_items_uniform items) as (r & its & Hits & Hrun).
      rewrite Hrun in Hin.
      assert (Hin' : In NoProfiles its)
        by (destruct r as [[] | e]; cbn [snd show_all set_shown tray] in Hin;
            rewrite Happ in Hin; exact Hin).
      rewrite forallb_forall in Hits. apply Hits in Hin'. discriminate Hin'.
    + intros _ Hempty. rewrite Hempty. cbn [py_iter add_profile_items ret].
      unfold show_all. cbn [fst snd set_shown tray]. rewrite Ht, Hcut. auto.
  - unfold show_all. cbn [fst snd set_shown tray shown]. rewrite Happ, Hsub.
    split; [ | split; [auto | discriminate]].
    split; [reflexivity | ]. intros _. now left.
Qed.

Lemma placeholder_iff_nothing_fetched_witness :
  profiles (tray (snd (update_profiles live_cfg daemon_down mock_started)))
  = [NoProfiles].
Proof.
  destruct (placeholder_iff_nothing_fetched live_cfg daemon_down mock_started PNone
              eq_refl eq_refl) as (_ & Hnone).
  apply Hnone. reflexivity.
Defined.

(** X9. A refresh replaces the profile entries wholesale: what is shown
    afterwards, and whether the refresh raises, depend on the payload
    alone, not on the entries shown before.  Refreshing again with the
    same payload changes nothing and duplicates nothing. *)
Theorem refresh_replaces_the_list cfg net w1 w2 v :
  fst (api_get cfg net "/api/profiles" w1) = Ok v ->
  fst (api_get cfg net "/api/profiles" w2) = Ok v ->
  well_formed_menu (tray w1) ->
  well_formed_menu (tray w2) ->
  fst (update_profiles cfg net w1) = fst (update_profiles cfg net w2)
  /\ profiles_submenu (tray (snd (update_profiles cfg net w1)))
     = profiles_submenu (tray (snd (update_profiles cfg net w2))).
Proof.
  intros Hget1 Hget2 Hwf1 Hwf2.
  apply api_get_profiles_value in Hget1, Hget2.
  destruct (update_profiles_run cfg net w1) as (wg1 & Ht1 & _ & _ & _ & _ & _ & E1).
  destruct (update_profiles_run cfg net w2) as (wg2 & Ht2 & _ & _ & _ & _ & _ & E2).
  rewrite E1, E2, Hget1, Hget2. clear E1 E2.
  assert (Hcut : profiles_submenu (tray wg1) = profiles_submenu (tray wg2)).
  { rewrite Ht1, Ht2. unfold set_submenu. cbn [profiles_submenu].
    unfold well_formed_menu in *. congruence. }
  assert (Happ : forall its,
             profiles_submenu (tray (append_items its wg1))
             = profiles_submenu (tray (append_items its wg2))).
  { intros its. unfold append_items, with_tray, set_submenu.
    cbn [tray profiles_submenu]. now rewrite Hcut. }
  unfold show_all.
  destruct (py_truthy v); cbn [negb fst snd set_shown tray]; [ | auto].
  destruct (py_get v "profiles" (PList [])) as [ps | e]; [ | auto].
  destruct (py_iter ps) as [items | e]; [ | auto].
  destruct (add_profile_items_uniform items) as (r & its & _ & Hrun).
  rewrite !Hrun. destruct r as [[] | e]; cbn [fst snd set_shown tray]; auto.
Qed.

Lemma refresh_replaces_the_list_witness :
  profiles_submenu (tray (snd (update_profiles mock_cfg daemon_down empty_world)))
  = profiles_submenu (tray (snd (update_profiles mock_cfg daemon_down mock_started))).
Proof.
  apply (refresh_replaces_the_list mock_cfg daemon_down empty_world mock_started
           mock_profiles); reflexivity.
Defined.

(** X10. A refresh stops at the first entry it cannot read: when an
    entry has no name (or is no dict), the handler raises; the entries
    before it have been appended to the submenu, that entry and all after
    it have not, and since [show_all] is not reached the appended entries
    stay hidden: only the two fixed children are shown. *)
Theorem refresh_stops_at_bad_entry cfg net (ps : list (string * bool)) bad rest e w :
  fst (api_get cfg net "/api/profiles" w)
  = Ok (PDict [("profiles", PList (map profile_entry ps ++ bad :: rest))]) ->
  py_subscript bad "name" = Raise e ->
  well_formed_menu (tray w) ->
  fst (update_profiles cfg net w) = Raise e
  /\ profiles_submenu (tray (snd (update_profiles cfg net w)))
     = RefreshProfiles :: Separator :: map profile_item ps
  /\ shown (snd (update_profiles cfg net w)) = Nat.min (shown w) 2.
Proof.
  intros Hget Hbad Hwf. apply api_get_profiles_value in Hget.
  destruct (update_profiles_run cfg net w) as (wg & Ht & Hsh & _ & _ & _ & _ & E).
  rewrite E, Hget, listed_entries. cbn [py_truthy negb py_iter].
  rewrite add_profile_items_prefix. cbn [add_profile_items].
  unfold bind at 1, lift at 1. rewrite Hbad. cbn [fst snd].
  split; [reflexivity | ].
  unfold append_items. cbn. rewrite Ht. cbn.
  split; [now apply well_formed_prefix | exact Hsh].
Qed.

Lemma refresh_stops_at_bad_entry_witness :
  let net := scripted [Response 200 (Some (PDict [("profiles",
                 PList [PDict [("name", PStr "default"); ("active", PBool true)];
                        PDict [("active", PBool true)];
                        PDict [("name", PStr "coding"); ("active", PBool false)]])]))] in
  fst (update_profiles live_cfg net empty_world) = Raise KeyError
  /\ profiles_submenu (tray (snd (update_profiles live_cfg net empty_world)))
     = [RefreshProfiles; Separator; ProfileItem (PStr "default") true]
  /\ shown (snd (update_profiles live_cfg net empty_world)) = 2.
Proof.
  cbv zeta.
  apply (refresh_stops_at_bad_entry live_cfg _ [("default", true)]
           (PDict [("active", PBool true)])
           [PDict [("name", PStr "coding"); ("active", PBool false)]] KeyError
           empty_world); reflexivity.
Defined.
(** ** Further properties: malformed payloads and startup *)


(** X12. A status payload that is true but no object (a list, a string, a
    number) makes [update_status] raise AttributeError after it has set
    [daemon_running]: the tray says running, and keeps the profile name,
    the check item and the profile list it had. *)
Theorem malformed_status_raises cfg net depth w v :
  fst (api_get cfg net "/api/status" w) = Ok v ->
  py_truthy v = true ->
  (forall d, v <> PDict d) ->
  fst (update_status cfg net depth w) = Raise AttributeError
  /\ tray (snd (update_status cfg net depth w)) = set_daemon_running true (tray w).
Proof.
  intros Hget Htruthy Hnodict. apply api_get_status_value in Hget. subst v.
  destruct (update_status_raises cfg net depth w Htruthy Hnodict) as (w' & E & Ht & _).
  rewrite E. auto.
Qed.

Lemma malformed_status_raises_witness :
  fst (update_status live_cfg (scripted list_status_script) 3 empty_world)
  = Raise AttributeError.
Proof.
  apply (malformed_status_raises live_cfg (scripted list_status_script) 3 empty_world
           (PList [PStr "running"])); [reflexivity | reflexivity | discriminate].
Defined.

(** [main], opened up: the check, then the timer, then the first poll. *)
Lemma error_status_is_not_200 (status : Z) :
  raises_for_status status = true -> Z.eqb status 200 = false.
Proof.
  intros Hraises. destruct (Z.eqb_spec status 200) as [-> | ]; [ | reflexivity].
  discriminate Hraises.
Qed.

(** X13. Startup does not survive a malformed status: when the first poll
    gets a status payload that is true but no object, the exception leaves
    [KeyRxTray()] and [main]; the main loop is never entered and the line
    [KeyRx system tray started] is never printed. *)
Theorem startup_crashes_on_malformed_status cfg net depth :
  MOCK_MODE cfg = false ->
  let v := get_value (net [status_request cfg] (status_request cfg)) in
  py_truthy v = true ->
  (forall d, v <> PDict d) ->
  proc_loop (main cfg net depth) = Crashed AttributeError
  /\ ~ In (Stdout, "KeyRx system tray started") (proc_output (main cfg net depth)).
Proof.
  intros Hlive v Htruthy Hnodict.
  destruct (main_run cfg net depth) as (w1 & Ht & Hc & Hh & Hti & _ & _ & _ & ->).
  rewrite Hlive in Hh.
  assert (Hstatus : status_value cfg net w1 = v).
  { unfold status_value. rewrite Hlive, Hh. reflexivity. }
  rewrite <- Hstatus in Htruthy, Hnodict.
  destruct (update_status_raises cfg net depth w1 Htruthy Hnodict) as (w' & E & _).
  rewrite E, Hlive. cbn [proc_loop proc_output]. split; [reflexivity | ].
  destruct (net [] (status_request cfg)) as [ | | status body];
    try destruct (Z.eqb status 200); cbn; intuition discriminate.
Qed.

Lemma startup_crashes_on_malformed_status_witness :
  proc_loop (main live_cfg (scripted list_status_script) 3) = Crashed AttributeError.
Proof.
  apply (startup_crashes_on_malformed_status live_cfg (scripted list_status_script) 3);
    [reflexivity | reflexivity | discriminate].
Defined.

(** X14. Startup with the daemon away: when the check and the first poll
    both fail, [main] prints the three warning lines, then the three start
    lines, and enters the main loop with the tray saying not running, the
    profile list empty and the timer registered. *)
Theorem startup_without_daemon cfg net depth :
  MOCK_MODE cfg = false ->
  http_failed (net [] (status_request cfg)) = true ->
  http_failed (net [status_request cfg] (status_request cfg)) = true ->
  let p := main cfg net depth in
  proc_loop p = Running
  /\ proc_output p = startup_warning ++ started_lines cfg
  /\ daemon_running (tray (proc_world p)) = false
  /\ status_item (tray (proc_world p)) = Text "Status: Daemon not running"
  /\ profiles_submenu (tray (proc_world p)) = [RefreshProfiles; Separator]
  /\ timers (proc_world p) = [(UPDATE_INTERVAL cfg, CbUpdateStatus)].
Proof.
  intros Hlive Hcheck Hpoll. cbv zeta.
  destruct (main_run cfg net depth) as (w1 & Ht & Hc & Hh & Hti & _ & _ & _ & ->).
  rewrite Hlive in Hh.
  assert (Hfalse : py_truthy (status_value cfg net w1) = false).
  { unfold status_value. rewrite Hlive, Hh. fold (status_request cfg).
    destruct (net [status_request cfg] (status_request cfg)) as [ | | status [v | ]];
      cbn in *; try reflexivity.
    now rewrite Hpoll. }
  destruct (update_status_failed cfg net depth w1 Hfalse) as (w' & E & Ht' & _ & _ & Hti').
  rewrite E, Hlive. cbn [proc_loop proc_output proc_world].
  rewrite Ht', Ht, Hti', Hti.
  assert (Hwarn : match net [] (status_request cfg) with
                  | Response status _ => if Z.eqb status 200 then [] else startup_warning
                  | _ => startup_warning
                  end = startup_warning).
  { destruct (net [] (status_request cfg)) as [ | | status body]; try reflexivity.
    cbn in Hcheck. now rewrite (error_status_is_not_200 _ Hcheck). }
  rewrite Hwarn. repeat split.
Qed.

Lemma startup_without_daemon_witness :
  proc_output (main live_cfg daemon_down 3)
  = startup_warning ++ started_lines live_cfg.
Proof.
  apply (startup_without_daemon live_cfg daemon_down 3); reflexivity.
Defined.

(** X15. [main] prints the warning exactly when the tray is in live mode
    and the request of [check_daemon_running] is not answered with the
    status 200: a failed request, an error status, but also any other
    status such as 204. *)
Theorem startup_warning_iff cfg net depth :
  firstn 3 (proc_output (main cfg net depth)) = startup_warning
  <-> MOCK_MODE cfg = false
      /\ forall body, net [] (status_request cfg) <> Response 200 body.
Proof.
  destruct (main_run cfg net depth) as (w1 & _ & _ & _ & _ & _ & _ & _ & ->).
  destruct (MOCK_MODE cfg).
  - split; [ | intros (Habs & _); discriminate Habs].
    destruct (update_status cfg net depth w1) as [[ok | e] w']; cbn; discriminate.
  - destruct (net [] (status_request cfg)) as [ | | status body] eqn:Hnet.
    + split; [split; [reflexivity | discriminate] | ].
      destruct (update_status cfg net depth w1) as [[ok | e] w']; reflexivity.
    + split; [split; [reflexivity | discriminate] | ].
      destruct (update_status cfg net depth w1) as [[ok | e] w']; reflexivity.
    + destruct (Z.eqb_spec status 200) as [-> | Hne].
      * split.
        -- destruct (update_status cfg net depth w1) as [[ok | e] w']; cbn; discriminate.
        -- intros (_ & Habs). now destruct (Habs body).
      * split.
        -- intros _. split; [reflexivity | ]. intros b Heq.
           injection Heq as Heq _. contradiction.
        -- intros _.
           destruct (update_status cfg net depth w1) as [[ok | e] w']; reflexivity.
Qed.

Lemma startup_warning_iff_witness :
  firstn 3 (proc_output (main live_cfg (fun _ _ => Response 204 None) 3))
  = startup_warning.
Proof.
  apply (startup_warning_iff live_cfg (fun _ _ => Response 204 None) 3).
  split; [reflexivity | discriminate].
Defined.

(** ** Further properties: polls and commands together *)

Lemma on_switch_profile_run cfg net name w :
  post_ok cfg net "/api/profiles/activate" (PDict [("name", name)]) w = true ->
  exists wu,
    tray wu = set_current_profile name (tray w)
    /\ on_switch_profile cfg net name w = update_profiles cfg net wu.
Proof.
  intros Hack. unfold on_switch_profile. unfold bind at 1.
  destruct (api_post_value cfg net "/api/profiles/activate" (PDict [("name", name)]) w)
    as (wp & E & Ht & _).
  rewrite E, Hack.
  unfold bind at 1, write at 1. cbv beta iota.
  unfold bind at 1, show_notification at 1. cbv beta iota.
  eexists. split; [ | reflexivity]. cbn. now rewrite Ht.
Qed.

(** Notifications are only ever added, at the end. *)
Lemma notifications_grow cfg net depth ev w :
  exists added,
    notifications (snd (dispatch cfg net depth ev w)) = notifications w ++ added.
Proof.
  apply (dispatch_preserves cfg net
           (fun w' => exists added, notifications w' = notifications w ++ added)).
  - intros f w0 Hw0. exact Hw0.
  - intros title message icon w0 (added & Hw0). eexists. cbn. rewrite Hw0, <- app_assoc.
    reflexivity.
  - intros endpoint w0 (added & Hw0).
    destruct (api_get_frame cfg net endpoint w0) as (v & w' & E & _ & _ & Hn & _).
    rewrite E. cbn [snd]. exists added. congruence.
  - intros endpoint data w0 (added & Hw0).
    destruct (api_post_frame cfg net endpoint data w0) as (ok & w' & E & _ & _ & Hn & _).
    rewrite E. cbn [snd]. exists added. congruence.
  - intros line w0 Hw0. exact Hw0.
  - intros n w0 Hw0. exact Hw0.
  - intros w0 Hw0. exact Hw0.
  - exists []. now rewrite app_nil_r.
Qed.

(** X17. In live mode a command puts its POST on the wire first, and the
    last notification it shows is the error one (title KeyRx Error, icon
    dialog-error) exactly when that request failed.  A profile switch
    shows that notification and no other; so does a toggle the daemon
    acknowledges.  A toggle that failed has run the handler again before,
    with notifications of its own. *)
Theorem command_reports_failure cfg net depth ev w :
  MOCK_MODE cfg = false ->
  is_command ev = true ->
  let w' := snd (dispatch cfg net depth ev w) in
  let failed := http_failed (net (http_log w) (command_request cfg ev)) in
  nth_error (http_log w') (List.length (http_log w)) = Some (command_request cfg ev)
  /\ exists before n,
       notifications w' = notifications w ++ before ++ [n]
       /\ is_error n = failed
       /\ (is_switch ev = true \/ failed = false -> before = []).
Proof.
  intros Hlive Hcmd. destruct ev as [ | b | name | ]; try discriminate Hcmd; cbv zeta.
  - set (wc := with_tray (set_toggle_active b) w).
    change (dispatch cfg net depth (ToggleActivated b) w)
      with (on_toggle_remapping cfg net depth wc).
    destruct (on_toggle_remapping_run cfg net depth wc)
      as (wp & Ht & Hc & Hn & _ & Hh & E).
    change (toggle_item (tray wc)) with b in *.
    change (post_ok cfg net "/api/toggle" (PDict [("enabled", PBool b)]) wc)
      with (post_ok cfg net "/api/toggle" (PDict [("enabled", PBool b)]) w) in E.
    rewrite Hlive in Hh. cbn [http_log wc with_tray] in Hh.
    cbn [notifications wc with_tray] in Hn.
    assert (Hfailed : post_ok cfg net "/api/toggle" (PDict [("enabled", PBool b)]) w
                      = negb (http_failed (net (http_log w)
                                             (command_request cfg (ToggleActivated b)))))
      by (unfold post_ok; rewrite Hlive; reflexivity).
    rewrite E. clear E.
    destruct (post_ok cfg net "/api/toggle" (PDict [("enabled", PBool b)]) w).
    + cbn [snd show_notification http_log notifications]. rewrite Hh, Hn.
      rewrite nth_error_app2, Nat.sub_diag by lia. split; [reflexivity | ].
      exists [], (mkNotification "KeyRx Remapping"
                    (Text ("Remapping " ++ (if b then "enabled" else "disabled")))
                    "input-keyboard").
      split; [reflexivity | ]. symmetry in Hfailed. apply negb_true_iff in Hfailed.
      rewrite Hfailed. split; [reflexivity | auto].
    + symmetry in Hfailed. apply negb_false_iff in Hfailed. rewrite Hfailed.
      set (wr := with_tray (set_toggle_active (negb b)) wp).
      assert (Hgrow : exists added,
                 notifications (snd (emit (activate cfg net depth) wr))
                 = notifications wr ++ added
                 /\ exists more,
                      http_log (snd (emit (activate cfg net depth) wr))
                      = http_log wr ++ more).
      { apply (preserves_emit
                 (fun w' => exists added,
                      notifications w' = notifications wr ++ added
                      /\ exists more, http_log w' = http_log wr ++ more)).
        - intros line w0 Hw0. exact Hw0.
        - apply activate_preserves.
          + intros f w0 Hw0. exact Hw0.
          + intros title message icon w0 (added & Hw0 & Hm). eexists. cbn.
            rewrite Hw0, <- app_assoc. split; [reflexivity | exact Hm].
          + intros endpoint data w0 (added & Hw0 & more & Hm).
            destruct (api_post_value cfg net endpoint data w0)
              as (w' & E & _ & _ & Hn' & _ & Hh').
            rewrite E. cbn [snd]. exists added. split; [congruence | ].
            eexists. rewrite Hh', Hm, <- app_assoc. reflexivity.
          + intros line w0 Hw0. exact Hw0.
        - exists []. rewrite app_nil_r. split; [reflexivity | ].
          exists []. now rewrite app_nil_r. }
      destruct (emit (activate cfg net depth) wr) as [r w2].
      destruct Hgrow as (added & Hadd & more & Hmore). cbn [snd] in *.
      cbn [show_notification snd http_log notifications].
      rewrite Hmore, Hadd. cbn [wr with_tray http_log notifications].
      rewrite Hh, Hn, <- !app_assoc.
      rewrite nth_error_app2, Nat.sub_diag by lia. split; [reflexivity | ].
      exists added, (mkNotification "KeyRx Error" (Text "Failed to toggle remapping")
                       "dialog-error").
      split; [reflexivity | ]. split; [reflexivity | ].
      intros [Habs | Habs]; discriminate Habs.
  - set (wc := with_tray (fun t => set_submenu (flip_item name (profiles_submenu t)) t)
                 w).
    change (dispatch cfg net depth (ProfileActivated name) w)
      with (on_switch_profile cfg net name wc).
    cbn [command_request].
    destruct (post_ok cfg net "/api/profiles/activate" (PDict [("name", name)]) wc)
      eqn:Hok.
    + destruct (on_switch_profile_success cfg net name wc Hok)
        as (r & its & w' & w1 & E & _ & _ & _ & _ & _ & _ & _ & _ & Hn & _ & Hh).
      rewrite E. cbn [snd]. rewrite Hlive in Hh. cbn [wc with_tray http_log] in Hh.
      rewrite Hh, nth_error_app2, Nat.sub_diag by lia. split; [reflexivity | ].
      eexists [], _. split; [exact Hn | ].
      unfold post_ok in Hok. rewrite Hlive in Hok.
      apply negb_true_iff in Hok. cbn [wc with_tray http_log] in Hok. rewrite Hok.
      split; [reflexivity | auto].
    + destruct (on_switch_profile_failure cfg net name wc Hok)
        as (w' & E & _ & _ & Hn & _ & Hh).
      rewrite E. cbn [snd]. rewrite Hlive in Hh. cbn [wc with_tray http_log] in Hh.
      rewrite Hh, nth_error_app2, Nat.sub_diag by lia. split; [reflexivity | ].
      eexists [], _. split; [exact Hn | ].
      unfold post_ok in Hok. rewrite Hlive in Hok.
      apply negb_false_iff in Hok. cbn [wc with_tray http_log] in Hok. rewrite Hok.
      split; [reflexivity | auto].
Qed.

Lemma command_reports_failure_witness :
  exists n,
    notifications (snd (dispatch live_cfg daemon_down 3 (ProfileActivated (PStr "gaming"))
                          steady_started)) = [n]
    /\ is_error n = true.
Proof.
  destruct (command_reports_failure live_cfg daemon_down 3
              (ProfileActivated (PStr "gaming")) steady_started eq_refl eq_refl)
    as (_ & before & n & Hn & Herr & Hnone).
  exists n. rewrite (Hnone (or_introl eq_refl)) in Hn. split; [exact Hn | exact Herr].
Defined.

Section Mock.

Variable cfg : Config.
Variable net : Network.
Hypothesis mock : MOCK_MODE cfg = true.

Lemma update_profiles_mock w :
  well_formed_menu (tray w) ->
  exists w',
    update_profiles cfg net w = (Ok tt, w')
    /\ fields (tray w') = fields (tray w)
    /\ profiles_submenu (tray w') = RefreshProfiles :: Separator :: mock_items.
Proof.
  intros Hwf.
  destruct (update_profiles_run cfg net w) as (wg & Ht & _ & _ & _ & _ & _ & E).
  unfold profiles_value in E. rewrite mock in E.
  change mock_profiles
    with (profiles_payload [("default", true); ("gaming", false); ("coding", false)])
    in E.
  unfold profiles_payload in E. rewrite listed_entries in E.
  cbn [py_truthy negb py_iter] in E.
  rewrite <- (app_nil_r (map profile_entry _)), add_profile_items_prefix in E.
  cbn [add_profile_items ret] in E. unfold show_all in E.
  eexists. split; [exact E | ].
  unfold append_items, with_tray, set_submenu, set_shown. cbn [tray fields profiles_submenu
    daemon_running current_profile remapping_enabled profiles_loaded status_item
    toggle_item indicator_icon].
  rewrite Ht. unfold set_submenu.
  cbn [fields profiles_submenu daemon_running current_profile remapping_enabled
       profiles_loaded status_item toggle_item indicator_icon].
  unfold well_formed_menu in Hwf. rewrite Hwf. split; reflexivity.
Qed.

Lemma update_status_mock depth w :
  let w' := snd (update_status cfg net depth w) in
  current_profile (tray w') = PStr "default"
  /\ indicator_icon (tray w')
     = (if remapping_enabled (tray w) then "input-keyboard"
        else "input-keyboard-symbolic")
  /\ daemon_running (tray w') = true
  /\ (toggle_item (tray w) = remapping_enabled (tray w) ->
      toggle_item (tray w') = remapping_enabled (tray w)
      /\ remapping_enabled (tray w') = remapping_enabled (tray w)).
Proof.
  cbv zeta.
  assert (Hstatus : status_value cfg net w
                    = status_payload_mock (remapping_enabled (tray w)))
    by (unfold status_value; now rewrite mock).
  destruct (update_status_ok cfg net depth w _ Hstatus)
    as (r & w' & E & Hrun & Hp & _ & Hi & _ & Hquiet & _); [discriminate | ].
  rewrite E. cbn [snd]. cbn in Hp, Hi, Hquiet.
  split; [exact Hp | ]. split; [exact Hi | ]. split; [exact Hrun | ].
  intros Hsame. destruct (Hquiet Hsame) as (Ht & Hf & _). split; congruence.
Qed.

End Mock.

(** X18. In mock mode the mock daemon remembers the toggle: after the
    check item is switched to a value and the next poll comes, the check
    item, the field and the icon all show that value.  With the timer
    registered this is what the loop does for a click and a tick. *)
Theorem mock_toggle_is_echoed cfg net depth b w :
  MOCK_MODE cfg = true ->
  well_formed_menu (tray w) ->
  let w' := snd (dispatch cfg net depth Tick
                   (snd (dispatch cfg net depth (ToggleActivated b) w))) in
  toggle_item (tray w') = b
  /\ remapping_enabled (tray w') = b
  /\ indicator_icon (tray w')
     = (if b then "input-keyboard" else "input-keyboard-symbolic")
  /\ (timers w <> [] -> run_loop cfg net depth [ToggleActivated b; Tick] w = w').
Proof.
  intros Hmock Hwf. cbv zeta.
  assert (Hloop : timers w <> [] ->
                  run_loop cfg net depth [ToggleActivated b; Tick] w
                  = snd (dispatch cfg net depth Tick
                           (snd (dispatch cfg net depth (ToggleActivated b) w)))).
  { intros Htimer. cbn [run_loop]. unfold deliver at 2. unfold deliver.
    rewrite dispatch_timers by reflexivity.
    destruct (timers w); [contradiction | reflexivity]. }
  destruct (toggle_step cfg net depth b w) as (_ & _ & _ & _ & Hacked).
  destruct Hacked as (_ & _ & Hitem & Hfield);
    [unfold post_ok; now rewrite Hmock | ].
  set (w1 := snd (dispatch cfg net depth (ToggleActivated b) w)) in *.
  cbn [dispatch]. destruct (on_timer_world cfg net depth w1) as (Ht & _). rewrite Ht.
  pose proof (update_status_mock cfg net Hmock depth w1) as (_ & Hi & _ & Hquiet).
  destruct Hquiet as (Hitem' & Hfield'); [congruence | ].
  rewrite Hitem', Hfield', Hi, Hfield. auto.
Qed.

Lemma mock_toggle_is_echoed_witness :
  toggle_item
    (tray (snd (dispatch mock_cfg daemon_down 3 Tick
                  (snd (dispatch mock_cfg daemon_down 3 (ToggleActivated false)
                          mock_started)))))
  = false.
Proof.
  apply (mock_toggle_is_echoed mock_cfg daemon_down 3 false mock_started); reflexivity.
Defined.

(** X19. In mock mode a profile switch does not last: the switch is
    acknowledged and the name is stored, but the list fetched right after
    still has default as its checked entry, and the next poll puts the
    name back to default. *)
Theorem mock_switch_is_undone cfg net depth name w :
  MOCK_MODE cfg = true ->
  well_formed_menu (tray w) ->
  let w1 := snd (dispatch cfg net depth (ProfileActivated name) w) in
  let w2 := snd (dispatch cfg net depth Tick w1) in
  current_profile (tray w1) = name
  /\ profiles (tray w1) = mock_items
  /\ current_profile (tray w2) = PStr "default".
Proof.
  intros Hmock Hwf. cbv zeta.
  set (wc := with_tray (fun t => set_submenu (flip_item name (profiles_submenu t)) t) w).
  change (dispatch cfg net depth (ProfileActivated name) w)
    with (on_switch_profile cfg net name wc).
  assert (Hok : post_ok cfg net "/api/profiles/activate" (PDict [("name", name)]) wc
                = true) by (unfold post_ok; now rewrite Hmock).
  destruct (on_switch_profile_run cfg net name wc Hok) as (wu & Htu & E).
  assert (Hwfu : well_formed_menu (tray wu)).
  { unfold well_formed_menu. rewrite Htu. cbn.
    now rewrite (flip_item_profiles name _ Hwf). }
  destruct (update_profiles_mock cfg net Hmock wu Hwfu) as (w1 & E1 & Hf & Hs).
  rewrite E, E1. cbn [snd]. unfold fields in Hf.
  injection Hf as _ Hname _ _ _ _ _. rewrite Htu in Hname. cbn in Hname.
  pose proof (update_status_mock cfg net Hmock depth w1) as (Hdefault & _).
  split; [exact Hname | ]. split.
  - unfold profiles. now rewrite Hs.
  - cbn [dispatch]. destruct (on_timer_world cfg net depth w1) as (Ht & _).
    rewrite Ht. exact Hdefault.
Qed.

Lemma mock_switch_is_undone_witness :
  current_profile
    (tray (snd (dispatch mock_cfg daemon_down 3 Tick
                  (snd (dispatch mock_cfg daemon_down 3 (ProfileActivated (PStr "gaming"))
                          mock_started)))))
  = PStr "default".
Proof.
  apply (mock_switch_is_undone mock_cfg daemon_down 3 (PStr "gaming") mock_started);
    reflexivity.
Defined.

(** X20. A first profile fetch that raises ends the polling: when the
    poll that should load the profiles raises in the refresh, the tray
    says running and the flag [_profiles_loaded] stays unset, but the
    callback has not returned [True], the timer is removed, and no later
    tick polls or fetches anything. *)
Theorem failed_refresh_ends_polling cfg net depth w d e timer :
  fst (api_get cfg net "/api/status" w) = Ok (PDict d) ->
  d <> [] ->
  profiles_loaded (tray w) = false ->
  fst (update_status cfg net depth w) = Raise e ->
  timers w = [timer] ->
  let w' := deliver cfg net depth Tick w in
  daemon_running (tray w') = true
  /\ profiles_loaded (tray w') = false
  /\ timers w' = []
  /\ forall evs, forallb is_tick evs = true -> run_loop cfg net depth evs w' = w'.
Proof.
  intros Hget Hne Hunset Hraise Htimer. apply api_get_status_value in Hget. cbv zeta.
  pose proof (update_status_timers cfg net depth w) as Hkeep.
  destruct (update_status_ok cfg net depth w d Hget Hne)
    as (r & w' & E & Hrun & _ & _ & _ & _ & _ & Hrest).
  unfold deliver. rewrite Htimer. cbn [dispatch]. unfold on_timer.
  rewrite E in *. cbn [fst snd] in *. subst r. rewrite Hunset in Hrest.
  destruct Hrest as ([(Hr & _) | (_ & Hl)] & _); [discriminate Hr | ].
  cbn [snd set_timers tray timers]. rewrite Hkeep, Htimer.
  split; [exact Hrun | ]. split; [exact Hl | ]. split; [reflexivity | ].
  intros evs. induction evs as [ | ev rest IH]; intros Hticks; [reflexivity | ].
  cbn [forallb] in Hticks. apply andb_prop in Hticks as (Htick & Hticks).
  destruct ev; try discriminate Htick. cbn [run_loop deliver timers List.tl].
  now apply IH.
Qed.

Lemma failed_refresh_ends_polling_witness :
  let w' := deliver live_cfg (scripted late_bad_script) 3 Tick waiting_world in
  timers waiting_world = [(5000%Z, CbUpdateStatus)]
  /\ daemon_running (tray w') = true
  /\ profiles_loaded (tray w') = false
  /\ timers w' = []
  /\ run_loop live_cfg (scripted late_bad_script) 3 [Tick; Tick] w' = w'.
Proof.
  cbv zeta.
  destruct (failed_refresh_ends_polling live_cfg (scripted late_bad_script) 3
              waiting_world
              [("running", PBool true); ("profile", PStr "default");
               ("remapping_enabled", PBool true)] KeyError
              (5000%Z, CbUpdateStatus) eq_refl)
    as (Hrun & Hunset & Hgone & Hquiet);
    [discriminate | reflexivity | reflexivity | reflexivity | ].
  split; [reflexivity | ]. split; [exact Hrun | ]. split; [exact Hunset | ].
  split; [exact Hgone | apply Hquiet; reflexivity].
Defined.

(** X21. After a poll, [daemon_running] is the truth value of the status
    payload the poll got, on every path: [False] for [None] or an empty
    object, [True] for any other payload, also when the handler raises. *)
Theorem running_flag_follows_payload cfg net depth w v :
  fst (api_get cfg net "/api/status" w) = Ok v ->
  daemon_running (tray (snd (update_status cfg net depth w))) = py_truthy v.
Proof.
  intros Hget. apply api_get_status_value in Hget. subst v.
  destruct (py_truthy (status_value cfg net w)) eqn:Htruthy.
  - destruct (truthy_cases _ Htruthy) as [(d & Hd & Hne) | Hnodict].
    + destruct (update_status_ok cfg net depth w d Hd Hne) as (r & w' & E & Hrun & _).
      now rewrite E.
    + destruct (update_status_raises cfg net depth w Htruthy Hnodict)
        as (w' & E & Ht & _).
      rewrite E. cbn [snd]. now rewrite Ht.
  - destruct (update_status_failed cfg net depth w Htruthy) as (w' & E & Ht & _).
    rewrite E. cbn [snd]. now rewrite Ht.
Qed.

Lemma running_flag_follows_payload_witness :
  daemon_running
    (tray (snd (update_status live_cfg (scripted list_status_script) 3 empty_world)))
  = true.
Proof.
  apply (running_flag_follows_payload live_cfg (scripted list_status_script) 3
           empty_world (PList [PStr "running"])).
  reflexivity.
Defined.
(** ** Further properties: no exception, one timer *)

Lemma add_profile_items_returns (items : list pyval) :
  forallb entry_ok items = true ->
  forall w, fst (add_profile_items items w) = Ok tt.
Proof.
  induction items as [ | profile rest IH]; intros Hok w; [reflexivity | ].
  cbn [forallb] in Hok. apply andb_prop in Hok as (Hentry & Hrest).
  cbn [add_profile_items]. unfold entry_ok in Hentry.
  destruct profile as [ | b | q | s | l | d]; try discriminate Hentry.
  cbn [py_subscript] in *.
  destruct (dict_lookup d "name") as [[ | b | q | s | l | d'] | ];
    try discriminate Hentry;
    unfold bind, lift, write; cbn [as_label py_get]; apply (IH Hrest).
Qed.

Section Returns.

Variable cfg : Config.
Variable net : Network.

Lemma update_profiles_returns w :
  profiles_ok (profiles_value cfg net w) = true ->
  fst (update_profiles cfg net w) = Ok tt.
Proof.
  intros Hok.
  destruct (update_profiles_run cfg net w) as (wg & _ & _ & _ & _ & _ & _ & E).
  rewrite E.
  destruct (profiles_value cfg net w) as [ | b | q | s | l | d];
    cbn [profiles_ok] in Hok;
    try (apply negb_true_iff in Hok; rewrite Hok; reflexivity).
  destruct (py_truthy (PDict d)); [ | reflexivity]. cbn [negb py_get].
  destruct (dict_lookup d "profiles") as [[ | b | q | s | l | d'] | ];
    try discriminate Hok; cbn [py_iter].
  - pose proof (add_profile_items_returns l Hok wg) as Hret.
    destruct (add_profile_items l wg) as [[[] | e] w']; [reflexivity | ].
    discriminate Hret.
  - reflexivity.
Qed.

Hypothesis payloads_ok :
  forall w, status_ok (status_value cfg net w) = true
            /\ profiles_ok (profiles_value cfg net w) = true.

Lemma update_status_returns depth w : fst (update_status cfg net depth w) = Ok true.
Proof.
  destruct (py_truthy (status_value cfg net w)) eqn:Htruthy.
  - destruct (truthy_cases _ Htruthy) as [(d & Hstatus & Hne) | Hnodict].
    + destruct (update_status_run cfg net depth w d Hstatus Hne)
        as (w1 & w2 & _ & _ & _ & _ & _ & _ & _ & _ & E).
      rewrite E.
      destruct (profiles_loaded (tray w)); [reflexivity | ].
      match goal with |- context [update_profiles cfg net ?wp] =>
        pose proof (update_profiles_returns wp (proj2 (payloads_ok wp))) as Hret;
        destruct (update_profiles cfg net wp) as [[[] | e] w'] end; [reflexivity | ].
      discriminate Hret.
    + exfalso. destruct (payloads_ok w) as (Hok & _).
      destruct (status_value cfg net w) as [ | b | q | s | l | d];
        cbn [status_ok] in Hok;
        try (rewrite Htruthy in Hok; discriminate Hok).
      now apply (Hnodict d).
  - destruct (update_status_failed cfg net depth w Htruthy) as (w' & E & _).
    now rewrite E.
Qed.

Lemma dispatch_returns depth ev w : fst (dispatch cfg net depth ev w) = Ok tt.
Proof.
  destruct ev as [ | b | name | ].
  - cbn [dispatch]. unfold on_timer. pose proof (update_status_returns depth w) as Hret.
    destruct (update_status cfg net depth w) as [[ok | e] w']; [reflexivity | ].
    discriminate Hret.
  - apply (toggle_step cfg net depth b w).
  - set (wc := with_tray (fun t => set_submenu (flip_item name (profiles_submenu t)) t)
                 w).
    change (dispatch cfg net depth (ProfileActivated name) w)
      with (on_switch_profile cfg net name wc).
    destruct (post_ok cfg net "/api/profiles/activate" (PDict [("name", name)]) wc)
      eqn:Hok.
    + destruct (on_switch_profile_run cfg net name wc Hok) as (wu & _ & E). rewrite E.
      now rewrite (update_profiles_returns wu (proj2 (payloads_ok wu))).
    + destruct (on_switch_profile_failure cfg net name wc Hok) as (w' & E & _).
      now rewrite E.
  - cbn [dispatch]. now rewrite (update_profiles_returns w (proj2 (payloads_ok w))).
Qed.

Lemma main_runs depth : proc_loop (main cfg net depth) = Running.
Proof.
  destruct (main_run cfg net depth) as (w1 & _ & _ & _ & _ & _ & _ & _ & E). rewrite E.
  cbv zeta. pose proof (update_status_returns depth w1) as Hret.
  destruct (update_status cfg net depth w1) as [[ok | e] w']; [reflexivity | ].
  discriminate Hret.
Qed.

End Returns.

Lemma payloads_ok_of cfg net :
  MOCK_MODE cfg = true \/ daemon_well_shaped cfg net ->
  forall w, status_ok (status_value cfg net w) = true
            /\ profiles_ok (profiles_value cfg net w) = true.
Proof.
  intros Hcase w. unfold status_value, profiles_value.
  destruct (MOCK_MODE cfg) eqn:Hmode; [split; reflexivity | ].
  destruct Hcase as [Habs | Hshape]; [discriminate Habs | ].
  apply (Hshape (http_log w)).
Qed.

(** With a daemon that acknowledges every toggle, and room for one
    nested handler, nothing the tray does prints a traceback. *)
Section Acknowledged.

Variable cfg : Config.
Variable net : Network.
Variable I : World -> Prop.

Hypothesis I_write : forall f w, I w -> I (with_tray f w).
Hypothesis I_notify : forall title message icon,
    preserves I (show_notification title message icon).
Hypothesis I_get : forall endpoint, preserves I (api_get cfg net endpoint).
Hypothesis I_post : forall endpoint data, preserves I (api_post cfg net endpoint data).
Hypothesis I_shown : forall n w, I w -> I (set_shown n w).
Hypothesis I_untimer : forall w, I w -> I (set_timers (List.tl (timers w)) w).
Hypothesis acked :
  forall b w, post_ok cfg net "/api/toggle" (PDict [("enabled", PBool b)]) w = true.

Lemma on_toggle_remapping_quiet depth w :
  I w -> exists w', on_toggle_remapping cfg net depth w = (Ok tt, w') /\ I w'.
Proof.
  intros Hw. rewrite on_toggle_remapping_eq.
  unfold bind at 1, read at 1. cbv beta iota.
  unfold bind at 1, write at 1. cbv beta iota. unfold bind at 1.
  match goal with |- context [api_post cfg net ?e ?d ?w1] =>
    pose proof (I_post e d w1 (I_write _ _ Hw)) as Hp;
    destruct (api_post_value cfg net e d w1) as (wp & E & _) end.
  rewrite E in *. rewrite acked. cbn [snd] in Hp.
  eexists. split; [reflexivity | ]. now apply I_notify.
Qed.

Lemma set_active_quiet depth b :
  0 < depth -> preserves I (set_active (activate cfg net depth) b).
Proof.
  intros Hroom w Hw. destruct depth as [ | below]; [lia | ].
  unfold set_active, bind, read. cbv beta iota.
  destruct (Bool.eqb (toggle_item (tray w)) b); [exact Hw | ].
  unfold write. cbv beta iota. unfold emit. cbn [activate].
  destruct (on_toggle_remapping_quiet below (with_tray (set_toggle_active b) w))
    as (w' & E & Hkeep); [now apply I_write | ].
  rewrite E. exact Hkeep.
Qed.

Lemma update_status_quiet depth :
  0 < depth -> preserves I (update_status cfg net depth).
Proof.
  intros Hroom.
  apply (update_status_preserves_via cfg net I I_write I_get I_shown).
  intros b. now apply set_active_quiet.
Qed.

Lemma dispatch_quiet depth ev :
  0 < depth -> preserves I (dispatch cfg net depth ev).
Proof.
  intros Hroom.
  apply (dispatch_preserves_via cfg net I I_write I_notify I_get I_post I_shown).
  - intros w Hw. unfold on_timer. pose proof (update_status_quiet depth Hroom w Hw) as Hu.
    destruct (update_status cfg net depth w) as [[ok | e] w']; cbn in *; [exact Hu | ].
    now apply I_untimer.
  - intros w Hw. destruct (on_toggle_remapping_quiet depth w Hw) as (w' & E & Hkeep).
    rewrite E. exact Hkeep.
Qed.

End Acknowledged.

Lemma tracebacks_kept_by_get cfg net endpoint w :
  tracebacks (snd (api_get cfg net endpoint w)) = tracebacks w.
Proof.
  unfold tracebacks, api_get, bind, log_call, mock_api_response, http, print, read, ret.
  destruct (MOCK_MODE cfg); cbn.
  - destruct (String.eqb endpoint "/api/status");
      [ | destruct (String.eqb endpoint "/api/profiles")]; reflexivity.
  - destruct (net _ _) as [ | | status [v | ]]; cbn;
      try destruct (raises_for_status status); cbn;
      rewrite ?filter_app, ?app_nil_r; reflexivity.
Qed.

Lemma tracebacks_kept_by_post cfg net endpoint data w :
  tracebacks (snd (api_post cfg net endpoint data w)) = tracebacks w.
Proof.
  unfold tracebacks, api_post, bind, log_call, http, print, ret.
  destruct (MOCK_MODE cfg); cbn; [now rewrite filter_app, app_nil_r | ].
  destruct (net _ _) as [ | | status body]; cbn;
    try destruct (raises_for_status status); cbn;
    rewrite ?filter_app, ?app_nil_r; reflexivity.
Qed.

(** X11. When the payloads keep to the API contract (the status is an
    object or nothing, the profile list is a list of objects whose name is
    a string), no handler the loop runs raises, whatever the event and
    the state, and startup reaches the main loop; in mock mode this holds
    without any condition.  When also the daemon acknowledges every
    toggle and the interpreter has room for one nested handler, no handler
    run by a signal raises either: no traceback is printed. *)
Theorem no_exception_on_well_shaped_payloads cfg net depth :
  MOCK_MODE cfg = true \/ daemon_well_shaped cfg net ->
  proc_loop (main cfg net depth) = Running
  /\ (forall ev w, fst (dispatch cfg net depth ev w) = Ok tt)
  /\ (0 < depth ->
      MOCK_MODE cfg = true \/ daemon_acks_toggles cfg net ->
      tracebacks (proc_world (main cfg net depth)) = []
      /\ forall ev w, tracebacks (snd (dispatch cfg net depth ev w)) = tracebacks w).
Proof.
  intros Hcase. pose proof (payloads_ok_of cfg net Hcase) as Hok.
  split; [now apply main_runs | ]. split; [intros ev w; now apply dispatch_returns | ].
  intros Hroom Hacks.
  assert (Hacked : forall b w,
             post_ok cfg net "/api/toggle" (PDict [("enabled", PBool b)]) w = true)
    by (intros b w; now apply post_ok_acked).
  assert (Hwrite : forall k f w, tracebacks w = k -> tracebacks (with_tray f w) = k)
    by (intros k f w Hw; exact Hw).
  assert (Hnotify : forall k title message icon,
             preserves (fun w => tracebacks w = k)
               (show_notification title message icon))
    by (intros k title message icon w Hw; exact Hw).
  assert (Hget : forall k endpoint,
             preserves (fun w => tracebacks w = k) (api_get cfg net endpoint))
    by (intros k endpoint w Hw; now rewrite tracebacks_kept_by_get).
  assert (Hpost : forall k endpoint data,
             preserves (fun w => tracebacks w = k) (api_post cfg net endpoint data))
    by (intros k endpoint data w Hw; now rewrite tracebacks_kept_by_post).
  assert (Hshown : forall k n w, tracebacks w = k -> tracebacks (set_shown n w) = k)
    by (intros k n w Hw; exact Hw).
  assert (Huntimer : forall k w,
             tracebacks w = k -> tracebacks (set_timers (List.tl (timers w)) w) = k)
    by (intros k w Hw; exact Hw).
  split.
  - destruct (main_run cfg net depth) as (w1 & _ & _ & _ & _ & _ & _ & Hco & E).
    rewrite E. cbv zeta.
    assert (Hstart : tracebacks w1 = []) by (unfold tracebacks; now rewrite Hco).
    pose proof (update_status_quiet cfg net (fun w => tracebacks w = [])
                  (Hwrite []) (Hnotify []) (Hget []) (Hpost []) (Hshown [])
                  Hacked depth Hroom w1 Hstart) as Hpoll.
    destruct (update_status cfg net depth w1) as [[ok | e] w']; exact Hpoll.
  - intros ev w.
    exact (dispatch_quiet cfg net (fun w' => tracebacks w' = tracebacks w)
             (Hwrite _) (Hnotify _) (Hget _) (Hpost _) (Hshown _) (Huntimer _)
             Hacked depth ev Hroom w eq_refl).
Qed.

Lemma no_exception_on_well_shaped_payloads_witness :
  proc_loop (main mock_cfg daemon_down 3) = Running
  /\ fst (dispatch mock_cfg daemon_down 3 (ProfileActivated (PStr "gaming"))
            mock_started) = Ok tt
  /\ tracebacks (snd (dispatch mock_cfg daemon_down 3 (ToggleActivated false)
                        mock_started)) = tracebacks mock_started.
Proof.
  destruct (no_exception_on_well_shaped_payloads mock_cfg daemon_down 3
              (or_introl eq_refl)) as (Hmain & Hstep & Hquiet).
  destruct Hquiet as (_ & Hnone); [lia | left; reflexivity | ].
  split; [exact Hmain | ]. split; [apply Hstep | apply Hnone].
Defined.

(** X5. [__init__] registers [update_status] on one timer, and nothing
    registers another.  The timer is removed when a poll it runs raises,
    and by nothing else; without it no tick polls.  So the tray has at
    most one timer, and exactly one for as long as the payloads keep to
    the API contract. *)
Theorem at_most_one_timer cfg net depth :
  let timer := (UPDATE_INTERVAL cfg, CbUpdateStatus) in
  let started := proc_world (main cfg net depth) in
  timers started = [timer]
  /\ (forall evs,
        timers (run_loop cfg net depth evs started) = [timer]
        \/ timers (run_loop cfg net depth evs started) = [])
  /\ (forall ev w,
        timers (deliver cfg net depth ev w) = timers w
        \/ (ev = Tick
            /\ (exists e, fst (update_status cfg net depth w) = Raise e)
            /\ timers (deliver cfg net depth ev w) = List.tl (timers w)))
  /\ (forall w, timers w = [] -> deliver cfg net depth Tick w = w)
  /\ (MOCK_MODE cfg = true \/ daemon_well_shaped cfg net ->
      forall evs, timers (run_loop cfg net depth evs started) = [timer]).
Proof.
  cbv zeta.
  assert (Hstart : timers (proc_world (main cfg net depth))
                   = [(UPDATE_INTERVAL cfg, CbUpdateStatus)]).
  { destruct (main_run cfg net depth) as (w1 & _ & _ & _ & Hti & _ & _ & _ & E).
    rewrite E. cbv zeta. pose proof (update_status_timers cfg net depth w1) as Hkeep.
    destruct (update_status cfg net depth w1) as [[ok | e] w']; cbn in *; congruence. }
  split; [exact Hstart | ]. split; [ | split; [ | split]].
  - intros evs.
    apply (run_loop_preserves_via cfg net
             (fun w => timers w = [(UPDATE_INTERVAL cfg, CbUpdateStatus)]
                       \/ timers w = [])); [ | now left].
    intros ev w Hw.
    destruct (deliver_timers cfg net depth ev w) as [Hsame | (_ & _ & Htl)].
    + now rewrite Hsame.
    + rewrite Htl. destruct Hw as [-> | ->]; now right.
  - intros ev w. apply deliver_timers.
  - intros w Hnone. unfold deliver. now rewrite Hnone.
  - intros Hcase evs. pose proof (payloads_ok_of cfg net Hcase) as Hok.
    apply (run_loop_preserves_via cfg net
             (fun w => timers w = [(UPDATE_INTERVAL cfg, CbUpdateStatus)]));
      [ | exact Hstart].
    intros ev w Hw.
    destruct (deliver_timers cfg net depth ev w) as [Hsame | (_ & (e & Hraise) & _)].
    + now rewrite Hsame.
    + rewrite (update_status_returns cfg net Hok depth w) in Hraise.
      discriminate Hraise.
Qed.

Lemma at_most_one_timer_witness :
  timers (run_loop live_cfg steady_daemon 3
            [Tick; ToggleActivated false; Tick; RefreshActivated]
            (proc_world (main live_cfg steady_daemon 3)))
  = [(5000%Z, CbUpdateStatus)].
Proof.
  destruct (at_most_one_timer live_cfg steady_daemon 3) as (_ & _ & _ & _ & Hkept).
  apply Hkept. right. intros history. split; reflexivity.
Defined.
(** ** Further properties: polling again *)

Lemma tray_ext (t t' : Tray) :
  daemon_running t = daemon_running t' ->
  current_profile t = current_profile t' ->
  remapping_enabled t = remapping_enabled t' ->
  profiles_loaded t = profiles_loaded t' ->
  status_item t = status_item t' ->
  toggle_item t = toggle_item t' ->
  indicator_icon t = indicator_icon t' ->
  profiles_submenu t = profiles_submenu t' ->
  t = t'.
Proof. destruct t, t'; cbn; intros; subst; reflexivity. Qed.

(** X16. Polling is idempotent once the profiles are loaded and the
    check item shows the daemon's flag: when a second poll gets the same
    status as the first (an object or nothing), it leaves the tray exactly
    as the first left it, shows no notification and makes no POST.  The
    check item shows the flag after the first poll when it showed it
    before, and also when the daemon acknowledges the toggle the poll
    sets off. *)
Theorem poll_is_idempotent cfg net depth w v :
  profiles_loaded (tray w) = true ->
  let w1 := snd (update_status cfg net depth w) in
  fst (api_get cfg net "/api/status" w) = Ok v ->
  fst (api_get cfg net "/api/status" w1) = Ok v ->
  status_ok v = true ->
  ((toggle_item (tray w) = status_flag v
    \/ (0 < depth /\ (MOCK_MODE cfg = true \/ daemon_acks_toggles cfg net))) ->
   py_truthy v = true -> toggle_item (tray w1) = status_flag v)
  /\ ((py_truthy v = true -> toggle_item (tray w1) = status_flag v) ->
      fst (update_status cfg net depth w1) = Ok true
      /\ tray (snd (update_status cfg net depth w1)) = tray w1
      /\ notifications (snd (update_status cfg net depth w1)) = notifications w1
      /\ post_calls (snd (update_status cfg net depth w1)) = post_calls w1).
Proof.
  intros Hloaded w1 Hget Hget1 Hshape.
  apply api_get_status_value in Hget, Hget1. subst w1.
  destruct (py_truthy v) eqn:Htruthy.
  - destruct v as [ | b | q | s | l | d]; cbn [status_ok] in Hshape;
      try (rewrite Htruthy in Hshape; discriminate Hshape).
    assert (Hne : d <> []) by (intros ->; discriminate Htruthy).
    unfold status_flag. cbn [py_get].
    set (enabled := match dict_lookup d "remapping_enabled" with
                    | Some x => x | None => PBool true end).
    destruct (update_status_ok cfg net depth w d Hget Hne)
      as (r & w1 & E & H1 & H2 & H3 & H4 & _ & Hquiet & Hrest).
    destruct (update_status_flag cfg net depth w d Hget Hne)
      as (wa & wb & Hia & _ & _ & Es & Hi & _).
    fold enabled in H4, Hquiet, Es.
    rewrite E in *. cbn [snd] in *. rewrite Hloaded in Hrest.
    destruct Hrest as (_ & Hl & Hs & _).
    split.
    + intros [Hshown | (Hroom & Hacks)] _.
      * destruct (Hquiet Hshown) as (Hitem & _). congruence.
      * destruct (Bool.bool_dec (toggle_item (tray wa)) (py_truthy enabled))
          as [Hsame | Hdiff].
        -- rewrite (set_active_same _ _ _ Hsame) in Es. injection Es as <-.
           congruence.
        -- destruct depth as [ | below]; [lia | ].
           destruct (set_active_acked cfg net below (py_truthy enabled) wa Hdiff)
             as (wb' & Es' & Htb & _); [now apply post_ok_acked | ].
           rewrite Es in Es'. injection Es' as <-. rewrite Hi, Htb. reflexivity.
    + intros Hshown. specialize (Hshown eq_refl).
      destruct (update_status_run cfg net depth w1 d Hget1 Hne)
        as (wc & wd & Htc & Hcc & Hnc & _ & _ & _ & _ & Hsame & E').
      fold enabled in Hsame, E'. rewrite (Hsame Hshown) in E'. rewrite Hl in E'.
      rewrite E'. cbn [fst snd with_tray tray notifications].
      split; [reflexivity | ]. split; [ | split].
      * rewrite Htc. apply tray_ext; cbn; congruence.
      * exact Hnc.
      * unfold post_calls. cbn [calls with_tray].
        rewrite Hcc, filter_app, length_app. cbn. lia.
  - split; [discriminate | intros _].
    destruct (update_status_failed cfg net depth w) as (w1 & E & Ht & _);
      [congruence | ].
    rewrite E in *. cbn [snd] in *.
    destruct (update_status_failed cfg net depth w1) as (w2 & E' & Ht' & Hc' & Hn' & _);
      [congruence | ].
    rewrite E'. cbn [fst snd]. rewrite Ht', Ht, Hn'.
    split; [reflexivity | ]. split; [reflexivity | ]. split; [reflexivity | ].
    unfold post_calls. rewrite Hc', filter_app, length_app. cbn. lia.
Qed.

Lemma poll_is_idempotent_witness :
  let w1 := snd (update_status live_cfg steady_daemon 3 steady_started) in
  tray (snd (update_status live_cfg steady_daemon 3 w1)) = tray w1.
Proof.
  destruct (poll_is_idempotent live_cfg steady_daemon 3 steady_started
              (status_payload "default" true) eq_refl eq_refl eq_refl eq_refl)
    as (Hshown & Hagain).
  apply Hagain. apply Hshown. left. reflexivity.
Defined.
(** ** Further properties: what the toolkit adds *)

(** X22. A profile switch the daemon refuses leaves the clicked entry as
    the click made it: the handler shows the error notification and
    touches nothing, so an entry that was unchecked stays checked next to
    the one the daemon has active. *)
Theorem refused_switch_stays_checked cfg net depth name w :
  post_ok cfg net "/api/profiles/activate" (PDict [("name", name)]) w = false ->
  well_formed_menu (tray w) ->
  let w' := snd (dispatch cfg net depth (ProfileActivated name) w) in
  tray w' = set_submenu (flip_item name (profiles_submenu (tray w))) (tray w)
  /\ profiles (tray w') = flip_item name (profiles (tray w))
  /\ notifications w'
     = notifications w
       ++ [mkNotification "KeyRx Error" (Fmt "Failed to switch to profile: " name)
             "dialog-error"].
Proof.
  intros Hrefused Hwf. cbv zeta.
  set (wc := with_tray (fun t => set_submenu (flip_item name (profiles_submenu t)) t) w).
  change (dispatch cfg net depth (ProfileActivated name) w)
    with (on_switch_profile cfg net name wc).
  destruct (on_switch_profile_failure cfg net name wc Hrefused)
    as (w' & E & Ht & _ & Hn & _).
  rewrite E. cbn [snd]. rewrite Ht, Hn. cbn [wc with_tray tray notifications].
  split; [reflexivity | ]. split; [ | reflexivity].
  unfold profiles at 1. cbn [set_submenu profiles_submenu].
  now rewrite (flip_item_profiles name _ Hwf).
Qed.

Lemma refused_switch_stays_checked_witness :
  let w' := snd (dispatch live_cfg daemon_down 3 (ProfileActivated (PStr "gaming"))
                   steady_started) in
  count_active (profiles (tray steady_started)) = 1
  /\ profiles (tray w') = [ProfileItem (PStr "default") true;
                           ProfileItem (PStr "gaming") true;
                           ProfileItem (PStr "coding") false]
  /\ count_active (profiles (tray w')) = 2.
Proof.
  cbv zeta.
  destruct (refused_switch_stays_checked live_cfg daemon_down 3 (PStr "gaming")
              steady_started eq_refl eq_refl) as (_ & Hlist & _).
  split; [reflexivity | ]. rewrite Hlist. split; reflexivity.
Defined.



(** X24. A poll is not read-only: when the status carries a flag the
    check item does not show, [set_active] changes the item and the
    toggle handler runs inside the poll.  With room for the handler and a
    daemon that acknowledges, the poll sends one POST to /api/toggle with
    the daemon's own flag, shows the notification of a toggle, and leaves
    the item and the field at that flag. *)
Theorem poll_sends_a_toggle cfg net depth w d :
  fst (api_get cfg net "/api/status" w) = Ok (PDict d) ->
  d <> [] ->
  toggle_item (tray w) <> status_flag (PDict d) ->
  0 < depth ->
  MOCK_MODE cfg = true \/ daemon_acks_toggles cfg net ->
  let flag := status_flag (PDict d) in
  let w' := snd (update_status cfg net depth w) in
  post_calls w' = S (post_calls w)
  /\ notifications w'
     = notifications w
       ++ [mkNotification "KeyRx Remapping"
             (Text ("Remapping " ++ (if flag then "enabled" else "disabled")))
             "input-keyboard"]
  /\ toggle_item (tray w') = flag
  /\ remapping_enabled (tray w') = flag.
Proof.
  intros Hget Hne Hdiff Hroom Hacks. apply api_get_status_value in Hget. cbv zeta.
  unfold status_flag in *. cbn [py_get] in *.
  set (enabled := match dict_lookup d "remapping_enabled" with
                  | Some x => x | None => PBool true end) in *.
  destruct depth as [ | below]; [lia | ].
  destruct (update_status_run cfg net (S below) w d Hget Hne)
    as (w1 & w2 & Ht1 & Hc1 & Hn1 & _ & _ & Es & _ & _ & E).
  fold enabled in Es, E.
  destruct (set_active_acked cfg net below (py_truthy enabled) w1)
    as (w2' & Es' & Ht2 & Hn2 & Hc2).
  { rewrite Ht1. exact Hdiff. }
  { now apply post_ok_acked. }
  rewrite Es in Es'. injection Es' as <-.
  assert (Hposts : post_calls w2 = S (post_calls w)).
  { unfold post_calls. rewrite Hc2, Hc1, !filter_app, !length_app. cbn. lia. }
  rewrite E. clear E.
  destruct (profiles_loaded (tray w)).
  - unfold post_calls in *. cbn [snd with_tray tray calls notifications set_icon
                                 toggle_item remapping_enabled].
    rewrite Hposts, Hn2, Hn1, Ht2. auto.
  - match goal with |- context [update_profiles cfg net ?wu] =>
      destruct (update_profiles_spec cfg net wu)
        as (r & its & w' & E' & Hf & _ & _ & Hc' & Hn' & _) end.
    rewrite E'. unfold fields in Hf. cbn in Hf, Hc', Hn'.
    injection Hf as _ _ G3 _ _ G6 _.
    assert (Hposts' : post_calls w' = S (post_calls w)).
    { unfold post_calls in *. rewrite Hc', filter_app, length_app. cbn. lia. }
    destruct r as [[] | e]; unfold post_calls in *;
      cbn [snd with_tray tray calls notifications set_profiles_loaded toggle_item
           remapping_enabled];
      rewrite Hposts', Hn', Hn2, Hn1, G3, G6, Ht2; auto.
Qed.

Lemma poll_sends_a_toggle_witness :
  let w' := snd (update_status live_cfg partial_daemon 3 switched_off_world) in
  toggle_item (tray switched_off_world) = false
  /\ post_calls w' = S (post_calls switched_off_world)
  /\ toggle_item (tray w') = true
  /\ remapping_enabled (tray w') = true.
Proof.
  cbv zeta.
  destruct (poll_sends_a_toggle live_cfg partial_daemon 3
              switched_off_world [("running", PBool true)] eq_refl)
    as (Hp & _ & Hi & Hf);
    [discriminate | discriminate | lia | right; intros history enabled; reflexivity | ].
  split; [reflexivity | ]. split; [exact Hp | ]. split; [exact Hi | exact Hf].
Defined.
